(** * H.264 decoder filter: backend negotiation, surface pool, dispatch loop

    A shallow embedding of [h264_decoder_filter.cpp].  Every definition below
    is a transcription of the C++ function of the same name.  Machine
    integers are [Z] with the wrap-around written out, COM status codes are
    signed 32-bit [Z] values, out-parameters and object fields are threaded
    explicitly, and a null pointer is [None]. *)

From Stdlib Require Import ZArith Lia Bool List.
From stdpp Require Import base option list gmap.
Import ListNotations.

Local Open Scope Z_scope.

(** ** Machine integers and COM status codes *)

(** Two's complement reading of the low 32 bits (C++ [int], [long],
    [HRESULT]). *)
Definition to_int (z : Z) : Z := (z + 2147483648) mod 4294967296 - 2147483648.

(** Two's complement reading of the low 64 bits ([REFERENCE_TIME],
    [LONGLONG]). *)
Definition to_int64 (z : Z) : Z :=
  (z + 9223372036854775808) mod 18446744073709551616 - 9223372036854775808.

Definition INT_MAX : Z := 2147483647.
Definition INT_MIN : Z := -2147483648.
Definition INT64_MIN : Z := -9223372036854775808.

Definition is_int (z : Z) : Prop := INT_MIN <= z <= INT_MAX.

Definition HRESULT := Z.

Definition S_OK : HRESULT := 0.
Definition S_FALSE : HRESULT := 1.
Definition E_NOTIMPL : HRESULT := to_int 0x80004001.
Definition E_NOINTERFACE : HRESULT := to_int 0x80004002.
Definition E_POINTER : HRESULT := to_int 0x80004003.
Definition E_FAIL : HRESULT := to_int 0x80004005.
Definition E_UNEXPECTED : HRESULT := to_int 0x8000FFFF.
Definition E_INVALIDARG : HRESULT := to_int 0x80070057.
Definition VFW_E_NOT_CONNECTED : HRESULT := to_int 0x80040209.
Definition VFW_E_TYPE_NOT_ACCEPTED : HRESULT := to_int 0x8004022A.
Definition MF_E_UNSUPPORTED_SERVICE : HRESULT := to_int 0xC00D36BA.

Definition FAILED (r : HRESULT) : bool := r <? 0.
Definition SUCCEEDED (r : HRESULT) : bool := 0 <=? r.

(** [MAKEFOURCC(ch0, ch1, ch2, ch3)], on character codes. *)
Definition MAKEFOURCC (ch0 ch1 ch2 ch3 : Z) : Z :=
  Z.lor (Z.lor ch0 (Z.shiftl ch1 8))
        (Z.lor (Z.shiftl ch2 16) (Z.shiftl ch3 24)).

(** ['N','V','1','2'] *)
Definition FOURCC_NV12 : Z := MAKEFOURCC 78 86 49 50.

(** Identities (GUIDs) that the filter names, and all the others. *)
Inductive GUID : Type :=
| GUID_NULL
| DXVA2_ModeH264_E
| DXVA2_ModeH264_F
| MEDIASUBTYPE_NV12
| MEDIASUBTYPE_YV12
| MEDIASUBTYPE_YUY2
| MR_BUFFER_SERVICE
| MR_VIDEO_ACCELERATION_SERVICE
| GUID_other (n : N).

#[global] Instance GUID_eq_dec : EqDecision GUID.
Proof. solve_decision. Defined.

(** Ways in which a call can end without returning. *)
Inductive Fault : Type :=
| NullDereference
| DivisionByZero
| AssertionFailure
| OutOfBoundsWrite (offset len size : Z).

(** How a call ends.  [Unfinished] is not an outcome of the program: it says
    that the iteration budget handed to a loop of the embedding ran out
    before the loop did. *)
Inductive Call (A : Type) : Type :=
| Returned (a : A)
| Faulted (why : Fault)
| Unfinished.
Arguments Returned {A} a.
Arguments Faulted {A} why.
Arguments Unfinished {A}.

(** The elements that [for (int i = 0; i < static_cast<int>(count); ++i)]
    visits in an array of [count] elements, [count] being unsigned. *)
Definition intPrefix {A : Type} (l : list A) : list A :=
  take (Z.to_nat (to_int (Z.of_nat (length l)))) l.

Lemma to_int_small z : is_int z -> to_int z = z.
Proof.
  unfold is_int, INT_MIN, INT_MAX, to_int. intros Hz.
  rewrite Z.mod_small by lia. lia.
Qed.

(** ** HardwareCapabilityAdvisor *)

Module Advisor.

(** [enum KDXVAH264Compatibility] *)
Definition DXVA_UNSUPPORTED_LEVEL : Z := 1.
Definition DXVA_TOO_MUCH_REF_FRAMES : Z := 2.
Definition DXVA_INCOMPATIBLE_SAR : Z := 4.

(** [LARGE_INTEGER]: the 64-bit [QuadPart] seen as a signed [HighPart] and
    an unsigned [LowPart]. *)
Definition HighPart (quad : Z) : Z := to_int (Z.shiftr quad 32).
Definition LowPart (quad : Z) : Z := Z.land quad 0xFFFFFFFF.

(** [HIWORD] and [LOWORD] give an unsigned 16-bit [WORD]. *)
Definition HIWORD (l : Z) : Z := Z.land (Z.shiftr l 16) 0xFFFF.
Definition LOWORD (l : Z) : Z := Z.land l 0xFFFF.

Definition hasDriverVersionReached (version a b c d : Z) : bool :=
  if HIWORD (HighPart version) >? a then true
  else
    if HIWORD (HighPart version) =? a then
      if LOWORD (HighPart version) >? b then true
      else
        if LOWORD (HighPart version) =? b then
          if HIWORD (LowPart version) >? c then true
          else
            if HIWORD (LowPart version) =? c then
              if LOWORD (LowPart version) >=? d then true else false
            else false
        else false
    else false.

(** The four ordinals of a packed driver version. *)
Definition versionTuple (version : Z) : Z * Z * Z * Z :=
  (HIWORD (HighPart version), LOWORD (HighPart version),
   HIWORD (LowPart version), LOWORD (LowPart version)).

(** A driver version as the hardware probe reports it: four 16-bit ordinals
    packed into 64 bits, major in the top word. *)
Definition packVersion (major minor build revision : Z) : Z :=
  major * 281474976710656 + minor * 4294967296 + build * 65536 + revision.

Definition is_word (z : Z) : Prop := 0 <= z < 65536.

(** The order the specification speaks of: greater than or equal, read
    lexicographically from the major component down. *)
Definition lex_ge (x y : Z * Z * Z * Z) : Prop :=
  let '(x1, x2, x3, x4) := x in
  let '(y1, y2, y3, y4) := y in
  x1 > y1 \/ (x1 = y1 /\
  (x2 > y2 \/ (x2 = y2 /\
  (x3 > y3 \/ (x3 = y3 /\ x4 >= y4))))).

(** What [CHardwareEnv::get()] and [win_util::GetWinVersion()] report. *)
Record CHardwareEnv : Type := {
  GetVideoCardVendor : Z;
  GetVideoCardDeviceID : Z;
  GetVideoCardDriverVersion : Z;
  GetWinVersion : Z
}.

(** The vendor and OS enumerators live in headers outside this file; the
    advisor is parametric in their values. *)
Record PlatformIds : Type := {
  PCI_VENDOR_NVIDIA : Z;
  PCI_VENDOR_S3_GRAPHICS : Z;
  PCI_VENDOR_ATI : Z;
  WINVERSION_VISTA : Z
}.

(** [std::min(11, 8388608 / (width * height))] on [int]: the product wraps,
    the quotient truncates, and a zero divisor has no result. *)
Definition maxRefFramesDPB41 (width height : Z) : option Z :=
  let area := to_int (width * height) in
  if area =? 0 then None
  else Some (Z.min 11 (Z.quot 8388608 area)).

(** The locals of [checkHWCompatibilityForH264] that feed its result. *)
Record Compat : Type := {
  noLevel51Support : Z;
  tooMuchRefFrames : Z;
  maxRefFrames : Z
}.

Section Classify.

Variable ids : PlatformIds.
Variable hw : CHardwareEnv.

(** The vendor branches: the pair (noLevel51Support, maxRefFrames) they
    leave, starting from [(1, dflt)]. *)
Definition vendorGate (width dflt : Z) : Z * Z :=
  let vendor := GetVideoCardVendor hw in
  let device := GetVideoCardDeviceID hw in
  let videoDriverVersion := GetVideoCardDriverVersion hw in
  if vendor =? PCI_VENDOR_NVIDIA ids then
    if GetWinVersion hw >=? WINVERSION_VISTA ids then
      if hasDriverVersionReached videoDriverVersion 7 15 11 7800 then
        (0, if width >=? 1280 then 16 else 11)
      else (1, dflt)
    else
      if hasDriverVersionReached videoDriverVersion 6 14 11 7800 then (0, 14)
      else (1, dflt)
  else if vendor =? PCI_VENDOR_S3_GRAPHICS ids then (0, dflt)
  else if vendor =? PCI_VENDOR_ATI ids then
    if (Z.shiftr device 8 =? 0x68) || (Z.shiftr device 8 =? 0x94) then
      if hasDriverVersionReached videoDriverVersion 8 14 1 6105 then (0, 16)
      else (1, dflt)
    else (1, dflt)
  else (1, dflt).

Definition checkHWLocals (width height videoLevel refFrameCount : Z)
  : option Compat :=
  if videoLevel >=? 0 then
    match maxRefFramesDPB41 width height with
    | None => None
    | Some dpb41 =>
        let '(no51, maxRef) := vendorGate width dpb41 in
        Some {| noLevel51Support := no51;
                tooMuchRefFrames := if refFrameCount >? maxRef then 1 else 0;
                maxRefFrames := maxRef |}
    end
  else Some {| noLevel51Support := 1; tooMuchRefFrames := 0;
               maxRefFrames := 0 |}.

Definition compatResult (videoLevel : Z) (l : Compat) : Z :=
  let hasVideoLevelReached51 := if videoLevel >=? 51 then 1 else 0 in
  (hasVideoLevelReached51 * noLevel51Support l * DXVA_UNSUPPORTED_LEVEL)
  + (tooMuchRefFrames l * DXVA_TOO_MUCH_REF_FRAMES).

(** [None]: the division by zero of a wrapped [width * height]. *)
Definition checkHWCompatibilityForH264
    (width height videoLevel refFrameCount : Z) : option Z :=
  compatResult videoLevel
  <$> checkHWLocals width height videoLevel refFrameCount.

End Classify.

(** Whether a classification carries a flag. *)
Definition hasFlag (compat flag : Z) : bool := Z.land compat flag =? flag.

(** *** Driver versions *)

(** 8.14.1.6105 packed as four 16-bit ordinals. *)
Example catalyst_10_4_reached :
  hasDriverVersionReached 0x0008000E000117D9 8 14 1 6105 = true.
Proof. reflexivity. Qed.

Ltac split_comparisons :=
  repeat match goal with
         | |- context [?x >? ?y] => destruct (Z.gtb_spec x y)
         | |- context [?x =? ?y] => destruct (Z.eqb_spec x y)
         | |- context [?x >=? ?y] => destruct (Z.geb_spec x y)
         end.

Lemma hasDriverVersionReached_iff version a b c d :
  hasDriverVersionReached version a b c d = true
  <-> lex_ge (versionTuple version) (a, b, c, d).
Proof.
  unfold hasDriverVersionReached, versionTuple, lex_ge.
  generalize (HIWORD (HighPart version)) (LOWORD (HighPart version))
             (HIWORD (LowPart version)) (LOWORD (LowPart version)).
  intros major minor build revision.
  split_comparisons; split; intros Hreached; try reflexivity;
    try discriminate Hreached; lia.
Qed.

Lemma lex_ge_refl x : lex_ge x x.
Proof. destruct x as [[[x1 x2] x3] x4]. unfold lex_ge. lia. Qed.

Lemma lex_ge_antisym x y : lex_ge x y -> lex_ge y x -> x = y.
Proof.
  destruct x as [[[x1 x2] x3] x4], y as [[[y1 y2] y3] y4].
  unfold lex_ge. intros Hxy Hyx.
  assert (x1 = y1 /\ x2 = y2 /\ x3 = y3 /\ x4 = y4) as (-> & -> & -> & ->)
    by lia.
  reflexivity.
Qed.

Lemma lex_ge_trans x y z : lex_ge x y -> lex_ge y z -> lex_ge x z.
Proof.
  destruct x as [[[x1 x2] x3] x4], y as [[[y1 y2] y3] y4],
           z as [[[z1 z2] z3] z4].
  unfold lex_ge. lia.
Qed.

Lemma lex_ge_total x y : lex_ge x y \/ lex_ge y x.
Proof.
  destruct x as [[[x1 x2] x3] x4], y as [[[y1 y2] y3] y4].
  unfold lex_ge. lia.
Qed.

Lemma to_int_cases z :
  0 <= z < 4294967296 -> to_int z = z \/ to_int z = z - 4294967296.
Proof.
  intros Hz. unfold to_int. destruct (Z_lt_le_dec z 2147483648).
  - left. rewrite Z.mod_small by lia. lia.
  - right.
    assert ((z + 2147483648) mod 4294967296 = z - 2147483648) as ->
      by (symmetry; apply (Z.mod_unique _ _ 1); lia).
    lia.
Qed.

Lemma LOWORD_mod l : LOWORD l = l mod 65536.
Proof.
  unfold LOWORD. change 0xFFFF with (Z.ones 16). apply Z.land_ones. lia.
Qed.

Lemma HIWORD_div l : HIWORD l = (l / 65536) mod 65536.
Proof.
  unfold HIWORD. change 0xFFFF with (Z.ones 16).
  rewrite Z.land_ones, Z.shiftr_div_pow2 by lia. reflexivity.
Qed.

(** The words of a 32-bit value made of two 16-bit halves, whether it is
    read as signed or not. *)
Lemma words_of_long hi lo l :
  is_word hi -> is_word lo ->
  l = hi * 65536 + lo \/ l = hi * 65536 + lo - 4294967296 ->
  HIWORD l = hi /\ LOWORD l = lo.
Proof.
  unfold is_word. intros Hhi Hlo Hl. rewrite HIWORD_div, LOWORD_mod.
  destruct Hl as [-> | ->].
  - assert ((hi * 65536 + lo) / 65536 = hi) as ->
      by (symmetry; apply (Z.div_unique _ _ _ lo); lia).
    split; symmetry.
    + apply (Z.mod_unique _ _ 0); lia.
    + apply (Z.mod_unique _ _ hi); lia.
  - assert ((hi * 65536 + lo - 4294967296) / 65536 = hi - 65536) as ->
      by (symmetry; apply (Z.div_unique _ _ _ lo); lia).
    split; symmetry.
    + apply (Z.mod_unique _ _ (-1)); lia.
    + apply (Z.mod_unique _ _ (hi - 65536)); lia.
Qed.

Lemma versionTuple_packVersion major minor build revision :
  is_word major -> is_word minor -> is_word build -> is_word revision ->
  versionTuple (packVersion major minor build revision)
  = (major, minor, build, revision).
Proof.
  intros Hmajor Hminor Hbuild Hrevision.
  pose proof Hmajor as Hmajor'. pose proof Hminor as Hminor'.
  pose proof Hbuild as Hbuild'. pose proof Hrevision as Hrevision'.
  unfold is_word in Hmajor', Hminor', Hbuild', Hrevision'.
  unfold versionTuple, HighPart, LowPart, packVersion.
  change 0xFFFFFFFF with (Z.ones 32).
  rewrite Z.land_ones, Z.shiftr_div_pow2 by lia.
  change (2 ^ 32) with 4294967296.
  assert ((major * 281474976710656 + minor * 4294967296 + build * 65536
           + revision) / 4294967296 = major * 65536 + minor) as ->
    by (symmetry; apply (Z.div_unique _ _ _ (build * 65536 + revision)); lia).
  assert ((major * 281474976710656 + minor * 4294967296 + build * 65536
           + revision) mod 4294967296 = build * 65536 + revision) as ->
    by (symmetry; apply (Z.mod_unique _ _ (major * 65536 + minor)); lia).
  destruct (words_of_long major minor (to_int (major * 65536 + minor)))
    as [-> ->]; [assumption | assumption | |].
  { destruct (to_int_cases (major * 65536 + minor)) as [-> | ->]; lia. }
  destruct (words_of_long build revision (build * 65536 + revision))
    as [-> ->]; auto.
Qed.

(** C3. [hasDriverVersionReached v a b c d] holds exactly when the
    version's (major, minor, build, revision) is lexicographically greater
    than or equal to (a, b, c, d), ties included; for a version packed from
    four 16-bit ordinals that tuple is the four ordinals; and the comparison
    is reflexive, antisymmetric, transitive and total on 4-tuples. *)
Theorem hasDriverVersionReached_total_order :
  (forall version a b c d,
      hasDriverVersionReached version a b c d = true
      <-> lex_ge (versionTuple version) (a, b, c, d))
  /\ (forall major minor build revision a b c d,
        is_word major /\ is_word minor /\ is_word build
        /\ is_word revision ->
        (hasDriverVersionReached (packVersion major minor build revision)
           a b c d = true
         <-> lex_ge (major, minor, build, revision) (a, b, c, d)))
  /\ (forall x, lex_ge x x)
  /\ (forall x y, lex_ge x y -> lex_ge y x -> x = y)
  /\ (forall x y z, lex_ge x y -> lex_ge y z -> lex_ge x z)
  /\ (forall x y, lex_ge x y \/ lex_ge y x).
Proof.
  split; [apply hasDriverVersionReached_iff |].
  split.
  { intros major minor build revision a b c d (Hmajor & Hminor & Hbuild & Hrev).
    rewrite hasDriverVersionReached_iff, versionTuple_packVersion by assumption.
    reflexivity. }
  repeat split.
  - apply lex_ge_refl.
  - apply lex_ge_antisym.
  - apply lex_ge_trans.
  - apply lex_ge_total.
Qed.

(** *** Reference-frame ceiling *)

Example dpb41_1280x720 : maxRefFramesDPB41 1280 720 = Some 9.
Proof. reflexivity. Qed.

Example dpb41_1920x1088 : maxRefFramesDPB41 1920 1088 = Some 4.
Proof. reflexivity. Qed.

Example dpb41_720x576 : maxRefFramesDPB41 720 576 = Some 11.
Proof. reflexivity. Qed.

Lemma maxRefFramesDPB41_in_range width height :
  0 < width -> 0 < height -> width * height <= INT_MAX ->
  maxRefFramesDPB41 width height
  = Some (Z.min 11 (8388608 / (width * height))).
Proof.
  intros Hw Hh Hfit. unfold maxRefFramesDPB41.
  assert (0 < width * height) as Hpos by lia.
  rewrite to_int_small by (unfold is_int, INT_MIN; lia).
  destruct (Z.eqb_spec (width * height) 0) as [Hz | _]; [lia |].
  rewrite Z.quot_div_nonneg by lia. reflexivity.
Qed.

Lemma dpb41_antitone area area' :
  0 < area <= area' ->
  Z.min 11 (8388608 / area') <= Z.min 11 (8388608 / area).
Proof.
  intros Hle.
  assert (8388608 / area' <= 8388608 / area)
    by (apply Z.div_le_compat_l; lia).
  lia.
Qed.

Lemma vendorGate_level_flag ids hw width dflt :
  fst (vendorGate ids hw width dflt) = 0
  \/ fst (vendorGate ids hw width dflt) = 1.
Proof.
  unfold vendorGate.
  repeat match goal with
         | |- context [if ?c then _ else _] => destruct c
         end; simpl; auto.
Qed.

Lemma tooMuchRefFrames_flag videoLevel no51 too maxRef :
  (no51 = 0 \/ no51 = 1) -> (too = 0 \/ too = 1) ->
  hasFlag (compatResult videoLevel
             {| noLevel51Support := no51; tooMuchRefFrames := too;
                maxRefFrames := maxRef |}) DXVA_TOO_MUCH_REF_FRAMES = true
  <-> too = 1.
Proof.
  unfold hasFlag, compatResult; simpl.
  intros [-> | ->] [-> | ->]; destruct (videoLevel >=? 51); simpl;
    split; intros Hflag; try reflexivity; try discriminate Hflag; lia.
Qed.

(** C2, as the code has it.  When [width * height] fits an [int], the
    ceiling before the vendor branches is min(11, 8388608 / (width*height)),
    it does not grow with the picture area, and the result carries
    TOO_MUCH_REF_FRAMES exactly when [refFrameCount] exceeds the ceiling the
    vendor branches leave. *)
Theorem checkHW_ref_frames_in_range ids hw width height videoLevel
    refFrameCount :
  0 < width -> 0 < height -> width * height <= INT_MAX -> 0 <= videoLevel ->
  maxRefFramesDPB41 width height
  = Some (Z.min 11 (8388608 / (width * height)))
  /\ (forall width' height',
        0 < width' -> 0 < height' -> width' * height' <= INT_MAX ->
        width * height <= width' * height' ->
        exists m m',
          maxRefFramesDPB41 width height = Some m
          /\ maxRefFramesDPB41 width' height' = Some m' /\ m' <= m)
  /\ exists l,
      checkHWLocals ids hw width height videoLevel refFrameCount = Some l
      /\ maxRefFrames l
         = snd (vendorGate ids hw width
                  (Z.min 11 (8388608 / (width * height))))
      /\ checkHWCompatibilityForH264 ids hw width height videoLevel
           refFrameCount = Some (compatResult videoLevel l)
      /\ (hasFlag (compatResult videoLevel l) DXVA_TOO_MUCH_REF_FRAMES = true
          <-> refFrameCount > maxRefFrames l).
Proof.
  intros Hw Hh Hfit Hlevel.
  pose proof (maxRefFramesDPB41_in_range width height Hw Hh Hfit) as Hdpb.
  split; [exact Hdpb |]. split.
  - intros width' height' Hw' Hh' Hfit' Hle.
    eexists _, _. split; [exact Hdpb |]. split.
    + apply maxRefFramesDPB41_in_range; assumption.
    + apply dpb41_antitone. lia.
  - unfold checkHWCompatibilityForH264, checkHWLocals.
    destruct (Z.geb_spec videoLevel 0) as [_ | Hneg]; [| lia].
    rewrite Hdpb.
    pose proof (vendorGate_level_flag ids hw width
                  (Z.min 11 (8388608 / (width * height)))) as Hno51.
    destruct (vendorGate ids hw width (Z.min 11 (8388608 / (width * height))))
      as [no51 maxRef] eqn:Hgate.
    simpl in Hno51. eexists. split; [reflexivity |].
    split; [reflexivity |]. split; [reflexivity |]. simpl maxRefFrames.
    rewrite tooMuchRefFrames_flag.
    + destruct (Z.gtb_spec refFrameCount maxRef); split; intros; try lia;
        try discriminate; reflexivity.
    + exact Hno51.
    + destruct (refFrameCount >? maxRef); auto.
Qed.

(** A card that is neither NVIDIA, S3 nor ATI, on a pre-Vista system. *)
Definition pciIds : PlatformIds :=
  {| PCI_VENDOR_NVIDIA := 0x10DE; PCI_VENDOR_S3_GRAPHICS := 0x5333;
     PCI_VENDOR_ATI := 0x1002; WINVERSION_VISTA := 4 |}.

Definition intelCard : CHardwareEnv :=
  {| GetVideoCardVendor := 0x8086; GetVideoCardDeviceID := 0x0046;
     GetVideoCardDriverVersion := 0x0008000F000A0932; GetWinVersion := 2 |}.

Lemma checkHW_ref_frames_in_range_witness :
  maxRefFramesDPB41 1280 720 = Some (Z.min 11 (8388608 / (1280 * 720)))
  /\ exists l,
      checkHWLocals pciIds intelCard 1280 720 41 8 = Some l
      /\ (hasFlag (compatResult 41 l) DXVA_TOO_MUCH_REF_FRAMES = true
          <-> 8 > maxRefFrames l).
Proof.
  assert (0 < 1280) as Hw by lia.
  assert (0 < 720) as Hh by lia.
  assert (1280 * 720 <= INT_MAX) as Hfit by (unfold INT_MAX; lia).
  assert (0 <= 41) as Hlevel by lia.
  destruct (checkHW_ref_frames_in_range pciIds intelCard 1280 720 41 8
              Hw Hh Hfit Hlevel) as (Hdpb & _ & l & Hl & _ & _ & Hflag).
  split; [exact Hdpb |]. exists l. split; [exact Hl | exact Hflag].
Defined.

(** C2 as written fails once [width * height] leaves the [int] range: at
    65536 x 65537 the product wraps to 65536 and the code's ceiling is 11,
    where min(11, 8388608 / (width*height)) is 0. *)
Lemma maxRefFrames_wraps_counterexample :
  0 < 65536 /\ 0 < 65537 /\ 0 <= 41
  /\ maxRefFramesDPB41 65536 65537 = Some 11
  /\ Z.min 11 (8388608 / (65536 * 65537)) = 0
  /\ maxRefFramesDPB41 65536 65537
     <> Some (Z.min 11 (8388608 / (65536 * 65537)))
  /\ maxRefFramesDPB41 65536 65536 = None.
Proof.
  repeat split; try reflexivity; discriminate.
Qed.

End Advisor.

(** ** Hardware samples and the surface pool allocator *)

Module SurfacePool.

(** An [IDirect3DSurface9] object: its identity and what its
    [QueryInterface] answers (status and the interface pointer written to
    the out-parameter). *)
Record IDirect3DSurface9 : Type := {
  surfaceHandle : N;
  QueryInterface : GUID -> HRESULT * option N
}.

Record CDXVA2Sample : Type := {
  m_surface : option IDirect3DSurface9;
  m_surfaceID : Z
}.

(** The constructor's member initialisers: [m_surface()], [m_surfaceID(0)]. *)
Definition newSample : CDXVA2Sample :=
  {| m_surface := None; m_surfaceID := 0 |}.

Definition setSurface (s : CDXVA2Sample) (surfaceID : Z)
    (surface : option IDirect3DSurface9) : CDXVA2Sample :=
  {| m_surface := surface; m_surfaceID := surfaceID |}.

(** [o] is the caller's out-parameter; the call returns its status and what
    [o] holds afterwards. *)
Definition GetService (s : CDXVA2Sample) (service ID : GUID) (o : option N)
  : Call (HRESULT * option N) :=
  if bool_decide (service <> MR_BUFFER_SERVICE) then
    Returned (MF_E_UNSUPPORTED_SERVICE, o)
  else if bool_decide (is_Some (m_surface s)) then
    Returned (E_NOINTERFACE, o)
  else
    match m_surface s with
    | Some surface => Returned (QueryInterface surface ID)
    | None => Faulted NullDereference
    end.

(** The allocator, the sample objects it owns on the heap, and the part of
    the decoder filter it calls into.  [m_lFree] holds sample addresses, head
    first.  [surfaceRequests] and [flushes] only record the calls made to
    [GetSurface] and [FlushDXVADecoder]. *)
Record CDXVA2Allocator : Type := {
  m_lCount : Z;
  m_lAllocated : Z;
  m_bChanged : bool;
  m_lFree : list nat;
  heap : gmap nat CDXVA2Sample;
  nextAddress : nat;
  m_surfaces : list (option IDirect3DSurface9);
  surfaceRequests : list Z;
  flushes : nat
}.

Definition set_lAllocated (n : Z) (a : CDXVA2Allocator) : CDXVA2Allocator :=
  {| m_lCount := m_lCount a; m_lAllocated := n; m_bChanged := m_bChanged a;
     m_lFree := m_lFree a; heap := heap a; nextAddress := nextAddress a;
     m_surfaces := m_surfaces a; surfaceRequests := surfaceRequests a;
     flushes := flushes a |}.

Definition set_bChanged (b : bool) (a : CDXVA2Allocator) : CDXVA2Allocator :=
  {| m_lCount := m_lCount a; m_lAllocated := m_lAllocated a; m_bChanged := b;
     m_lFree := m_lFree a; heap := heap a; nextAddress := nextAddress a;
     m_surfaces := m_surfaces a; surfaceRequests := surfaceRequests a;
     flushes := flushes a |}.

(** [new CDXVA2Sample(this, &r)]: a fresh object on the heap. *)
Definition allocSample (a : CDXVA2Allocator) : nat * CDXVA2Allocator :=
  (nextAddress a,
   {| m_lCount := m_lCount a; m_lAllocated := m_lAllocated a;
      m_bChanged := m_bChanged a; m_lFree := m_lFree a;
      heap := <[nextAddress a := newSample]> (heap a);
      nextAddress := S (nextAddress a);
      m_surfaces := m_surfaces a; surfaceRequests := surfaceRequests a;
      flushes := flushes a |}).

(** [CH264DecoderFilter::GetSurface].  The source has no lower bound on
    [n] and would read before the vector for a negative index; [Alloc], its
    only caller here, never passes one
    ([PoolFacts.Alloc_requests_from_zero]), and a negative index is
    answered with a null pointer in this model. *)
Definition GetSurface (a : CDXVA2Allocator) (n : Z)
  : option IDirect3DSurface9 * CDXVA2Allocator :=
  ((if n <? 0 then None
    else if n <? Z.of_nat (length (m_surfaces a)) then
           mjoin (m_surfaces a !! Z.to_nat n)
         else None),
   {| m_lCount := m_lCount a; m_lAllocated := m_lAllocated a;
      m_bChanged := m_bChanged a; m_lFree := m_lFree a; heap := heap a;
      nextAddress := nextAddress a; m_surfaces := m_surfaces a;
      surfaceRequests := surfaceRequests a ++ [n];
      flushes := flushes a |}).

(** [sample->setSurface(m_lAllocated, surf); m_lFree.Add(sample);]
    [CSampleList::Add] links the sample in at the head. *)
Definition bindAndAdd (p : nat) (surf : option IDirect3DSurface9)
    (a : CDXVA2Allocator) : CDXVA2Allocator :=
  {| m_lCount := m_lCount a; m_lAllocated := m_lAllocated a;
     m_bChanged := m_bChanged a; m_lFree := p :: m_lFree a;
     heap := alter (fun s => setSurface s (m_lAllocated a) surf) p (heap a);
     nextAddress := nextAddress a; m_surfaces := m_surfaces a;
     surfaceRequests := surfaceRequests a; flushes := flushes a |}.

(** The [do ... while (sample)] of [Free]: take the head, delete it. *)
Fixpoint deleteSamples (free : list nat) (h : gmap nat CDXVA2Sample)
  : gmap nat CDXVA2Sample :=
  match free with
  | [] => h
  | sample :: rest => deleteSamples rest (delete sample h)
  end.

Definition Free (a : CDXVA2Allocator) : CDXVA2Allocator :=
  {| m_lCount := m_lCount a; m_lAllocated := 0; m_bChanged := m_bChanged a;
     m_lFree := []; heap := deleteSamples (m_lFree a) (heap a);
     nextAddress := nextAddress a; m_surfaces := m_surfaces a;
     surfaceRequests := surfaceRequests a; flushes := S (flushes a) |}.

Section Alloc.

(** The base classes are outside this file: [CBaseAllocator::Alloc] answers
    a status, and the [CMediaSample] constructor may overwrite the status it
    is handed (the slot index tells the calls apart). *)
Variable CBaseAllocator_Alloc : HRESULT.
Variable CMediaSample_ctor : Z -> HRESULT -> HRESULT.

(** The [for] loop of [Alloc], entered with [n = m_lAllocated + 1]
    iterations ahead.  It answers the status at the loop's exit. *)
Fixpoint allocLoop (n : nat) (r : HRESULT) (a : CDXVA2Allocator)
  : HRESULT * CDXVA2Allocator :=
  match n with
  | O => (r, a)
  | S n' =>
      let '(sample, a) := allocSample a in
      let r := CMediaSample_ctor (m_lAllocated a) r in
      if FAILED r then (r, a)
      else
        let '(surf, a) := GetSurface a (m_lAllocated a) in
        match surf with
        | None => (E_UNEXPECTED, a)
        | Some _ =>
            allocLoop n' r
              (set_lAllocated (m_lAllocated a - 1) (bindAndAdd sample surf a))
        end
  end.

Definition Alloc (a : CDXVA2Allocator) : HRESULT * CDXVA2Allocator :=
  let r := CBaseAllocator_Alloc in
  if FAILED r then (r, a)
  else
    let a := Free a in
    let a := set_lAllocated (to_int (m_lCount a - 1)) a in
    let '(r, a) := allocLoop (Z.to_nat (m_lAllocated a + 1)) r a in
    if FAILED r then (r, Free a)
    else (r, set_bChanged false a).

End Alloc.

(** *** The sample's service query *)

Lemma GetService_other_service s service ID o :
  service <> MR_BUFFER_SERVICE ->
  GetService s service ID o = Returned (MF_E_UNSUPPORTED_SERVICE, o).
Proof.
  intros Hother. unfold GetService.
  rewrite bool_decide_eq_true_2 by exact Hother. reflexivity.
Qed.

Lemma GetService_unbound ID o :
  GetService newSample MR_BUFFER_SERVICE ID o = Faulted NullDereference.
Proof. reflexivity. Qed.

(** A surface whose [QueryInterface] hands out interface 7 for any IID. *)
Definition plainSurface (handle : N) : IDirect3DSurface9 :=
  {| surfaceHandle := handle; QueryInterface := fun _ => (S_OK, Some 7%N) |}.

(** C5 on the code.  Once a surface is bound with [setSurface], a query for
    MR_BUFFER_SERVICE never reaches the surface's [QueryInterface]: the
    sample answers the failure E_NOINTERFACE and leaves the out-parameter as
    it was, whatever the surface would have answered. *)
Theorem GetService_bound_surface_refused s surfaceID surface ID o :
  GetService (setSurface s surfaceID (Some surface)) MR_BUFFER_SERVICE ID o
  = Returned (E_NOINTERFACE, o)
  /\ FAILED E_NOINTERFACE = true.
Proof. split; reflexivity. Qed.

Example GetService_slot3 :
  GetService (setSurface newSample 3 (Some (plainSurface 3)))
    MR_BUFFER_SERVICE (GUID_other 9) None
  = Returned (E_NOINTERFACE, None)
  /\ QueryInterface (plainSurface 3) (GUID_other 9) = (S_OK, Some 7%N).
Proof. split; reflexivity. Qed.

(** *** The allocator *)

Definition emptyAllocator (count : Z)
    (surfaces : list (option IDirect3DSurface9)) : CDXVA2Allocator :=
  {| m_lCount := count; m_lAllocated := 0; m_bChanged := true;
     m_lFree := []; heap := ∅; nextAddress := 0%nat;
     m_surfaces := surfaces; surfaceRequests := []; flushes := 0%nat |}.

(** The slot indices of the pool's samples, head first. *)
Definition poolSlots (a : CDXVA2Allocator) : list (option Z) :=
  (fun p => m_surfaceID <$> heap a !! p) <$> m_lFree a.

(** Slot indices [n-1, ..., 0]. *)
Definition descending (n : nat) : list Z := Z.of_nat <$> rev (seq 0 n).

Example Alloc_three :
  let a' := (Alloc S_OK (fun _ r => r)
               (emptyAllocator 3 [Some (plainSurface 10);
                                  Some (plainSurface 11);
                                  Some (plainSurface 12)])).2 in
  poolSlots a' = [Some 0; Some 1; Some 2]
  /\ surfaceRequests a' = [2; 1; 0]
  /\ m_lFree a' = [2%nat; 1%nat; 0%nat].
Proof. vm_compute. repeat split; reflexivity. Qed.

Lemma GetSurface_of_nat a k :
  (GetSurface a (Z.of_nat k)).1 = mjoin (m_surfaces a !! k).
Proof.
  unfold GetSurface; simpl.
  destruct (Z.ltb_spec (Z.of_nat k) 0) as [Hneg | _]; [lia |].
  rewrite Nat2Z.id.
  destruct (Z.ltb_spec (Z.of_nat k) (Z.of_nat (length (m_surfaces a))))
    as [_ | Hout]; [reflexivity |].
  rewrite lookup_ge_None_2 by lia. reflexivity.
Qed.

Lemma descending_S n : descending (S n) = Z.of_nat n :: descending n.
Proof.
  unfold descending. rewrite seq_S, rev_app_distr. reflexivity.
Qed.

Lemma FAILED_E_UNEXPECTED : FAILED E_UNEXPECTED = true.
Proof. reflexivity. Qed.

(** What a run of the loop that ends without a failure has done: one
    sample per slot, constructed from the highest slot down, each bound to
    the decoder's surface of its own slot, linked in at the head. *)
Lemma allocLoop_success ctor n : forall r a r' a',
  allocLoop ctor n r a = (r', a') ->
  FAILED r' = false ->
  m_lAllocated a = Z.of_nat n - 1 ->
  m_lFree a' = rev (seq (nextAddress a) n) ++ m_lFree a
  /\ surfaceRequests a' = surfaceRequests a ++ descending n
  /\ (forall q, (q < nextAddress a)%nat -> heap a' !! q = heap a !! q)
  /\ (forall k, (k < n)%nat ->
        exists surf,
          mjoin (m_surfaces a !! k) = Some surf
          /\ heap a' !! (nextAddress a + (n - 1 - k))%nat
             = Some {| m_surface := Some surf; m_surfaceID := Z.of_nat k |})
  /\ m_lCount a' = m_lCount a /\ m_surfaces a' = m_surfaces a
  /\ m_bChanged a' = m_bChanged a /\ flushes a' = flushes a.
Proof.
  induction n as [| n IH]; intros r a r' a' Hrun Hok Hidx.
  - simpl in Hrun. injection Hrun as <- <-.
    rewrite app_nil_r. repeat split; try reflexivity.
    intros k Hk. lia.
  - simpl in Hrun.
    destruct (FAILED (ctor (m_lAllocated a) r)) eqn:Hctor.
    { injection Hrun as <- <-. congruence. }
    pose proof (GetSurface_of_nat a n) as Hsurf.
    replace (Z.of_nat n) with (m_lAllocated a) in Hsurf by lia.
    unfold GetSurface in Hsurf, Hrun; simpl in Hsurf, Hrun.
    rewrite Hsurf in Hrun.
    destruct (mjoin (m_surfaces a !! n)) as [surf |] eqn:Hslot.
    2: { injection Hrun as <- <-. rewrite FAILED_E_UNEXPECTED in Hok.
         discriminate Hok. }
    apply IH in Hrun; [| exact Hok | simpl; lia].
    simpl in Hrun.
    destruct Hrun as (Hfree & Hreq & Hframe & Hslots & Hcount & Hsurfs
                      & Hchanged & Hflush).
    repeat split; try assumption.
    + rewrite Hfree. simpl. rewrite <- app_assoc. reflexivity.
    + rewrite Hreq, descending_S, <- app_assoc, Hidx. simpl.
      do 3 f_equal. lia.
    + intros q Hq. rewrite Hframe by lia.
      rewrite lookup_alter_ne, lookup_insert_ne by lia. reflexivity.
    + intros k Hk. destruct (decide (k = n)) as [-> | Hne].
      * exists surf. split; [exact Hslot |].
        replace (nextAddress a + (S n - 1 - n))%nat with (nextAddress a)
          by lia.
        rewrite Hframe by lia.
        rewrite lookup_alter_eq, lookup_insert_eq. simpl.
        unfold setSurface. do 2 f_equal. lia.
      * destruct (Hslots k) as (surf' & Hslot' & Hheap'); [lia |].
        exists surf'. split; [exact Hslot' |].
        replace (nextAddress a + (S n - 1 - k))%nat
          with (S (nextAddress a) + (n - 1 - k))%nat by lia.
        exact Hheap'.
Qed.

(** A successful [Alloc] leaves exactly [m_lCount] samples, constructed in
    descending slot order (the surface requests go [m_lCount-1, ..., 0]) and
    each bound to the surface of its own slot; the free list holds them with
    slot 0 at the head. *)
Lemma Alloc_success base ctor a r a' :
  0 <= m_lCount a <= INT_MAX ->
  Alloc base ctor a = (r, a') ->
  FAILED r = false ->
  let n := Z.to_nat (m_lCount a) in
  m_lFree a' = rev (seq (nextAddress a) n)
  /\ surfaceRequests a' = surfaceRequests a ++ descending n
  /\ (forall k, (k < n)%nat ->
        exists surf,
          mjoin (m_surfaces a !! k) = Some surf
          /\ heap a' !! (nextAddress a + (n - 1 - k))%nat
             = Some {| m_surface := Some surf; m_surfaceID := Z.of_nat k |}).
Proof.
  intros Hcount Hrun Hok n. unfold Alloc in Hrun.
  destruct (FAILED base) eqn:Hbase.
  { injection Hrun as <- <-. congruence. }
  simpl in Hrun.
  rewrite to_int_small in Hrun
    by (unfold is_int, INT_MIN, INT_MAX in *; lia).
  replace (Z.to_nat (m_lCount a - 1 + 1)) with n in Hrun by (subst n; lia).
  destruct (allocLoop ctor n base _) as [r1 a1] eqn:Hloop.
  destruct (FAILED r1) eqn:Hr1.
  { injection Hrun as <- <-. congruence. }
  injection Hrun as <- <-.
  apply allocLoop_success in Hloop; [| exact Hr1 | simpl; subst n; lia].
  simpl in Hloop.
  destruct Hloop as (Hfree & Hreq & _ & Hslots & _).
  simpl. rewrite app_nil_r in Hfree. auto.
Qed.

(** A failure in the middle of the loop ends in [Free]: no sample stays on
    the free list. *)
Lemma Alloc_failure_empties_pool base ctor a r a' :
  FAILED base = false ->
  Alloc base ctor a = (r, a') ->
  FAILED r = true ->
  m_lFree a' = [] /\ m_lAllocated a' = 0.
Proof.
  intros Hbase Hrun Hfail. unfold Alloc in Hrun. rewrite Hbase in Hrun.
  destruct (allocLoop _ _ _ _) as [r1 a1].
  destruct (FAILED r1) eqn:Hr1.
  - injection Hrun as <- <-. split; reflexivity.
  - injection Hrun as <- <-. congruence.
Qed.

Lemma deleteSamples_other free : forall (h : gmap nat CDXVA2Sample) p,
  p ∉ free -> deleteSamples free h !! p = h !! p.
Proof.
  induction free as [| q free IH]; intros h p Hfresh; cbn [deleteSamples];
    [reflexivity |].
  apply not_elem_of_cons in Hfresh as [Hne Hfresh].
  rewrite IH by exact Hfresh. apply lookup_delete_ne. congruence.
Qed.

(** A run of the loop that ends in a failure leaves the sample of the
    failing iteration on the heap, off the free list. *)
Lemma allocLoop_failure ctor n : forall r a r' a',
  allocLoop ctor n r a = (r', a') ->
  FAILED r = false -> FAILED r' = true ->
  Forall (fun q => (q < nextAddress a)%nat) (m_lFree a) ->
  exists p,
    (nextAddress a <= p)%nat
    /\ heap a' !! p = Some newSample
    /\ Forall (fun q => (q < p)%nat) (m_lFree a').
Proof.
  induction n as [| n IH]; intros r a r' a' Hrun Hok Hfail Hfree.
  - simpl in Hrun. injection Hrun as <- <-. congruence.
  - simpl in Hrun.
    destruct (FAILED (ctor (m_lAllocated a) r)) eqn:Hctor.
    { injection Hrun as <- <-. exists (nextAddress a). simpl.
      split; [lia |]. split; [apply lookup_insert_eq | exact Hfree]. }
    unfold GetSurface in Hrun; simpl in Hrun.
    match type of Hrun with
    | context [match ?x with Some _ => _ | None => _ end] =>
        destruct x as [surf |] eqn:Hsurf
    end.
    + apply IH in Hrun; [| exact Hctor | exact Hfail |].
      * destruct Hrun as (p & Hp & Hheap & Hbelow). simpl in Hp.
        exists p. split; [lia |]. split; assumption.
      * simpl. constructor; [lia |].
        eapply Forall_impl; [exact Hfree |]. simpl. intros q Hq. lia.
    + injection Hrun as <- <-. exists (nextAddress a). simpl.
      split; [lia |]. split; [apply lookup_insert_eq | exact Hfree].
Qed.

(** C9 on the code.  Whenever [Alloc] fails after the base class let it
    proceed (a sample constructor reported a failure, or the decoder had no
    surface for a slot), the free list ends up empty, but a sample
    constructed during the call is still on the heap afterwards: the one of
    the failing iteration was never put on the free list, so [Free] does not
    delete it. *)
Theorem Alloc_failure_leaks_sample base ctor a r a' :
  FAILED base = false ->
  Alloc base ctor a = (r, a') ->
  FAILED r = true ->
  m_lFree a' = []
  /\ exists p, (nextAddress a <= p)%nat /\ heap a' !! p = Some newSample.
Proof.
  intros Hbase Hrun Hfail. unfold Alloc in Hrun. rewrite Hbase in Hrun.
  destruct (allocLoop _ _ _ _) as [r1 a1] eqn:Hloop.
  destruct (FAILED r1) eqn:Hr1.
  2: { injection Hrun as <- <-. congruence. }
  injection Hrun as <- <-. split; [reflexivity |].
  apply allocLoop_failure in Hloop; [| exact Hbase | exact Hr1 | constructor].
  destruct Hloop as (p & Hp & Hheap & Hbelow). simpl in Hp.
  exists p. split; [exact Hp |].
  simpl. rewrite deleteSamples_other; [exact Hheap |].
  intros Hin. rewrite Forall_forall in Hbelow.
  specialize (Hbelow p Hin). lia.
Qed.

(** Sixteen samples asked for, no surface held by the decoder. *)
Lemma Alloc_failure_leaks_sample_witness :
  let a := emptyAllocator 16 [] in
  let a' := (Alloc S_OK (fun _ r => r) a).2 in
  m_lFree a' = []
  /\ exists p, (nextAddress a <= p)%nat /\ heap a' !! p = Some newSample.
Proof.
  apply (Alloc_failure_leaks_sample S_OK (fun _ r => r)
           (emptyAllocator 16 []) E_UNEXPECTED); reflexivity.
Defined.

(** Two samples asked for and a surface for slot 0 only: the lookup for
    slot 1 fails in the first iteration, and the sample constructed for it
    (address 0) stays on the heap. *)
Example Alloc_failed_lookup :
  let a := emptyAllocator 2 [Some (plainSurface 10)] in
  let '(r, a') := Alloc S_OK (fun _ r => r) a in
  r = E_UNEXPECTED
  /\ m_lFree a' = []
  /\ surfaceRequests a' = [1]
  /\ heap a' !! 0%nat = Some newSample
  /\ heap a !! 0%nat = None.
Proof. vm_compute. repeat split; reflexivity. Qed.

(** Three samples asked for and no surface for slot 1: the sample of slot 2
    (address 0) is deleted by [Free], the one of slot 1 (address 1) is not. *)
Example Alloc_failed_midway :
  let a := emptyAllocator 3 [Some (plainSurface 10); None;
                             Some (plainSurface 12)] in
  let '(r, a') := Alloc S_OK (fun _ r => r) a in
  r = E_UNEXPECTED
  /\ m_lFree a' = []
  /\ surfaceRequests a' = [2; 1]
  /\ heap a' !! 0%nat = None
  /\ heap a' !! 1%nat = Some newSample.
Proof. vm_compute. repeat split; reflexivity. Qed.

End SurfacePool.

(** ** BackendNegotiator *)

Module Negotiator.

Import Advisor.

(** The pre-decode context behind [m_preDecode], as far as the filter reads
    it. *)
Record PreDecode : Type := {
  GetWidth : Z;
  GetHeight : Z;
  GetVideoLevel : Z;
  GetRefFrameCount : Z
}.

(** The three decoders the filter can install in [m_decoder].  Their
    classes are declared in [h264_decoder.h]; a [new] expression is taken to
    yield the object with the arguments it was given. *)
Inductive Backend : Type :=
| CH264DXVA1Decoder (decoderID : GUID) (surfaceCount : Z)
| CH264DXVA2Decoder (decoderID : GUID)
| CH264SWDecoder.

Record DXVA2_ConfigPictureDecode : Type := {
  ConfigBitstreamRaw : Z;
  (** the other fields of the structure, taken together *)
  ConfigRest : N
}.

Record DXVA2_VideoDesc : Type := {
  SampleWidth : Z;
  SampleHeight : Z;
  UABProtectionLevel : Z;
  Format : Z
}.

(** The answers of [IDirectXVideoDecoderService]. *)
Record IDirectXVideoDecoderService : Type := {
  GetDecoderDeviceGuids : HRESULT * list GUID;
  GetDecoderRenderTargets : GUID -> HRESULT * list Z;
  GetDecoderConfigurations :
    GUID -> DXVA2_VideoDesc -> HRESULT * list DXVA2_ConfigPictureDecode;
  CreateVideoDecoder :
    GUID -> DXVA2_VideoDesc -> DXVA2_ConfigPictureDecode -> Z -> HRESULT
}.

(** The answers of the pin the output pin is connected to and of the
    services reached through it. *)
Record Renderer : Type := {
  GetConnected : bool;
  QueryInterface_IMFGetService : HRESULT;
  GetService_DeviceManager : HRESULT;
  OpenDeviceHandle : HRESULT;
  GetVideoService_DecoderService : HRESULT;
  decoderService : IDirectXVideoDecoderService;
  GetService_VideoMemoryConfiguration : HRESULT;
  GetAvailableSurfaceTypeByIndex : Z -> HRESULT * Z;
  SetSurfaceType : Z -> HRESULT;
  GetVideoService_AccelerationService : HRESULT;
  CreateSurface : Z -> Z -> Z -> Z -> HRESULT
}.

Inductive PIN_DIRECTION : Type := PINDIR_INPUT | PINDIR_OUTPUT.

(** Everything around the filter: the hardware probe, the renderer, the
    codec library, the backends' [Init] and [GetDecoderID] (the decoder
    classes are declared in h264_decoder.h, so both are answers the filter
    gets, not code it contains), the base class, and what the stack holds
    where [ActivateDXVA2] declares its two locals. *)
Record Host : Type := {
  ids : PlatformIds;
  hw : CHardwareEnv;
  renderer : Renderer;
  CFFMPEG_CreateCodec : option PreDecode;
  Backend_Init : Backend -> bool;
  CTransformFilter_CompleteConnect : PIN_DIRECTION -> HRESULT;
  uninitialised : DXVA2_ConfigPictureDecode * DXVA2_VideoDesc;
  Backend_GetDecoderID : Backend -> GUID
}.

(** Calls that change something on the platform side, in the order made. *)
Inductive PlatformCall : Type :=
| CallOpenDeviceHandle
| CallSetSurfaceType (surfType : Z)
| CallCreateSurface (width height backBuffers format : Z)
| CallCreateVideoDecoder (decoderID : GUID) (surfaceCount : Z).


(** The filter's members that negotiation reads and writes;
    [servicesKept] stands for [m_devManager], [m_deviceHandle] and
    [m_decoderService] being set, [platformLog] records the platform calls. *)
Record CH264DecoderFilter : Type := {
  m_preDecode : option PreDecode;
  m_decoder : option Backend;
  m_config : DXVA2_ConfigPictureDecode;
  servicesKept : bool;
  platformLog : list PlatformCall
}.

Definition set_decoder (d : option Backend) (f : CH264DecoderFilter)
  : CH264DecoderFilter :=
  {| m_preDecode := m_preDecode f; m_decoder := d; m_config := m_config f;
     servicesKept := servicesKept f; platformLog := platformLog f |}.

Definition set_preDecode (p : option PreDecode) (f : CH264DecoderFilter)
  : CH264DecoderFilter :=
  {| m_preDecode := p; m_decoder := m_decoder f; m_config := m_config f;
     servicesKept := servicesKept f; platformLog := platformLog f |}.

Definition keepServices (config : DXVA2_ConfigPictureDecode)
    (f : CH264DecoderFilter) : CH264DecoderFilter :=
  {| m_preDecode := m_preDecode f; m_decoder := m_decoder f;
     m_config := config; servicesKept := true;
     platformLog := platformLog f |}.

Definition logCall (c : PlatformCall) (f : CH264DecoderFilter)
  : CH264DecoderFilter :=
  {| m_preDecode := m_preDecode f; m_decoder := m_decoder f;
     m_config := m_config f; servicesKept := servicesKept f;
     platformLog := platformLog f ++ [c] |}.

(** [supportedFormats]: SubType, PlaneCount, FourCC. *)
Definition supportedFormats : list (GUID * Z * Z) :=
  [ (DXVA2_ModeH264_E, 1, MAKEFOURCC 100 120 118 97);
    (DXVA2_ModeH264_F, 1, MAKEFOURCC 100 120 118 97);
    (MEDIASUBTYPE_NV12, 1, MAKEFOURCC 100 120 118 97);
    (MEDIASUBTYPE_NV12, 1, MAKEFOURCC 68 88 86 65);
    (MEDIASUBTYPE_NV12, 1, MAKEFOURCC 68 120 86 65);
    (MEDIASUBTYPE_NV12, 1, MAKEFOURCC 68 88 118 65);
    (MEDIASUBTYPE_YV12, 3, MAKEFOURCC 89 86 49 50);
    (MEDIASUBTYPE_YUY2, 3, MAKEFOURCC 89 85 89 50) ].

Definition IsFormatSupported (formatID : GUID) : bool :=
  existsb (fun entry => bool_decide (formatID = entry.1.1)) supportedFormats.

(** The inner loop of [ConfirmDXVA2UncompFormat]: every configuration
    visited is stored in [*selectedConfig]; the walk stops at the first one
    with [ConfigBitstreamRaw == 2].  The flag tells whether it stopped. *)
Fixpoint pickConfig (configs : list DXVA2_ConfigPictureDecode)
    (selectedConfig : DXVA2_ConfigPictureDecode)
  : bool * DXVA2_ConfigPictureDecode :=
  match configs with
  | [] => (false, selectedConfig)
  | config :: rest =>
      if 2 =? ConfigBitstreamRaw config then (true, config)
      else pickConfig rest config
  end.

Section Filter.

Variable host : Host.

Definition getDecodeSurfacesCount : Z :=
  if GetWinVersion (hw host) >=? WINVERSION_VISTA (ids host) then 22 else 16.

(** [m_decoder->GetDecoderID()], a virtual call into the decoder classes. *)
Definition GetDecoderID (d : Backend) : GUID := Backend_GetDecoderID host d.

(** [accel] and [decoderID] are pointers: [None] is null. *)
Definition ActivateDXVA1 (f : CH264DecoderFilter) (accel : option N)
    (decoderID : option GUID) (surfaceCount : Z)
  : Call (HRESULT * CH264DecoderFilter) :=
  match m_preDecode f with
  | None => Returned (E_FAIL, f)
  | Some preDecode =>
      match accel, decoderID with
      | Some _, Some id =>
          if match m_decoder f with
             | Some d => bool_decide (GetDecoderID d = id)
             | None => false
             end
          then Returned (S_OK, f)
          else
            let f := set_decoder None f in
            match checkHWCompatibilityForH264 (ids host) (hw host)
                    (GetWidth preDecode) (GetHeight preDecode)
                    (GetVideoLevel preDecode) (GetRefFrameCount preDecode)
            with
            | None => Faulted DivisionByZero
            | Some campatible =>
                if DXVA_UNSUPPORTED_LEVEL =? campatible
                then Returned (E_FAIL, f)
                else Returned
                       (S_OK,
                        set_decoder
                          (Some (CH264DXVA1Decoder id surfaceCount)) f)
            end
      | _, _ => Returned (E_POINTER, f)
      end
  end.

(** The outer loop of [ConfirmDXVA2UncompFormat] over the render targets.
    [out] is what [*selectedConfig] and [*selectedFormat] hold. *)
Fixpoint confirmFormats (f : CH264DecoderFilter) (decoderID : GUID)
    (formats : list Z) (out : DXVA2_ConfigPictureDecode * DXVA2_VideoDesc)
  : Call (HRESULT * (DXVA2_ConfigPictureDecode * DXVA2_VideoDesc)) :=
  match formats with
  | [] => Returned (E_FAIL, out)
  | format :: rest =>
      if negb (FOURCC_NV12 =? format) then confirmFormats f decoderID rest out
      else
        match m_preDecode f with
        | None => Faulted NullDereference
        | Some preDecode =>
            let desc := {| SampleWidth := GetWidth preDecode;
                           SampleHeight := GetHeight preDecode;
                           UABProtectionLevel := 1;
                           Format := format |} in
            let '(r, configs) :=
              GetDecoderConfigurations (decoderService (renderer host))
                decoderID desc in
            if FAILED r then confirmFormats f decoderID rest out
            else
              let '(raw, selectedConfig) :=
                pickConfig (intPrefix configs) out.1 in
              if raw then Returned (S_OK, (selectedConfig, desc))
              else Returned
                     ((if Z.of_nat (length configs) =? 0 then E_FAIL
                       else S_OK),
                      (selectedConfig, desc))
        end
  end.

Definition ConfirmDXVA2UncompFormat (f : CH264DecoderFilter)
    (decoderID : GUID) (out : DXVA2_ConfigPictureDecode * DXVA2_VideoDesc)
  : Call (HRESULT * (DXVA2_ConfigPictureDecode * DXVA2_VideoDesc)) :=
  let '(r, formats) :=
    GetDecoderRenderTargets (decoderService (renderer host)) decoderID in
  if FAILED r then Returned (r, out)
  else confirmFormats f decoderID (intPrefix formats) out.

(** [DXVA2_SurfaceType_DecoderRenderTarget], first enumerator of
    [DXVA2_SurfaceType]. *)
Definition DXVA2_SurfaceType_DecoderRenderTarget : Z := 0.

(** The unbounded [for (int i = 0; ; ++i)] of [configureEVRForDXVA2]. *)
Fixpoint surfaceTypeLoop (fuel : nat) (i : Z) (f : CH264DecoderFilter)
  : Call (HRESULT * CH264DecoderFilter) :=
  match fuel with
  | O => Unfinished
  | S fuel' =>
      let '(r, surfType) :=
        GetAvailableSurfaceTypeByIndex (renderer host) i in
      if FAILED r then Returned (r, f)
      else if DXVA2_SurfaceType_DecoderRenderTarget =? surfType then
        Returned (SetSurfaceType (renderer host) surfType,
                  logCall (CallSetSurfaceType surfType) f)
      else surfaceTypeLoop fuel' (to_int (i + 1)) f
  end.

Definition configureEVRForDXVA2 (fuel : nat) (f : CH264DecoderFilter)
  : Call (HRESULT * CH264DecoderFilter) :=
  let r := GetService_VideoMemoryConfiguration (renderer host) in
  if FAILED r then Returned (r, f)
  else surfaceTypeLoop fuel 0 f.

Definition CreateDXVA2Decoder (f : CH264DecoderFilter) (decoderID : GUID)
    (videoDesc : DXVA2_VideoDesc) : Call (HRESULT * CH264DecoderFilter) :=
  let r := GetVideoService_AccelerationService (renderer host) in
  if FAILED r then Returned (r, f)
  else
    let surfaceCount := getDecodeSurfacesCount in
    match m_preDecode f with
    | None => Faulted NullDereference
    | Some preDecode =>
        let f := logCall (CallCreateSurface (GetWidth preDecode)
                            (GetHeight preDecode) (surfaceCount - 1)
                            (Format videoDesc)) f in
        let r := CreateSurface (renderer host) (GetWidth preDecode)
                   (GetHeight preDecode) (surfaceCount - 1)
                   (Format videoDesc) in
        if FAILED r then Returned (r, f)
        else
          let f := logCall (CallCreateVideoDecoder decoderID surfaceCount) f in
          let r := CreateVideoDecoder (decoderService (renderer host))
                     decoderID videoDesc (m_config f) surfaceCount in
          if FAILED r then Returned (r, f)
          else Returned (r, set_decoder (Some (CH264DXVA2Decoder decoderID)) f)
    end.

(** The loop of [ActivateDXVA2] over the enumerated decoder identities. *)
Fixpoint tryCandidates (fuel : nat) (devGUIDs : list GUID)
    (f : CH264DecoderFilter) : Call (HRESULT * CH264DecoderFilter) :=
  match devGUIDs with
  | [] => Returned (E_FAIL, f)
  | devGUID :: rest =>
      if negb (IsFormatSupported devGUID) then tryCandidates fuel rest f
      else
        match ConfirmDXVA2UncompFormat f devGUID (uninitialised host) with
        | Returned (r, (selectedConfig, selectedFormat)) =>
            if FAILED r then tryCandidates fuel rest f
            else
              match configureEVRForDXVA2 fuel f with
              | Returned (r, f) =>
                  if FAILED r then Returned (r, f)
                  else CreateDXVA2Decoder (keepServices selectedConfig f)
                         devGUID selectedFormat
              | Faulted why => Faulted why
              | Unfinished => Unfinished
              end
        | Faulted why => Faulted why
        | Unfinished => Unfinished
        end
  end.

Definition ActivateDXVA2 (fuel : nat) (f : CH264DecoderFilter)
  : Call (HRESULT * CH264DecoderFilter) :=
  if negb (GetConnected (renderer host)) then Returned (VFW_E_NOT_CONNECTED, f)
  else
    let r := QueryInterface_IMFGetService (renderer host) in
    if FAILED r then Returned (r, f)
    else
      let r := GetService_DeviceManager (renderer host) in
      if FAILED r then Returned (r, f)
      else
        let f := logCall CallOpenDeviceHandle f in
        let r := OpenDeviceHandle (renderer host) in
        if FAILED r then Returned (r, f)
        else
          let r := GetVideoService_DecoderService (renderer host) in
          if FAILED r then Returned (r, f)
          else
            let '(r, devGUIDs) :=
              GetDecoderDeviceGuids (decoderService (renderer host)) in
            if FAILED r then Returned (r, f)
            else tryCandidates fuel (intPrefix devGUIDs) f.

Definition CompleteConnect (fuel : nat) (dir : PIN_DIRECTION)
    (f : CH264DecoderFilter) : Call (HRESULT * CH264DecoderFilter) :=
  match dir with
  | PINDIR_INPUT =>
      let f := set_preDecode (CFFMPEG_CreateCodec host) f in
      match m_preDecode f with
      | None => Returned (VFW_E_TYPE_NOT_ACCEPTED, f)
      | Some _ => Returned (CTransformFilter_CompleteConnect host dir, f)
      end
  | PINDIR_OUTPUT =>
      let f :=
        match m_decoder f with
        | Some d => if negb (Backend_Init host d) then set_decoder None f
                    else f
        | None => f
        end in
      match m_decoder f with
      | Some _ => Returned (CTransformFilter_CompleteConnect host dir, f)
      | None =>
          match ActivateDXVA2 fuel f with
          | Returned (r, f) =>
              if negb (SUCCEEDED r)
              then Returned (CTransformFilter_CompleteConnect host dir,
                             set_decoder (Some CH264SWDecoder) f)
              else Returned (CTransformFilter_CompleteConnect host dir, f)
          | Faulted why => Faulted why
          | Unfinished => Unfinished
          end
      end
  end.

Definition BreakConnect (dir : PIN_DIRECTION) (f : CH264DecoderFilter)
  : HRESULT * CH264DecoderFilter :=
  match dir with
  | PINDIR_INPUT => (S_OK, set_preDecode None (set_decoder None f))
  | PINDIR_OUTPUT => (S_OK, f)
  end.

End Filter.

(** The description [ConfirmDXVA2UncompFormat] builds for a render target. *)
Definition descFor (preDecode : PreDecode) (format : Z) : DXVA2_VideoDesc :=
  {| SampleWidth := GetWidth preDecode; SampleHeight := GetHeight preDecode;
     UABProtectionLevel := 1; Format := format |}.

(** A render target the outer loop passes over. *)
Definition passedOver (host : Host) (preDecode : PreDecode) (decoderID : GUID)
    (format : Z) : Prop :=
  FOURCC_NV12 <> format
  \/ FAILED (GetDecoderConfigurations (decoderService (renderer host))
               decoderID (descFor preDecode format)).1 = true.

Definition notRaw (config : DXVA2_ConfigPictureDecode) : Prop :=
  ConfigBitstreamRaw config <> 2.

(** *** Legacy activation *)

Lemma ActivateDXVA1_by_classification host f preDecode accel id
    surfaceCount campatible :
  m_preDecode f = Some preDecode ->
  m_decoder f = None ->
  checkHWCompatibilityForH264 (ids host) (hw host) (GetWidth preDecode)
    (GetHeight preDecode) (GetVideoLevel preDecode)
    (GetRefFrameCount preDecode) = Some campatible ->
  ActivateDXVA1 host f (Some accel) (Some id) surfaceCount
  = if campatible =? DXVA_UNSUPPORTED_LEVEL
    then Returned (E_FAIL, set_decoder None f)
    else Returned (S_OK,
                   set_decoder (Some (CH264DXVA1Decoder id surfaceCount))
                     (set_decoder None f)).
Proof.
  intros Hpre Hdec Hcompat. unfold ActivateDXVA1.
  rewrite Hpre, Hdec, Hcompat. rewrite (Z.eqb_sym campatible).
  reflexivity.
Qed.

(** C1 on the code.  When the classification of the stream carries both
    LEVEL_UNSUPPORTED and TOO_MANY_REF_FRAMES (value 3), [ActivateDXVA1]
    does not fail: it answers S_OK and installs a legacy hardware decoder.
    Only the classification that is exactly LEVEL_UNSUPPORTED is refused. *)
Theorem ActivateDXVA1_both_flags_activates host f preDecode accel id
    surfaceCount :
  m_preDecode f = Some preDecode ->
  m_decoder f = None ->
  checkHWCompatibilityForH264 (ids host) (hw host) (GetWidth preDecode)
    (GetHeight preDecode) (GetVideoLevel preDecode)
    (GetRefFrameCount preDecode)
  = Some (DXVA_UNSUPPORTED_LEVEL + DXVA_TOO_MUCH_REF_FRAMES) ->
  hasFlag (DXVA_UNSUPPORTED_LEVEL + DXVA_TOO_MUCH_REF_FRAMES)
    DXVA_UNSUPPORTED_LEVEL = true
  /\ exists f',
      ActivateDXVA1 host f (Some accel) (Some id) surfaceCount
      = Returned (S_OK, f')
      /\ m_decoder f' = Some (CH264DXVA1Decoder id surfaceCount).
Proof.
  intros Hpre Hdec Hcompat. split; [reflexivity |].
  eexists. split.
  - rewrite (ActivateDXVA1_by_classification _ _ _ _ _ _ _ Hpre Hdec Hcompat).
    reflexivity.
  - reflexivity.
Qed.

Lemma ActivateDXVA1_level_only_refused host f preDecode accel id surfaceCount :
  m_preDecode f = Some preDecode ->
  m_decoder f = None ->
  checkHWCompatibilityForH264 (ids host) (hw host) (GetWidth preDecode)
    (GetHeight preDecode) (GetVideoLevel preDecode)
    (GetRefFrameCount preDecode) = Some DXVA_UNSUPPORTED_LEVEL ->
  exists f',
    ActivateDXVA1 host f (Some accel) (Some id) surfaceCount
    = Returned (E_FAIL, f')
    /\ m_decoder f' = None.
Proof.
  intros Hpre Hdec Hcompat. eexists. split.
  - rewrite (ActivateDXVA1_by_classification _ _ _ _ _ _ _ Hpre Hdec Hcompat).
    reflexivity.
  - reflexivity.
Qed.

(** A level 5.1 stream of 1920x1088 with 16 reference frames, on a card
    without a vendor allowance. *)
Definition level51Stream : PreDecode :=
  {| GetWidth := 1920; GetHeight := 1088; GetVideoLevel := 51;
     GetRefFrameCount := 16 |}.

Definition quietRenderer : Renderer :=
  {| GetConnected := true;
     QueryInterface_IMFGetService := S_OK;
     GetService_DeviceManager := S_OK;
     OpenDeviceHandle := S_OK;
     GetVideoService_DecoderService := S_OK;
     decoderService :=
       {| GetDecoderDeviceGuids := (S_OK, []);
          GetDecoderRenderTargets := fun _ => (S_OK, []);
          GetDecoderConfigurations := fun _ _ => (S_OK, []);
          CreateVideoDecoder := fun _ _ _ _ => S_OK |};
     GetService_VideoMemoryConfiguration := S_OK;
     GetAvailableSurfaceTypeByIndex := fun _ => (E_FAIL, 0);
     SetSurfaceType := fun _ => S_OK;
     GetVideoService_AccelerationService := S_OK;
     CreateSurface := fun _ _ _ _ => S_OK |}.

Definition hostWith (r : Renderer) : Host :=
  {| ids := pciIds; hw := intelCard; renderer := r;
     CFFMPEG_CreateCodec := Some level51Stream;
     Backend_Init := fun _ => true;
     CTransformFilter_CompleteConnect := fun _ => S_OK;
     uninitialised :=
       ({| ConfigBitstreamRaw := 0; ConfigRest := 0 |},
        {| SampleWidth := 0; SampleHeight := 0; UABProtectionLevel := 0;
           Format := 0 |});
     Backend_GetDecoderID :=
       fun d => match d with
                | CH264DXVA1Decoder decoderID _ => decoderID
                | CH264DXVA2Decoder decoderID => decoderID
                | CH264SWDecoder => GUID_NULL
                end |}.

Definition connectedInput (preDecode : PreDecode) : CH264DecoderFilter :=
  {| m_preDecode := Some preDecode; m_decoder := None;
     m_config := {| ConfigBitstreamRaw := 0; ConfigRest := 0 |};
     servicesKept := false; platformLog := [] |}.

Lemma ActivateDXVA1_both_flags_activates_witness :
  checkHWCompatibilityForH264 pciIds intelCard 1920 1088 51 16 = Some 3
  /\ exists f',
      ActivateDXVA1 (hostWith quietRenderer) (connectedInput level51Stream)
        (Some 1%N) (Some DXVA2_ModeH264_E) 16
      = Returned (S_OK, f')
      /\ m_decoder f' = Some (CH264DXVA1Decoder DXVA2_ModeH264_E 16).
Proof.
  split; [reflexivity |].
  apply (ActivateDXVA1_both_flags_activates (hostWith quietRenderer)
           (connectedInput level51Stream) level51Stream 1%N
           DXVA2_ModeH264_E 16); reflexivity.
Defined.

(** *** Choice of the DXVA2 configuration *)

Lemma intPrefix_all {A : Type} (l : list A) :
  Z.of_nat (length l) <= INT_MAX -> intPrefix l = l.
Proof.
  intros Hlen. unfold intPrefix.
  rewrite to_int_small by (unfold is_int, INT_MIN, INT_MAX in *; lia).
  rewrite Nat2Z.id. apply take_ge. lia.
Qed.

Lemma pickConfig_first_raw before config after selectedConfig :
  Forall notRaw before ->
  ConfigBitstreamRaw config = 2 ->
  pickConfig (before ++ config :: after) selectedConfig = (true, config).
Proof.
  intros Hbefore Hraw. revert selectedConfig.
  induction Hbefore as [| c before Hc _ IH]; intros selectedConfig;
    cbn [pickConfig app].
  - rewrite Hraw. reflexivity.
  - destruct (Z.eqb_spec 2 (ConfigBitstreamRaw c)) as [Heq | _].
    + unfold notRaw in Hc. congruence.
    + apply IH.
Qed.

Lemma pickConfig_none_raw configs selectedConfig :
  Forall notRaw configs ->
  pickConfig configs selectedConfig
  = (false, default selectedConfig (last configs)).
Proof.
  intros Hnone. revert selectedConfig.
  induction Hnone as [| c configs Hc _ IH]; intros selectedConfig;
    cbn [pickConfig].
  - reflexivity.
  - destruct (Z.eqb_spec 2 (ConfigBitstreamRaw c)) as [Heq | _].
    + unfold notRaw in Hc. congruence.
    + rewrite IH, last_cons. destruct (last configs); reflexivity.
Qed.

Lemma confirmFormats_reaches host f preDecode decoderID before after out :
  m_preDecode f = Some preDecode ->
  Forall (passedOver host preDecode decoderID) before ->
  confirmFormats host f decoderID (before ++ after) out
  = confirmFormats host f decoderID after out.
Proof.
  intros Hpre Hbefore.
  induction Hbefore as [| format before Hskip _ IH];
    cbn [confirmFormats app]; [reflexivity |].
  destruct (Z.eqb_spec FOURCC_NV12 format) as [Hnv12 | Hother];
    cbn [negb].
  - rewrite Hpre. destruct Hskip as [Hne | Hfail]; [congruence |].
    unfold descFor in Hfail.
    destruct (GetDecoderConfigurations _ _ _) as [r configs].
    simpl in Hfail. rewrite Hfail. exact IH.
  - exact IH.
Qed.

(** C4, as the code has it.  Both loops run up to a UINT count cast to
    [int], so the number of render targets and the number of configurations
    are taken to fit an [int].  Then the first NV12 render target whose
    configuration query succeeds decides the call.  If one of its
    configurations has [ConfigBitstreamRaw] 2, the first such one is selected
    and S_OK returned; if none has and the list is not empty, the last
    configuration of the list is selected and S_OK returned; an empty list
    gives E_FAIL and leaves the selected configuration as it was. *)
Theorem ConfirmDXVA2UncompFormat_selection host f preDecode decoderID out
    r formats before after rq configs :
  m_preDecode f = Some preDecode ->
  GetDecoderRenderTargets (decoderService (renderer host)) decoderID
  = (r, formats) ->
  FAILED r = false ->
  Z.of_nat (length formats) <= INT_MAX ->
  formats = before ++ FOURCC_NV12 :: after ->
  Forall (passedOver host preDecode decoderID) before ->
  GetDecoderConfigurations (decoderService (renderer host)) decoderID
    (descFor preDecode FOURCC_NV12) = (rq, configs) ->
  FAILED rq = false ->
  Z.of_nat (length configs) <= INT_MAX ->
  let result := ConfirmDXVA2UncompFormat host f decoderID out in
  let desc := descFor preDecode FOURCC_NV12 in
  (forall skipped config rest,
      configs = skipped ++ config :: rest ->
      Forall notRaw skipped -> ConfigBitstreamRaw config = 2 ->
      result = Returned (S_OK, (config, desc)))
  /\ (forall config,
        Forall notRaw configs -> last configs = Some config ->
        result = Returned (S_OK, (config, desc)))
  /\ (configs = [] -> result = Returned (E_FAIL, (out.1, desc))).
Proof.
  intros Hpre Htargets Hr Hcount Hsplit Hbefore Hquery Hrq Hconfigs
         result desc.
  assert (result
          = let '(raw, selectedConfig) := pickConfig configs out.1 in
            if raw then Returned (S_OK, (selectedConfig, desc))
            else Returned ((if Z.of_nat (length configs) =? 0 then E_FAIL
                            else S_OK), (selectedConfig, desc))) as Hresult.
  { subst result. unfold ConfirmDXVA2UncompFormat.
    rewrite Htargets, Hr, (intPrefix_all formats Hcount), Hsplit.
    rewrite (confirmFormats_reaches _ _ _ _ _ _ _ Hpre Hbefore).
    cbn [confirmFormats]. rewrite Z.eqb_refl. cbn [negb]. rewrite Hpre.
    unfold descFor in Hquery. rewrite Hquery, Hrq.
    rewrite (intPrefix_all configs Hconfigs). reflexivity. }
  rewrite Hresult. repeat split.
  - intros skipped config rest -> Hskipped Hraw.
    rewrite (pickConfig_first_raw _ _ _ _ Hskipped Hraw). reflexivity.
  - intros config Hnone Hlast.
    rewrite (pickConfig_none_raw _ _ Hnone), Hlast. simpl.
    destruct configs as [| c configs]; [discriminate Hlast |]. reflexivity.
  - intros ->. reflexivity.
Qed.

(** A decoder service with one NV12 render target and two configurations,
    neither of them raw-bitstream. *)
Definition configA : DXVA2_ConfigPictureDecode :=
  {| ConfigBitstreamRaw := 0; ConfigRest := 1 |}.
Definition configB : DXVA2_ConfigPictureDecode :=
  {| ConfigBitstreamRaw := 1; ConfigRest := 2 |}.

Definition twoConfigRenderer : Renderer :=
  {| GetConnected := true;
     QueryInterface_IMFGetService := S_OK;
     GetService_DeviceManager := S_OK;
     OpenDeviceHandle := S_OK;
     GetVideoService_DecoderService := S_OK;
     decoderService :=
       {| GetDecoderDeviceGuids := (S_OK, [DXVA2_ModeH264_E]);
          GetDecoderRenderTargets := fun _ => (S_OK, [FOURCC_NV12]);
          GetDecoderConfigurations := fun _ _ => (S_OK, [configA; configB]);
          CreateVideoDecoder := fun _ _ _ _ => S_OK |};
     GetService_VideoMemoryConfiguration := S_OK;
     GetAvailableSurfaceTypeByIndex := fun _ => (S_OK, 0);
     SetSurfaceType := fun _ => S_OK;
     GetVideoService_AccelerationService := S_OK;
     CreateSurface := fun _ _ _ _ => S_OK |}.

Lemma ConfirmDXVA2UncompFormat_selection_witness :
  ConfirmDXVA2UncompFormat (hostWith twoConfigRenderer)
    (connectedInput level51Stream) DXVA2_ModeH264_E
    (uninitialised (hostWith twoConfigRenderer))
  = Returned (S_OK, (configB, descFor level51Stream FOURCC_NV12)).
Proof.
  refine (proj1 (proj2
    (ConfirmDXVA2UncompFormat_selection (hostWith twoConfigRenderer)
       (connectedInput level51Stream) level51Stream DXVA2_ModeH264_E
       (uninitialised (hostWith twoConfigRenderer))
       S_OK [FOURCC_NV12] [] [] S_OK [configA; configB]
       eq_refl eq_refl eq_refl _ eq_refl (Forall_nil_2 _) eq_refl eq_refl _))
    configB _ eq_refl).
  - unfold INT_MAX; simpl; lia.
  - unfold INT_MAX; simpl; lia.
  - repeat constructor; unfold notRaw; simpl; lia.
Defined.

(** C4 as written fails when no configuration is raw-bitstream: of the two
    configurations offered, the code selects the second (the last), not the
    first. *)
Lemma ConfirmDXVA2UncompFormat_first_counterexample :
  GetDecoderConfigurations (decoderService twoConfigRenderer)
    DXVA2_ModeH264_E (descFor level51Stream FOURCC_NV12)
  = (S_OK, [configA; configB])
  /\ ConfigBitstreamRaw configA <> 2 /\ ConfigBitstreamRaw configB <> 2
  /\ ConfirmDXVA2UncompFormat (hostWith twoConfigRenderer)
       (connectedInput level51Stream) DXVA2_ModeH264_E
       (uninitialised (hostWith twoConfigRenderer))
     = Returned (S_OK, (configB, descFor level51Stream FOURCC_NV12))
  /\ configB <> configA.
Proof.
  split; [reflexivity |]. split; [discriminate |]. split; [discriminate |].
  split; [reflexivity | discriminate].
Qed.

(** *** Fallback to the software decoder *)

(** A candidate whose negotiation, if it is a supported format at all,
    returns a failure. *)
Definition unusable (host : Host) (f : CH264DecoderFilter) (devGUID : GUID)
  : Prop :=
  IsFormatSupported devGUID = true ->
  exists r out,
    ConfirmDXVA2UncompFormat host f devGUID (uninitialised host)
    = Returned (r, out)
    /\ FAILED r = true.




Lemma SUCCEEDED_FAILED r : SUCCEEDED r = negb (FAILED r).
Proof.
  unfold SUCCEEDED, FAILED.
  destruct (Z.leb_spec 0 r), (Z.ltb_spec r 0); try reflexivity; lia.
Qed.





Example CompleteConnect_no_identity :
  exists f',
    CompleteConnect (hostWith quietRenderer) 0 PINDIR_OUTPUT
      (connectedInput level51Stream) = Returned (S_OK, f')
    /\ m_decoder f' = Some CH264SWDecoder
    /\ platformLog f' = [CallOpenDeviceHandle].
Proof. eexists. repeat split; reflexivity. Qed.

(** A service that only offers an identity outside [supportedFormats]. *)
Example CompleteConnect_unknown_identity :
  IsFormatSupported (GUID_other 5) = false
  /\ IsFormatSupported DXVA2_ModeH264_E = true.
Proof. split; reflexivity. Qed.

(** With a usable candidate the modern hardware decoder is installed and a
    surface pool of [getDecodeSurfacesCount] surfaces is created. *)
Example CompleteConnect_modern_hardware :
  exists f',
    CompleteConnect (hostWith twoConfigRenderer) 1 PINDIR_OUTPUT
      (connectedInput level51Stream) = Returned (S_OK, f')
    /\ m_decoder f' = Some (CH264DXVA2Decoder DXVA2_ModeH264_E)
    /\ m_config f' = configB
    /\ platformLog f'
       = [CallOpenDeviceHandle; CallSetSurfaceType 0;
          CallCreateSurface 1920 1088 15 FOURCC_NV12;
          CallCreateVideoDecoder DXVA2_ModeH264_E 16].
Proof. eexists. vm_compute. repeat split; reflexivity. Qed.

End Negotiator.

(** ** DecodeDispatchLoop *)

Module Dispatch.

(** [AM_STREAM_MEDIA] *)
Definition AM_STREAM_MEDIA : Z := 0.

(** The input sample: the status of [GetPointer], the buffer behind the
    pointer (its length is [GetSize()]), the payload length and the answer
    of [GetTime] (status, start, stop). *)
Record IMediaSample : Type := {
  GetPointer : HRESULT;
  buffer : list Z;
  GetActualDataLength : Z;
  GetTime : HRESULT * Z * Z
}.

Definition GetSize (s : IMediaSample) : Z := Z.of_nat (length (buffer s)).

(** What [Receive] reads of the filter and of the build: whether [assert]
    is compiled out, the codec library's padding, the stream id of the input
    pin's sample properties, whether [m_decoder] and [m_preDecode] are set,
    and the frame duration. *)
Record Streaming : Type := {
  NDEBUG : bool;
  GetInputBufferPaddingSize : Z;
  dwStreamId : Z;
  hasDecoder : bool;
  hasPreDecode : bool;
  m_averageTimePerFrame : Z
}.

Inductive SampleRef : Type := InputSample | OutputSample.

(** The objects [Receive] calls into (output pin, pre-decode context,
    active backend), as transitions on a state [W] of their own.  [Decode]
    takes the padded buffer, the offset of [dataStart] in it,
    [dataRemaining], [start] and [stop], and answers the status together
    with what [usedBytes] holds after the call. *)
Record Collaborators (W : Type) : Type := {
  Deliver : SampleRef -> W -> HRESULT * W;
  UpdateTime : Z -> Z -> W -> W;
  InitializeOutputSample : W -> HRESULT * W;
  Decode : list Z -> Z -> Z -> Z -> Z -> W -> HRESULT * Z * W;
  DisplayNextFrame : W -> HRESULT * W
}.
Arguments Deliver {W}.
Arguments UpdateTime {W}.
Arguments InitializeOutputSample {W}.
Arguments Decode {W}.
Arguments DisplayNextFrame {W}.

(** The calls [Receive] makes, in order, with their answers. *)
Inductive Event : Type :=
| EvDeliver (what : SampleRef) (r : HRESULT)
| EvMemset (offset len : Z)
| EvUpdateTime (start stop : Z)
| EvInitializeOutputSample (r : HRESULT)
| EvDecode (dataStart dataRemaining : Z) (r : HRESULT) (usedBytes : Z)
| EvDisplayNextFrame (r : HRESULT).

Definition isDisplayNextFrame (e : Event) : bool :=
  match e with EvDisplayNextFrame _ => true | _ => false end.

Definition isDeliver (e : Event) : bool :=
  match e with EvDeliver _ _ => true | _ => false end.

(** [memset(data + offset, 0, len)] on a buffer; [None] when the range is
    not inside it. *)
Definition memset (data : list Z) (offset len : Z) : option (list Z) :=
  if (0 <=? offset) && (0 <=? len)
     && (offset + len <=? Z.of_nat (length data))
  then Some (take (Z.to_nat offset) data ++ replicate (Z.to_nat len) 0
             ++ drop (Z.to_nat (offset + len)) data)
  else None.

(** How one pass through the body of the [while] loop ends. *)
Inductive Step : Type :=
| Leave (r : HRESULT)
| Again (dataStart dataRemaining : Z) (r : HRESULT).

(** How the part of [Receive] before the loop ends: with the call over, or
    at the loop with its locals. *)
Inductive Prologue (W : Type) : Type :=
| Over (c : Call (HRESULT * (W * list Event)))
| AtLoop (data : list Z) (start stop dataLength : Z) (r : HRESULT)
         (w : W) (trace : list Event).
Arguments Over {W} c.
Arguments AtLoop {W} data start stop dataLength r w trace.

Section Receive.

Context {W : Type}.
Variable cfg : Streaming.
Variable c : Collaborators W.

Definition prologue (inSample : IMediaSample) (w : W) : Prologue W :=
  if negb (dwStreamId cfg =? AM_STREAM_MEDIA) then
    let '(r, w) := Deliver c InputSample w in
    Over (Returned (r, (w, [EvDeliver InputSample r])))
  else if negb (hasDecoder cfg) then
    if NDEBUG cfg then Over (Returned (E_UNEXPECTED, (w, [])))
    else Over (Faulted AssertionFailure)
  else
    let r := GetPointer inSample in
    if FAILED r then Over (Returned (r, (w, [])))
    else
      let dataLength := to_int (GetActualDataLength inSample) in
      let minDataSize :=
        to_int (dataLength + GetInputBufferPaddingSize cfg) in
      if (GetSize inSample <? minDataSize) && negb (NDEBUG cfg) then
        Over (Faulted AssertionFailure)
      else
        match memset (buffer inSample) dataLength
                (GetInputBufferPaddingSize cfg) with
        | None =>
            Over (Faulted (OutOfBoundsWrite dataLength
                             (GetInputBufferPaddingSize cfg)
                             (GetSize inSample)))
        | Some data =>
            let trace :=
              [EvMemset dataLength (GetInputBufferPaddingSize cfg)] in
            let '(r, start, stop) := GetTime inSample in
            if FAILED r then Over (Returned (r, (w, trace)))
            else
              let stop :=
                if (stop <=? start) && negb (stop =? INT64_MIN)
                then to_int64 (start + m_averageTimePerFrame cfg)
                else stop in
              if negb (hasPreDecode cfg) then Over (Faulted NullDereference)
              else
                AtLoop data start stop dataLength r
                  (UpdateTime c start stop w)
                  (trace ++ [EvUpdateTime start stop])
        end.

(** The body of the [while] loop. *)
Definition iteration (data : list Z) (start stop dataStart dataRemaining : Z)
    (w : W) : Step * W * list Event :=
  let '(r, w) := InitializeOutputSample c w in
  let trace := [EvInitializeOutputSample r] in
  if FAILED r then (Leave r, w, trace)
  else
    let '(r, usedBytes, w) :=
      Decode c data dataStart dataRemaining start stop w in
    let trace := trace ++ [EvDecode dataStart dataRemaining r usedBytes] in
    if r =? S_FALSE then (Leave S_OK, w, trace)
    else if FAILED r then (Leave r, w, trace)
    else
      let '(r, w) := DisplayNextFrame c w in
      let trace := trace ++ [EvDisplayNextFrame r] in
      let '(r, w, trace) :=
        if r =? E_NOTIMPL then
          let '(r, w) := Deliver c OutputSample w in
          (r, w, trace ++ [EvDeliver OutputSample r])
        else (r, w, trace) in
      if FAILED r then (Leave r, w, trace)
      else (Again (dataStart + usedBytes) (to_int (dataRemaining - usedBytes))
              r, w, trace).

(** [while (dataRemaining > 0) ...; return r;] *)
Fixpoint dispatch (fuel : nat) (data : list Z)
    (start stop dataStart dataRemaining : Z) (r : HRESULT) (w : W)
    (trace : list Event) : Call (HRESULT * (W * list Event)) :=
  if dataRemaining >? 0 then
    match fuel with
    | O => Unfinished
    | S fuel' =>
        match iteration data start stop dataStart dataRemaining w with
        | (Leave r, w, events) => Returned (r, (w, trace ++ events))
        | (Again dataStart dataRemaining r, w, events) =>
            dispatch fuel' data start stop dataStart dataRemaining r w
              (trace ++ events)
        end
    end
  else Returned (r, (w, trace)).

Definition Receive (fuel : nat) (inSample : IMediaSample) (w : W)
  : Call (HRESULT * (W * list Event)) :=
  match prologue inSample w with
  | Over result => result
  | AtLoop data start stop dataLength r w trace =>
      dispatch fuel data start stop 0 dataLength r w trace
  end.

End Receive.

(** Every [Decode] that succeeds with a status other than S_FALSE reports
    at least one byte used (and [usedBytes] is an [int]). *)
Definition decodeConsumes {W : Type} (c : Collaborators W) : Prop :=
  forall data dataStart dataRemaining start stop w r usedBytes w',
    Decode c data dataStart dataRemaining start stop w = (r, usedBytes, w') ->
    FAILED r = false -> r <> S_FALSE ->
    1 <= usedBytes <= INT_MAX.

(** A backend that reports success and no byte used, for ever. *)
Definition stalled : Collaborators unit :=
  {| Deliver := fun _ w => (S_OK, w);
     UpdateTime := fun _ _ w => w;
     InitializeOutputSample := fun w => (S_OK, w);
     Decode := fun _ _ _ _ _ w => (S_OK, 0, w);
     DisplayNextFrame := fun w => (S_OK, w) |}.

(** A backend that uses [n] bytes per call and answers [r]. *)
Definition steady (r : HRESULT) (n : Z) : Collaborators unit :=
  {| Deliver := fun _ w => (S_OK, w);
     UpdateTime := fun _ _ w => w;
     InitializeOutputSample := fun w => (S_OK, w);
     Decode := fun _ _ _ _ _ w => (r, n, w);
     DisplayNextFrame := fun w => (E_NOTIMPL, w) |}.

Definition releaseBuild (padding : Z) : Streaming :=
  {| NDEBUG := true; GetInputBufferPaddingSize := padding;
     dwStreamId := AM_STREAM_MEDIA; hasDecoder := true;
     hasPreDecode := true; m_averageTimePerFrame := 400000 |}.

(** A sample whose payload fills the first [len] bytes of a buffer of
    [size] bytes. *)
Definition sampleOf (size : nat) (len : Z) : IMediaSample :=
  {| GetPointer := S_OK; buffer := replicate size 65;
     GetActualDataLength := len; GetTime := (S_OK, 0, 400000) |}.

(** *** Padding *)

Example memset_inside : memset [1; 2; 3; 4; 5] 2 2 = Some [1; 2; 0; 0; 5].
Proof. reflexivity. Qed.

Example memset_past_end : memset [1; 2; 3; 4; 5] 4 2 = None.
Proof. reflexivity. Qed.

Lemma memset_in_bounds data offset len :
  0 <= offset -> 0 <= len -> offset + len <= Z.of_nat (length data) ->
  exists data', memset data offset len = Some data'
                /\ length data' = length data.
Proof.
  intros Hoff Hlen Hfit. unfold memset.
  destruct (Z.leb_spec 0 offset); [| lia].
  destruct (Z.leb_spec 0 len); [| lia].
  destruct (Z.leb_spec (offset + len) (Z.of_nat (length data))); [| lia].
  eexists. split; [reflexivity |].
  rewrite !length_app, length_take, length_replicate, length_drop. lia.
Qed.

Lemma memset_out_of_bounds data offset len :
  Z.of_nat (length data) < offset + len -> memset data offset len = None.
Proof.
  intros Hout. unfold memset.
  destruct (Z.leb_spec (offset + len) (Z.of_nat (length data))); [lia |].
  rewrite andb_false_r. reflexivity.
Qed.

(** C6 on the code.  In a build with [assert] compiled out, a media-stream
    sample whose buffer has less room after the payload than the padding
    asks for is not turned away: [Receive] goes on to the [memset], which
    writes [GetInputBufferPaddingSize()] bytes at offset [dataLength] and
    runs past [GetSize()]. *)
Theorem Receive_padding_out_of_bounds {W : Type} cfg (c : Collaborators W)
    fuel inSample w :
  NDEBUG cfg = true ->
  dwStreamId cfg = AM_STREAM_MEDIA ->
  hasDecoder cfg = true ->
  FAILED (GetPointer inSample) = false ->
  is_int (GetActualDataLength inSample) ->
  GetSize inSample
  < GetActualDataLength inSample + GetInputBufferPaddingSize cfg ->
  Receive cfg c fuel inSample w
  = Faulted (OutOfBoundsWrite (GetActualDataLength inSample)
               (GetInputBufferPaddingSize cfg) (GetSize inSample)).
Proof.
  intros Hrelease Hmedia Hdecoder Hpointer Hlength Hsmall.
  unfold Receive, prologue.
  rewrite Hmedia, Z.eqb_refl, Hdecoder, Hpointer, Hrelease.
  cbn [negb]. rewrite andb_false_r, (to_int_small _ Hlength).
  rewrite memset_out_of_bounds by exact Hsmall. reflexivity.
Qed.

Lemma Receive_padding_out_of_bounds_witness :
  GetSize (sampleOf 16 16) = 16
  /\ Receive (releaseBuild 8) (steady S_OK 16) 1 (sampleOf 16 16) tt
     = Faulted (OutOfBoundsWrite 16 8 16).
Proof.
  split; [reflexivity |].
  apply (Receive_padding_out_of_bounds (releaseBuild 8) (steady S_OK 16) 1
           (sampleOf 16 16) tt);
    first [reflexivity | unfold is_int, INT_MIN, INT_MAX; simpl; lia].
Defined.

(** The same sample in a build that keeps [assert]: the call stops at
    [assert(false)]. *)
Lemma Receive_undersized_debug {W : Type} cfg (c : Collaborators W)
    fuel inSample w :
  NDEBUG cfg = false ->
  dwStreamId cfg = AM_STREAM_MEDIA ->
  hasDecoder cfg = true ->
  FAILED (GetPointer inSample) = false ->
  is_int (GetActualDataLength inSample) ->
  is_int (GetActualDataLength inSample + GetInputBufferPaddingSize cfg) ->
  GetSize inSample
  < GetActualDataLength inSample + GetInputBufferPaddingSize cfg ->
  Receive cfg c fuel inSample w = Faulted AssertionFailure.
Proof.
  intros Hdebug Hmedia Hdecoder Hpointer Hlength Hsum Hsmall.
  unfold Receive, prologue.
  rewrite Hmedia, Z.eqb_refl, Hdecoder, Hpointer, Hdebug.
  cbn [negb]. rewrite (to_int_small _ Hlength), (to_int_small _ Hsum).
  destruct (Z.ltb_spec (GetSize inSample)
              (GetActualDataLength inSample + GetInputBufferPaddingSize cfg));
    [reflexivity | lia].
Qed.

(** *** Need more input *)

Definition quiet (e : Event) : Prop :=
  isDisplayNextFrame e = false /\ isDeliver e = false.

Lemma prologue_AtLoop_quiet {W : Type} cfg (c : Collaborators W) inSample w
    data start stop dataLength r w0 trace :
  prologue cfg c inSample w = AtLoop data start stop dataLength r w0 trace ->
  Forall quiet trace.
Proof.
  unfold prologue. intros Hloop.
  repeat case_match; try discriminate Hloop;
    injection Hloop as <- <- <- <- <- <- <-; repeat constructor.
Qed.

(** C7.  When [Receive] gets as far as its loop with bytes to decode, the
    output sample is obtained and the first [Decode] answers S_FALSE, the
    call returns S_OK, and neither [DisplayNextFrame] nor [Deliver] has been
    called. *)
Theorem Receive_need_more_input {W : Type} cfg (c : Collaborators W) fuel
    inSample w data start stop dataLength r0 w0 trace0 r1 w1 usedBytes w2 :
  prologue cfg c inSample w = AtLoop data start stop dataLength r0 w0 trace0 ->
  0 < dataLength ->
  InitializeOutputSample c w0 = (r1, w1) ->
  FAILED r1 = false ->
  Decode c data 0 dataLength start stop w1 = (S_FALSE, usedBytes, w2) ->
  exists trace,
    Receive cfg c (S fuel) inSample w = Returned (S_OK, (w2, trace))
    /\ Forall quiet trace.
Proof.
  intros Hloop Hbytes Hout Hr1 Hdecode.
  unfold Receive. rewrite Hloop. cbn [dispatch].
  destruct (Z.gtb_spec dataLength 0) as [_ | Hnone]; [| lia].
  unfold iteration. rewrite Hout, Hr1, Hdecode, Z.eqb_refl.
  eexists. split; [reflexivity |].
  apply Forall_app. split.
  - exact (prologue_AtLoop_quiet _ _ _ _ _ _ _ _ _ _ _ Hloop).
  - repeat constructor.
Qed.

Lemma Receive_need_more_input_witness :
  exists trace,
    Receive (releaseBuild 8) (steady S_FALSE 0) 1 (sampleOf 32 16) tt
    = Returned (S_OK, (tt, trace))
    /\ Forall quiet trace.
Proof.
  eapply (Receive_need_more_input (releaseBuild 8) (steady S_FALSE 0) 0
            (sampleOf 32 16) tt); try reflexivity.
Defined.

Example Receive_need_more_input_trace :
  Receive (releaseBuild 8) (steady S_FALSE 0) 1 (sampleOf 32 16) tt
  = Returned (S_OK, (tt, [EvMemset 16 8; EvUpdateTime 0 400000;
                          EvInitializeOutputSample S_OK;
                          EvDecode 0 16 S_FALSE 0])).
Proof. reflexivity. Qed.

(** A sample without payload: the loop is not entered. *)
Example Receive_empty_sample :
  Receive (releaseBuild 8) (steady S_OK 4) 0 (sampleOf 32 0) tt
  = Returned (S_OK, (tt, [EvMemset 0 8; EvUpdateTime 0 400000])).
Proof. reflexivity. Qed.

(** Sixteen bytes at four bytes a picture: four frames delivered. *)
Example Receive_four_pictures :
  exists trace,
    Receive (releaseBuild 8) (steady S_OK 4) 4 (sampleOf 32 16) tt
    = Returned (S_OK, (tt, trace))
    /\ length (filter (fun e => isDeliver e = true) trace) = 4%nat.
Proof. eexists. split; reflexivity. Qed.

(** *** Termination of the loop *)

Lemma to_int_is_int z : is_int (to_int z).
Proof.
  unfold is_int, INT_MIN, INT_MAX, to_int.
  pose proof (Z.mod_pos_bound (z + 2147483648) 4294967296). lia.
Qed.

Lemma iteration_Again {W : Type} (c : Collaborators W) data start stop
    dataStart dataRemaining w dataStart' dataRemaining' r' w' events :
  iteration c data start stop dataStart dataRemaining w
  = (Again dataStart' dataRemaining' r', w', events) ->
  exists r usedBytes w0 w1,
    Decode c data dataStart dataRemaining start stop w0 = (r, usedBytes, w1)
    /\ FAILED r = false /\ r <> S_FALSE
    /\ dataStart' = dataStart + usedBytes
    /\ dataRemaining' = to_int (dataRemaining - usedBytes).
Proof.
  unfold iteration. intros Hstep.
  destruct (InitializeOutputSample c w) as [r1 w1].
  destruct (FAILED r1); [discriminate Hstep |].
  destruct (Decode c data dataStart dataRemaining start stop w1)
    as [[r usedBytes] w2] eqn:Hdecode.
  destruct (Z.eqb_spec r S_FALSE) as [_ | Hmore]; [discriminate Hstep |].
  destruct (FAILED r) eqn:Hr; [discriminate Hstep |].
  exists r, usedBytes, w1, w2.
  repeat case_match; try discriminate Hstep;
    injection Hstep as <- <- <- <- <-; auto.
Qed.

Lemma iteration_decreases {W : Type} (c : Collaborators W) data start stop
    dataStart dataRemaining w dataStart' dataRemaining' r' w' events :
  decodeConsumes c ->
  is_int dataRemaining -> 0 < dataRemaining ->
  iteration c data start stop dataStart dataRemaining w
  = (Again dataStart' dataRemaining' r', w', events) ->
  dataRemaining' < dataRemaining /\ is_int dataRemaining'.
Proof.
  intros Hconsumes Hint Hpos Hstep.
  destruct (iteration_Again _ _ _ _ _ _ _ _ _ _ _ _ Hstep)
    as (r & usedBytes & w0 & w1 & Hdecode & Hok & Hmore & _ & ->).
  pose proof (Hconsumes _ _ _ _ _ _ _ _ _ Hdecode Hok Hmore) as Hused.
  split; [| apply to_int_is_int].
  rewrite to_int_small; unfold is_int, INT_MIN, INT_MAX in *; lia.
Qed.

Lemma dispatch_terminates {W : Type} (c : Collaborators W) :
  decodeConsumes c ->
  forall fuel data start stop dataStart dataRemaining r w trace,
    is_int dataRemaining -> dataRemaining <= Z.of_nat fuel ->
    dispatch c fuel data start stop dataStart dataRemaining r w trace
    <> Unfinished.
Proof.
  intros Hconsumes fuel.
  induction fuel as [| fuel IH];
    intros data start stop dataStart dataRemaining r w trace Hint Hfuel;
    cbn [dispatch];
    destruct (Z.gtb_spec dataRemaining 0) as [Hpos | Hdone];
    try discriminate; try lia.
  destruct (iteration c data start stop dataStart dataRemaining w)
    as [[[r' | dataStart' dataRemaining' r'] w'] events] eqn:Hstep;
    [discriminate |].
  destruct (iteration_decreases c _ _ _ _ _ _ _ _ _ _ _ Hconsumes Hint Hpos
              Hstep) as [Hless Hint'].
  apply IH; [exact Hint' | lia].
Qed.

Lemma dispatch_stalled fuel data start stop :
  forall dataStart r trace,
    dispatch stalled fuel data start stop dataStart 1 r tt trace = Unfinished.
Proof.
  induction fuel as [| fuel IH]; intros dataStart r trace; [reflexivity |].
  cbn [dispatch]. change (1 >? 0) with true. cbv iota.
  change (iteration stalled data start stop dataStart 1 tt)
    with (Again (dataStart + 0) 1 S_OK, tt,
          [EvInitializeOutputSample S_OK; EvDecode dataStart 1 S_OK 0;
           EvDisplayNextFrame S_OK]).
  apply IH.
Qed.

Lemma stalled_does_not_consume : ~ decodeConsumes stalled.
Proof.
  intros Hconsumes.
  assert (1 <= 0 <= INT_MAX) as Hused.
  { apply (Hconsumes [] 0 1 0 0 tt S_OK 0 tt); [reflexivity | reflexivity |].
    discriminate. }
  lia.
Qed.

(** C10.  If every [Decode] that succeeds with a status other than S_FALSE
    reports at least one byte used, each pass through the loop body that
    goes round again leaves [dataRemaining] strictly smaller, and [Receive]
    comes to an end on every sample.  Without that, it need not: with a
    backend that keeps answering S_OK with no byte used, [Receive] never
    leaves the loop on a sample of one byte. *)
Theorem Receive_terminates_when_decode_consumes :
  (forall (W : Type) (cfg : Streaming) (c : Collaborators W),
      decodeConsumes c ->
      (forall data start stop dataStart dataRemaining w
              dataStart' dataRemaining' r' w' events,
          is_int dataRemaining -> 0 < dataRemaining ->
          iteration c data start stop dataStart dataRemaining w
          = (Again dataStart' dataRemaining' r', w', events) ->
          dataRemaining' < dataRemaining)
      /\ (forall inSample w,
             exists fuel, Receive cfg c fuel inSample w <> Unfinished))
  /\ (~ decodeConsumes stalled
      /\ forall fuel,
          Receive (releaseBuild 8) stalled fuel (sampleOf 32 1) tt
          = Unfinished).
Proof.
  split.
  - intros W cfg c Hconsumes. split.
    + intros data start stop dataStart dataRemaining w dataStart'
             dataRemaining' r' w' events Hint Hpos Hstep.
      exact (proj1 (iteration_decreases c _ _ _ _ _ _ _ _ _ _ _ Hconsumes
                      Hint Hpos Hstep)).
    + intros inSample w.
      exists (Z.to_nat (to_int (GetActualDataLength inSample))).
      unfold Receive.
      destruct (prologue cfg c inSample w)
        as [result | data start stop dataLength r w0 trace] eqn:Hprologue.
      * unfold prologue in Hprologue.
        repeat case_match; try discriminate Hprologue;
          injection Hprologue as <-; discriminate.
      * assert (dataLength = to_int (GetActualDataLength inSample)) as ->.
        { unfold prologue in Hprologue.
          repeat case_match; try discriminate Hprologue;
            injection Hprologue as <- <- <- <- <- <- <-; reflexivity. }
        apply dispatch_terminates;
          [exact Hconsumes | apply to_int_is_int | lia].
  - split; [exact stalled_does_not_consume |].
    intros fuel. apply dispatch_stalled.
Qed.

Lemma Receive_terminates_when_decode_consumes_witness :
  exists fuel,
    Receive (releaseBuild 8) (steady S_OK 4) fuel (sampleOf 32 16) tt
    <> Unfinished.
Proof.
  refine (proj2 (proj1 Receive_terminates_when_decode_consumes unit
                   (releaseBuild 8) (steady S_OK 4) _) (sampleOf 32 16) tt).
  intros data dataStart dataRemaining start stop w r usedBytes w' Hdecode _ _.
  injection Hdecode as _ <- _. unfold INT_MAX. lia.
Defined.

End Dispatch.

(** ** More on the capability advisor *)

Module AdvisorFacts.

Import Advisor.

Lemma checkHWLocals_flags ids hw width height videoLevel refFrameCount l :
  checkHWLocals ids hw width height videoLevel refFrameCount = Some l ->
  (noLevel51Support l = 0 \/ noLevel51Support l = 1)
  /\ (tooMuchRefFrames l = 0 \/ tooMuchRefFrames l = 1).
Proof.
  unfold checkHWLocals. intros Hl.
  destruct (videoLevel >=? 0).
  - destruct (maxRefFramesDPB41 width height) as [dpb41 |];
      [| discriminate Hl].
    pose proof (vendorGate_level_flag ids hw width dpb41) as Hno51.
    destruct (vendorGate ids hw width dpb41) as [no51 maxRef].
    injection Hl as <-. simpl in *. split; [exact Hno51 |].
    destruct (refFrameCount >? maxRef); auto.
  - injection Hl as <-. simpl. auto.
Qed.

(** The classifier has no result exactly when it divides by a picture area
    that is zero as an [int]; with a negative level it never divides. *)
Theorem checkHW_no_result_iff ids hw width height videoLevel refFrameCount :
  checkHWCompatibilityForH264 ids hw width height videoLevel refFrameCount
  = None
  <-> 0 <= videoLevel /\ to_int (width * height) = 0.
Proof.
  unfold checkHWCompatibilityForH264, checkHWLocals, maxRefFramesDPB41.
  destruct (Z.geb_spec videoLevel 0) as [Hlevel | Hlevel].
  - destruct (Z.eqb_spec (to_int (width * height)) 0) as [Harea | Harea].
    + simpl. split; [intros _; split; [lia | exact Harea] | reflexivity].
    + destruct (vendorGate _ _ _ _) as [no51 maxRef]. simpl.
      split; [discriminate | intros [_ Hzero]; contradiction].
  - simpl. split; [discriminate | intros [Hpos _]; lia].
Qed.

Example checkHW_zero_width :
  checkHWCompatibilityForH264 pciIds intelCard 0 1088 41 4 = None
  /\ checkHWCompatibilityForH264 pciIds intelCard 0 1088 (-1) 4 = Some 0.
Proof. split; reflexivity. Qed.

(** Whatever the card and the stream, a result is one of 0, 1, 2, 3: the
    flag DXVA_INCOMPATIBLE_SAR is never reported. *)
Theorem checkHW_result_range ids hw width height videoLevel refFrameCount r :
  checkHWCompatibilityForH264 ids hw width height videoLevel refFrameCount
  = Some r ->
  0 <= r <= 3 /\ hasFlag r DXVA_INCOMPATIBLE_SAR = false.
Proof.
  unfold checkHWCompatibilityForH264. intros Hr.
  destruct (checkHWLocals ids hw width height videoLevel refFrameCount)
    as [l |] eqn:Hl; [| discriminate Hr].
  injection Hr as <-.
  destruct (checkHWLocals_flags _ _ _ _ _ _ _ Hl) as [Hno51 Htoo].
  unfold compatResult, hasFlag, DXVA_UNSUPPORTED_LEVEL,
    DXVA_TOO_MUCH_REF_FRAMES, DXVA_INCOMPATIBLE_SAR.
  destruct (videoLevel >=? 51), Hno51 as [-> | ->], Htoo as [-> | ->];
    split; try reflexivity; lia.
Qed.

Lemma checkHW_result_range_witness :
  0 <= 3 <= 3 /\ hasFlag 3 DXVA_INCOMPATIBLE_SAR = false.
Proof.
  apply (checkHW_result_range pciIds intelCard 1920 1088 51 16 3).
  reflexivity.
Defined.

(** LEVEL_UNSUPPORTED is reported only for a level of 51 or more, and never
    on an S3 card (one whose vendor is not also taken for NVIDIA). *)
Theorem checkHW_level_flag_only_from_51 ids hw width height videoLevel
    refFrameCount r :
  checkHWCompatibilityForH264 ids hw width height videoLevel refFrameCount
  = Some r ->
  hasFlag r DXVA_UNSUPPORTED_LEVEL = true ->
  51 <= videoLevel
  /\ (GetVideoCardVendor hw = PCI_VENDOR_S3_GRAPHICS ids ->
      GetVideoCardVendor hw = PCI_VENDOR_NVIDIA ids).
Proof.
  unfold checkHWCompatibilityForH264, checkHWLocals. intros Hr Hflag.
  assert (forall no51 too maxRef,
             (too = 0 \/ too = 1) ->
             hasFlag (compatResult videoLevel
                        {| noLevel51Support := no51; tooMuchRefFrames := too;
                           maxRefFrames := maxRef |})
               DXVA_UNSUPPORTED_LEVEL = true ->
             51 <= videoLevel /\ no51 <> 0) as Hdecode.
  { intros no51 too maxRef Htoo.
    unfold hasFlag, compatResult, DXVA_UNSUPPORTED_LEVEL,
      DXVA_TOO_MUCH_REF_FRAMES; simpl.
    destruct (Z.geb_spec videoLevel 51) as [Hge | Hlt].
    - intros Hbit. split; [lia |]. intros ->.
      destruct Htoo as [-> | ->]; discriminate Hbit.
    - destruct Htoo as [-> | ->]; intros Hbit; discriminate Hbit. }
  destruct (Z.geb_spec videoLevel 0) as [_ | Hnegative].
  - destruct (maxRefFramesDPB41 width height) as [dpb41 |];
      [| discriminate Hr].
    destruct (vendorGate ids hw width dpb41) as [no51 maxRef] eqn:Hgate.
    injection Hr as <-.
    apply Hdecode in Hflag; [| destruct (refFrameCount >? maxRef); auto].
    destruct Hflag as [Hlevel Hno51]. split; [exact Hlevel |].
    intros Hs3. unfold vendorGate in Hgate.
    destruct (Z.eqb_spec (GetVideoCardVendor hw) (PCI_VENDOR_NVIDIA ids))
      as [Hnvidia | _]; [exact Hnvidia |].
    destruct (Z.eqb_spec (GetVideoCardVendor hw)
                (PCI_VENDOR_S3_GRAPHICS ids)) as [_ | Hnot]; [| contradiction].
    injection Hgate as <- _. contradiction.
  - injection Hr as <-. apply Hdecode in Hflag; [| auto].
    destruct Hflag as [Hlevel _]. lia.
Qed.

Lemma checkHW_level_flag_only_from_51_witness :
  51 <= 51
  /\ (GetVideoCardVendor intelCard = PCI_VENDOR_S3_GRAPHICS pciIds ->
      GetVideoCardVendor intelCard = PCI_VENDOR_NVIDIA pciIds).
Proof.
  apply (checkHW_level_flag_only_from_51 pciIds intelCard 1920 1088 51 16 3);
    reflexivity.
Defined.

Lemma vendorGate_ceiling ids hw width dflt :
  dflt <= 11 ->
  dflt <= snd (vendorGate ids hw width dflt) <= 16.
Proof.
  intros Hdflt. unfold vendorGate.
  repeat match goal with
         | |- context [if ?c then _ else _] => destruct c
         end; simpl; lia.
Qed.

(** For a picture whose area fits an [int] and a level that is not
    negative, the vendor branches only ever raise the ceiling on reference
    frames: the ceiling in force lies between
    min(11, 8388608 / (width * height)) and 16, and a stream with no more
    reference frames than min(11, 8388608 / (width * height)) is not
    flagged TOO_MUCH_REF_FRAMES. *)
Theorem checkHW_vendor_only_raises ids hw width height videoLevel
    refFrameCount :
  0 <= videoLevel ->
  0 < width -> 0 < height -> width * height <= INT_MAX ->
  exists l r,
    checkHWLocals ids hw width height videoLevel refFrameCount = Some l
    /\ checkHWCompatibilityForH264 ids hw width height videoLevel
         refFrameCount = Some r
    /\ Z.min 11 (8388608 / (width * height)) <= maxRefFrames l <= 16
    /\ (refFrameCount <= Z.min 11 (8388608 / (width * height)) ->
        hasFlag r DXVA_TOO_MUCH_REF_FRAMES = false).
Proof.
  intros Hlevel Hw Hh Hfit.
  unfold checkHWCompatibilityForH264, checkHWLocals.
  destruct (Z.geb_spec videoLevel 0) as [_ | Hneg]; [| lia].
  rewrite (maxRefFramesDPB41_in_range width height Hw Hh Hfit).
  set (dpb41 := Z.min 11 (8388608 / (width * height))).
  assert (dpb41 <= 11) as Hle by (subst dpb41; lia).
  pose proof (vendorGate_ceiling ids hw width dpb41 Hle) as Hceiling.
  pose proof (vendorGate_level_flag ids hw width dpb41) as Hno51.
  destruct (vendorGate ids hw width dpb41) as [no51 maxRef].
  cbn [fst snd] in Hceiling, Hno51.
  eexists _, _. split; [reflexivity |]. split; [reflexivity |].
  split; [exact Hceiling |].
  intros Hwithin. cbn [fmap option_fmap option_map].
  destruct (Z.gtb_spec refFrameCount maxRef) as [Hover | _]; [lia |].
  destruct (hasFlag _ _) eqn:Hflag; [| reflexivity].
  apply tooMuchRefFrames_flag in Hflag; [discriminate Hflag | exact Hno51 |].
  left. reflexivity.
Qed.

Lemma checkHW_vendor_only_raises_witness :
  exists l r,
    checkHWLocals pciIds intelCard 1280 720 41 8 = Some l
    /\ checkHWCompatibilityForH264 pciIds intelCard 1280 720 41 8 = Some r
    /\ Z.min 11 (8388608 / (1280 * 720)) <= maxRefFrames l <= 16
    /\ (8 <= Z.min 11 (8388608 / (1280 * 720)) ->
        hasFlag r DXVA_TOO_MUCH_REF_FRAMES = false).
Proof.
  apply (checkHW_vendor_only_raises pciIds intelCard 1280 720 41 8);
    unfold INT_MAX; lia.
Defined.

(** A driver that has reached a version has reached every version that is
    not above it. *)
Theorem hasDriverVersionReached_downward version a b c d a' b' c' d' :
  hasDriverVersionReached version a b c d = true ->
  lex_ge (a, b, c, d) (a', b', c', d') ->
  hasDriverVersionReached version a' b' c' d' = true.
Proof.
  rewrite !hasDriverVersionReached_iff. apply lex_ge_trans.
Qed.

Lemma hasDriverVersionReached_downward_witness :
  hasDriverVersionReached (packVersion 7 15 11 7800) 6 14 11 7800 = true.
Proof.
  apply (hasDriverVersionReached_downward (packVersion 7 15 11 7800)
           7 15 11 7800 6 14 11 7800).
  - reflexivity.
  - unfold lex_ge. lia.
Defined.

End AdvisorFacts.

(** ** More on the surface pool allocator *)

Module PoolFacts.

Import SurfacePool.

Lemma deleteSamples_none free : forall (h : gmap nat CDXVA2Sample) p,
  h !! p = None -> deleteSamples free h !! p = None.
Proof.
  induction free as [| q free IH]; intros h p Hgone; cbn [deleteSamples];
    [exact Hgone |].
  apply IH. rewrite lookup_delete. case_decide; [reflexivity | exact Hgone].
Qed.

Lemma deleteSamples_member free : forall (h : gmap nat CDXVA2Sample) p,
  p ∈ free -> deleteSamples free h !! p = None.
Proof.
  induction free as [| q free IH]; intros h p Hin; cbn [deleteSamples].
  - inversion Hin.
  - apply elem_of_cons in Hin as [-> | Hin].
    + apply deleteSamples_none, lookup_delete_eq.
    + apply IH, Hin.
Qed.

(** [Free] asks the decoder to flush once, whether or not there is anything
    to release, deletes exactly the samples that were on the free list and
    leaves every other object on the heap alone. *)
Theorem Free_releases_exactly_the_pool a :
  m_lFree (Free a) = []
  /\ m_lAllocated (Free a) = 0
  /\ flushes (Free a) = S (flushes a)
  /\ (forall p, p ∈ m_lFree a -> heap (Free a) !! p = None)
  /\ (forall p, p ∉ m_lFree a -> heap (Free a) !! p = heap a !! p).
Proof.
  repeat split.
  - intros p Hin. apply deleteSamples_member, Hin.
  - intros p Hout. apply deleteSamples_other, Hout.
Qed.

Lemma allocLoop_counter ctor n : forall r a r' a',
  allocLoop ctor n r a = (r', a') ->
  FAILED r' = false ->
  m_lAllocated a' = m_lAllocated a - Z.of_nat n
  /\ m_bChanged a' = m_bChanged a /\ flushes a' = flushes a.
Proof.
  induction n as [| n IH]; intros r a r' a' Hrun Hok.
  - simpl in Hrun. injection Hrun as <- <-. repeat split. lia.
  - simpl in Hrun.
    destruct (FAILED (ctor (m_lAllocated a) r)) eqn:Hctor.
    { injection Hrun as <- <-. congruence. }
    unfold GetSurface in Hrun; simpl in Hrun.
    match type of Hrun with
    | context [match ?x with Some _ => _ | None => _ end] =>
        destruct x as [surf |]
    end.
    + apply IH in Hrun; [| exact Hok]. simpl in Hrun.
      destruct Hrun as (-> & -> & ->). repeat split. lia.
    + injection Hrun as <- <-. rewrite FAILED_E_UNEXPECTED in Hok.
      discriminate Hok.
Qed.

(** After a successful [Alloc] the member [m_lAllocated], which the loop
    uses as its counter, is left at -1 (not at the number of samples),
    [m_bChanged] is FALSE and one flush has been requested. *)
Theorem Alloc_success_leaves_counter base ctor a r a' :
  0 <= m_lCount a <= INT_MAX ->
  Alloc base ctor a = (r, a') ->
  FAILED r = false ->
  m_lAllocated a' = -1
  /\ m_bChanged a' = false
  /\ flushes a' = S (flushes a).
Proof.
  intros Hcount Hrun Hok.
  unfold Alloc in Hrun.
  destruct (FAILED base) eqn:Hbase.
  { injection Hrun as <- <-. congruence. }
  simpl in Hrun.
  rewrite to_int_small in Hrun
    by (unfold is_int, INT_MIN, INT_MAX in *; lia).
  destruct (allocLoop ctor _ base _) as [r1 a1] eqn:Hloop.
  destruct (FAILED r1) eqn:Hr1.
  { injection Hrun as <- <-. congruence. }
  injection Hrun as <- <-.
  apply allocLoop_counter in Hloop; [| exact Hr1]. simpl in Hloop.
  destruct Hloop as (Hcounter & _ & Hflush). simpl.
  repeat split; [lia | exact Hflush].
Qed.

Lemma Alloc_success_leaves_counter_witness :
  let a' := (Alloc S_OK (fun _ r => r)
               (emptyAllocator 2 [Some (plainSurface 10);
                                  Some (plainSurface 11)])).2 in
  m_lAllocated a' = -1
  /\ m_bChanged a' = false
  /\ flushes a' = 1%nat.
Proof.
  apply (Alloc_success_leaves_counter S_OK (fun _ r => r)
           (emptyAllocator 2 [Some (plainSurface 10);
                              Some (plainSurface 11)]) S_OK).
  - unfold INT_MAX; simpl; lia.
  - vm_compute. reflexivity.
  - reflexivity.
Defined.

(** [GetSurface] is only ever asked for the loop counter, which counts down
    to 0: the allocator never hands it a negative index. *)
Lemma allocLoop_requests ctor n : forall r a r' a',
  (n = 0%nat \/ m_lAllocated a = Z.of_nat n - 1) ->
  allocLoop ctor n r a = (r', a') ->
  exists asked,
    surfaceRequests a' = surfaceRequests a ++ asked
    /\ Forall (fun index => 0 <= index) asked.
Proof.
  induction n as [| n IH]; intros r a r' a' Hcounter Hrun.
  - simpl in Hrun. injection Hrun as <- <-. exists [].
    rewrite app_nil_r. split; [reflexivity | constructor].
  - destruct Hcounter as [Hzero | Hcounter]; [discriminate Hzero |].
    simpl in Hrun.
    destruct (FAILED (ctor (m_lAllocated a) r)).
    { injection Hrun as <- <-. exists []. simpl.
      rewrite app_nil_r. split; [reflexivity | constructor]. }
    unfold GetSurface in Hrun; simpl in Hrun.
    match type of Hrun with
    | context [match ?x with Some _ => _ | None => _ end] =>
        destruct x as [surf |]
    end.
    + apply IH in Hrun; [| simpl; right; lia]. simpl in Hrun.
      destruct Hrun as (asked & -> & Hasked).
      exists (m_lAllocated a :: asked). rewrite <- app_assoc.
      split; [reflexivity |]. constructor; [lia | exact Hasked].
    + injection Hrun as <- <-. simpl. exists [m_lAllocated a].
      split; [reflexivity |]. constructor; [lia | constructor].
Qed.

Lemma Alloc_requests_from_zero base ctor a r a' :
  Alloc base ctor a = (r, a') ->
  exists asked,
    surfaceRequests a' = surfaceRequests a ++ asked
    /\ Forall (fun index => 0 <= index) asked.
Proof.
  unfold Alloc. intros Hrun.
  destruct (FAILED base).
  { injection Hrun as <- <-. exists []. rewrite app_nil_r.
    split; [reflexivity | constructor]. }
  destruct (allocLoop _ _ _ _) as [r1 a1] eqn:Hloop.
  apply allocLoop_requests in Hloop.
  - simpl in Hloop.
    destruct (FAILED r1); injection Hrun as <- <-; exact Hloop.
  - simpl. destruct (Z.ltb_spec (to_int (m_lCount a - 1)) 0); [left | right];
      lia.
Qed.

(** However the loop ends, it only touches objects it has constructed. *)
Lemma allocLoop_heap_below ctor n : forall r a r' a' q,
  allocLoop ctor n r a = (r', a') ->
  (q < nextAddress a)%nat ->
  heap a' !! q = heap a !! q.
Proof.
  induction n as [| n IH]; intros r a r' a' q Hrun Hq.
  - simpl in Hrun. injection Hrun as <- <-. reflexivity.
  - simpl in Hrun.
    destruct (FAILED (ctor (m_lAllocated a) r)).
    { injection Hrun as <- <-. simpl. apply lookup_insert_ne. lia. }
    unfold GetSurface in Hrun; simpl in Hrun.
    match type of Hrun with
    | context [match ?x with Some _ => _ | None => _ end] =>
        destruct x as [surf |]
    end.
    + apply (IH _ _ _ _ q) in Hrun; [| simpl; lia].
      rewrite Hrun. simpl.
      rewrite lookup_alter_ne, lookup_insert_ne by lia. reflexivity.
    + injection Hrun as <- <-. simpl. apply lookup_insert_ne. lia.
Qed.

(** An [Alloc] that the base class lets proceed first releases the pool of
    the previous allocation: whether it then succeeds or fails, none of the
    samples that were on the free list is on the heap afterwards. *)
Theorem Alloc_releases_previous_pool base ctor a r a' p :
  FAILED base = false ->
  Forall (fun q => (q < nextAddress a)%nat) (m_lFree a) ->
  Alloc base ctor a = (r, a') ->
  p ∈ m_lFree a ->
  heap a' !! p = None.
Proof.
  intros Hbase Hlive Hrun Hin. unfold Alloc in Hrun. rewrite Hbase in Hrun.
  destruct (allocLoop _ _ _ _) as [r1 a1] eqn:Hloop.
  assert (heap a1 !! p = None) as Hgone.
  { rewrite (allocLoop_heap_below _ _ _ _ _ _ p Hloop).
    - simpl. apply deleteSamples_member, Hin.
    - simpl. rewrite Forall_forall in Hlive. apply Hlive, Hin. }
  destruct (FAILED r1); injection Hrun as <- <-; simpl.
  - apply deleteSamples_none, Hgone.
  - exact Hgone.
Qed.

(** The allocator after a first, successful allocation of two samples. *)
Definition twoSlotPool : CDXVA2Allocator :=
  (Alloc S_OK (fun _ r => r)
     (emptyAllocator 2 [Some (plainSurface 10); Some (plainSurface 11)])).2.

Lemma Alloc_releases_previous_pool_witness :
  m_lFree twoSlotPool = [1%nat; 0%nat]
  /\ heap (Alloc S_OK (fun _ r => r) twoSlotPool).2 !! 1%nat = None.
Proof.
  split; [vm_compute; reflexivity |].
  apply (Alloc_releases_previous_pool S_OK (fun _ r => r) twoSlotPool
           (Alloc S_OK (fun _ r => r) twoSlotPool).1
           (Alloc S_OK (fun _ r => r) twoSlotPool).2 1%nat).
  - reflexivity.
  - vm_compute. repeat constructor.
  - apply surjective_pairing.
  - vm_compute. left.
Defined.

End PoolFacts.

(** ** More on negotiation *)

Module NegotiatorFacts.

Import Advisor Negotiator.

Lemma FAILED_E_FAIL : FAILED E_FAIL = true.
Proof. reflexivity. Qed.

Lemma elem_of_intPrefix {A : Type} (x : A) (l : list A) :
  x ∈ intPrefix l -> x ∈ l.
Proof.
  unfold intPrefix. intros Hin.
  rewrite <- (take_drop (Z.to_nat (to_int (Z.of_nat (length l)))) l).
  apply elem_of_app. left. exact Hin.
Qed.

(** The render target and configuration a successful
    [ConfirmDXVA2UncompFormat] leaves in its out-parameters. *)
Lemma confirmFormats_success host f decoderID formats out r c d :
  confirmFormats host f decoderID formats out = Returned (r, (c, d)) ->
  FAILED r = false ->
  exists preDecode rq configs,
    m_preDecode f = Some preDecode
    /\ d = descFor preDecode FOURCC_NV12
    /\ r = S_OK
    /\ GetDecoderConfigurations (decoderService (renderer host)) decoderID d
       = (rq, configs)
    /\ FAILED rq = false
    /\ configs <> []
    /\ (c ∈ configs \/ intPrefix configs = []).
Proof.
  induction formats as [| format formats IH]; cbn [confirmFormats].
  - intros Hrun Hok. injection Hrun as <- _.
    rewrite FAILED_E_FAIL in Hok. discriminate Hok.
  - destruct (Z.eqb_spec FOURCC_NV12 format) as [<- | _]; cbn [negb];
      [| exact IH].
    intros Hrun Hok.
    destruct (m_preDecode f) as [preDecode |] eqn:Hpre;
      [| discriminate Hrun].
    fold (descFor preDecode FOURCC_NV12) in Hrun.
    destruct (GetDecoderConfigurations (decoderService (renderer host))
                decoderID (descFor preDecode FOURCC_NV12))
      as [rq configs] eqn:Hquery.
    destruct (FAILED rq) eqn:Hrq; [exact (IH Hrun Hok) |].
    destruct (pickConfig (intPrefix configs) out.1) as [raw selected]
      eqn:Hpick.
    assert (selected ∈ intPrefix configs \/ intPrefix configs = [])
      as Hselected.
    { clear -Hpick. revert Hpick. generalize out.1.
      induction (intPrefix configs) as [| config rest IHrest];
        intros start Hpick; [right; reflexivity |].
      left. cbn [pickConfig] in Hpick.
      destruct (2 =? ConfigBitstreamRaw config).
      - injection Hpick as _ <-. left.
      - destruct (IHrest _ Hpick) as [Hin | ->].
        + right. exact Hin.
        + simpl in Hpick. injection Hpick as _ <-. left. }
    assert (r = S_OK /\ c = selected /\ d = descFor preDecode FOURCC_NV12
            /\ configs <> []) as (-> & -> & -> & Hnonempty).
    { destruct raw.
      - injection Hrun as <- <- <-. repeat split.
        intros ->. simpl in Hpick. discriminate Hpick.
      - destruct configs as [| config configs].
        + simpl in Hrun. injection Hrun as <- _ _.
          rewrite FAILED_E_FAIL in Hok. discriminate Hok.
        + change (Z.of_nat (length (config :: configs)) =? 0) with false
            in Hrun.
          injection Hrun as <- <- <-. repeat split. discriminate. }
    exists preDecode, rq, configs. repeat split; try assumption.
    destruct Hselected as [Hin | Hempty]; [left | right; exact Hempty].
    apply elem_of_intPrefix, Hin.
Qed.

(** When [ConfirmDXVA2UncompFormat] succeeds it returns S_OK, the selected
    format is NV12 at the stream's width and height with protection level 1,
    and the selected configuration is one of those the service listed for
    that format. *)
Theorem ConfirmDXVA2UncompFormat_success host f decoderID out r c d :
  (forall id desc,
      Z.of_nat (length (GetDecoderConfigurations
                          (decoderService (renderer host)) id desc).2)
      <= INT_MAX) ->
  ConfirmDXVA2UncompFormat host f decoderID out = Returned (r, (c, d)) ->
  FAILED r = false ->
  exists preDecode,
    m_preDecode f = Some preDecode
    /\ r = S_OK
    /\ d = {| SampleWidth := GetWidth preDecode;
              SampleHeight := GetHeight preDecode;
              UABProtectionLevel := 1; Format := FOURCC_NV12 |}
    /\ c ∈ (GetDecoderConfigurations (decoderService (renderer host))
              decoderID d).2.
Proof.
  intros Hsmall Hrun Hok. unfold ConfirmDXVA2UncompFormat in Hrun.
  destruct (GetDecoderRenderTargets _ _) as [r0 formats].
  destruct (FAILED r0) eqn:Hr0.
  { injection Hrun as <- _. congruence. }
  destruct (confirmFormats_success _ _ _ _ _ _ _ _ Hrun Hok)
    as (preDecode & rq & configs & Hpre & -> & -> & Hquery & _ & Hnonempty
        & Hin).
  exists preDecode. repeat split; [exact Hpre |].
  fold (descFor preDecode FOURCC_NV12). rewrite Hquery. simpl.
  destruct Hin as [Hin | Hempty]; [exact Hin |].
  specialize (Hsmall decoderID (descFor preDecode FOURCC_NV12)).
  rewrite Hquery in Hsmall. simpl in Hsmall.
  rewrite (intPrefix_all configs Hsmall) in Hempty. contradiction.
Qed.

Lemma ConfirmDXVA2UncompFormat_success_witness :
  exists preDecode,
    m_preDecode (connectedInput level51Stream) = Some preDecode
    /\ S_OK = S_OK
    /\ descFor level51Stream FOURCC_NV12
       = {| SampleWidth := GetWidth preDecode;
            SampleHeight := GetHeight preDecode;
            UABProtectionLevel := 1; Format := FOURCC_NV12 |}
    /\ configB
       ∈ (GetDecoderConfigurations
            (decoderService (renderer (hostWith twoConfigRenderer)))
            DXVA2_ModeH264_E (descFor level51Stream FOURCC_NV12)).2.
Proof.
  apply (ConfirmDXVA2UncompFormat_success (hostWith twoConfigRenderer)
           (connectedInput level51Stream) DXVA2_ModeH264_E
           (uninitialised (hostWith twoConfigRenderer))).
  - intros id desc. unfold INT_MAX. simpl. lia.
  - reflexivity.
  - reflexivity.
Defined.

(** A failed render-target query is handed back as it is, and a decoder
    without an NV12 render target gives E_FAIL; in both cases the
    out-parameters are not written. *)
Theorem ConfirmDXVA2UncompFormat_untouched host f decoderID out :
  let targets :=
    GetDecoderRenderTargets (decoderService (renderer host)) decoderID in
  (FAILED targets.1 = true ->
   ConfirmDXVA2UncompFormat host f decoderID out = Returned (targets.1, out))
  /\ (FAILED targets.1 = false ->
      Forall (fun format => format <> FOURCC_NV12) targets.2 ->
      ConfirmDXVA2UncompFormat host f decoderID out
      = Returned (E_FAIL, out)).
Proof.
  intros targets. subst targets. unfold ConfirmDXVA2UncompFormat.
  destruct (GetDecoderRenderTargets _ _) as [r formats]. simpl.
  split; intros Hr; rewrite Hr; [reflexivity |].
  intros Hnone. unfold intPrefix.
  apply (Forall_take _ (Z.to_nat (to_int (Z.of_nat (length formats)))))
    in Hnone.
  induction Hnone as [| format rest Hne _ IH]; cbn [confirmFormats];
    [reflexivity |].
  destruct (Z.eqb_spec FOURCC_NV12 format) as [Heq | _]; [congruence |].
  exact IH.
Qed.

(** *** The surface type of the renderer *)

Lemma surfaceTypeLoop_returned host fuel : forall i f r f',
  surfaceTypeLoop host fuel i f = Returned (r, f') ->
  (FAILED r = true /\ f' = f)
  \/ f' = logCall (CallSetSurfaceType DXVA2_SurfaceType_DecoderRenderTarget) f.
Proof.
  induction fuel as [| fuel IH]; intros i f r f' Hrun;
    cbn [surfaceTypeLoop] in Hrun; [discriminate Hrun |].
  destruct (GetAvailableSurfaceTypeByIndex (renderer host) i)
    as [ri surfType].
  destruct (FAILED ri) eqn:Hri.
  { injection Hrun as <- <-. left. split; [exact Hri | reflexivity]. }
  destruct (Z.eqb_spec DXVA2_SurfaceType_DecoderRenderTarget surfType)
    as [<- | _].
  - injection Hrun as _ <-. right. reflexivity.
  - exact (IH _ _ _ _ Hrun).
Qed.

Lemma surfaceTypeLoop_finds host k : forall extra i f,
  0 <= i -> i + Z.of_nat k <= INT_MAX ->
  (forall j, i <= j < i + Z.of_nat k ->
             FAILED (GetAvailableSurfaceTypeByIndex (renderer host) j).1
             = false
             /\ (GetAvailableSurfaceTypeByIndex (renderer host) j).2
                <> DXVA2_SurfaceType_DecoderRenderTarget) ->
  surfaceTypeLoop host (k + S extra) i f
  = surfaceTypeLoop host (S extra) (i + Z.of_nat k) f.
Proof.
  induction k as [| k IH]; intros extra i f Hi Hmax Hskip.
  - replace (i + Z.of_nat 0) with i by lia. reflexivity.
  - change (S k + S extra)%nat with (S (k + S extra)).
    cbn [surfaceTypeLoop].
    destruct (Hskip i) as [Hok Hother]; [lia |].
    destruct (GetAvailableSurfaceTypeByIndex (renderer host) i)
      as [ri surfType]. simpl in Hok, Hother. rewrite Hok.
    destruct (Z.eqb_spec DXVA2_SurfaceType_DecoderRenderTarget surfType)
      as [Heq | _]; [congruence |].
    rewrite to_int_small by (unfold is_int, INT_MIN, INT_MAX in *; lia).
    rewrite IH.
    + replace (i + 1 + Z.of_nat k) with (i + Z.of_nat (S k)) by lia.
      reflexivity.
    + lia.
    + lia.
    + intros j Hj. apply Hskip. lia.
Qed.

(** [configureEVRForDXVA2] walks the renderer's surface types from index 0
    and stops at the first answer that is a failure or the decoder render
    target: a failure is handed back and nothing is set; for the decoder
    render target [SetSurfaceType] is called once and its status returned. *)
Theorem configureEVRForDXVA2_first_match host f k extra :
  FAILED (GetService_VideoMemoryConfiguration (renderer host)) = false ->
  Z.of_nat k <= INT_MAX ->
  (forall j, 0 <= j < Z.of_nat k ->
             FAILED (GetAvailableSurfaceTypeByIndex (renderer host) j).1
             = false
             /\ (GetAvailableSurfaceTypeByIndex (renderer host) j).2
                <> DXVA2_SurfaceType_DecoderRenderTarget) ->
  let answer := GetAvailableSurfaceTypeByIndex (renderer host) (Z.of_nat k) in
  (FAILED answer.1 = true ->
   configureEVRForDXVA2 host (k + S extra) f = Returned (answer.1, f))
  /\ (FAILED answer.1 = false ->
      answer.2 = DXVA2_SurfaceType_DecoderRenderTarget ->
      configureEVRForDXVA2 host (k + S extra) f
      = Returned (SetSurfaceType (renderer host)
                    DXVA2_SurfaceType_DecoderRenderTarget,
                  logCall (CallSetSurfaceType
                             DXVA2_SurfaceType_DecoderRenderTarget) f)).
Proof.
  intros Hservice Hk Hskip answer. subst answer.
  unfold configureEVRForDXVA2. rewrite Hservice.
  rewrite surfaceTypeLoop_finds by (try lia; intros j Hj; apply Hskip; lia).
  cbn [surfaceTypeLoop]. replace (0 + Z.of_nat k) with (Z.of_nat k) by lia.
  destruct (GetAvailableSurfaceTypeByIndex (renderer host) (Z.of_nat k))
    as [rk surfType]. simpl.
  split; intros Hrk; rewrite Hrk; [reflexivity |].
  intros ->. reflexivity.
Qed.

(** A renderer whose third surface type is the decoder render target. *)
Definition thirdTypeRenderer : Renderer :=
  {| GetConnected := true;
     QueryInterface_IMFGetService := S_OK;
     GetService_DeviceManager := S_OK;
     OpenDeviceHandle := S_OK;
     GetVideoService_DecoderService := S_OK;
     decoderService := decoderService twoConfigRenderer;
     GetService_VideoMemoryConfiguration := S_OK;
     GetAvailableSurfaceTypeByIndex :=
       fun i => if i <? 2 then (S_OK, 2 - i) else (S_OK, 0);
     SetSurfaceType := fun _ => S_FALSE;
     GetVideoService_AccelerationService := S_OK;
     CreateSurface := fun _ _ _ _ => S_OK |}.

Lemma configureEVRForDXVA2_first_match_witness :
  configureEVRForDXVA2 (hostWith thirdTypeRenderer) 3
    (connectedInput level51Stream)
  = Returned (S_FALSE,
              logCall (CallSetSurfaceType 0) (connectedInput level51Stream)).
Proof.
  refine (proj2 (configureEVRForDXVA2_first_match (hostWith thirdTypeRenderer)
                   (connectedInput level51Stream) 2 0 eq_refl _ _)
            eq_refl eq_refl).
  - unfold INT_MAX. simpl. lia.
  - intros j Hj. assert (j = 0 \/ j = 1) as [-> | ->] by lia;
      split; first [reflexivity | discriminate].
Defined.

(** *** Modern hardware activation *)

(** The filter after a modern hardware decoder for [devGUID] has been set
    up on top of [f]: the surface type set, the configuration and services
    kept, the surfaces and the decoder created. *)
Definition modernActive (host : Host) (f : CH264DecoderFilter)
    (preDecode : PreDecode) (devGUID : GUID)
    (config : DXVA2_ConfigPictureDecode) : CH264DecoderFilter :=
  set_decoder (Some (CH264DXVA2Decoder devGUID))
    (logCall (CallCreateVideoDecoder devGUID (getDecodeSurfacesCount host))
       (logCall (CallCreateSurface (GetWidth preDecode) (GetHeight preDecode)
                   (getDecodeSurfacesCount host - 1) FOURCC_NV12)
          (keepServices config
             (logCall (CallSetSurfaceType
                         DXVA2_SurfaceType_DecoderRenderTarget) f)))).

Lemma CreateDXVA2Decoder_returned host f devGUID videoDesc r f' :
  CreateDXVA2Decoder host f devGUID videoDesc = Returned (r, f') ->
  (FAILED r = true /\ m_decoder f' = m_decoder f)
  \/ (FAILED r = false
      /\ exists preDecode,
          m_preDecode f = Some preDecode
          /\ f' = set_decoder (Some (CH264DXVA2Decoder devGUID))
                    (logCall (CallCreateVideoDecoder devGUID
                                (getDecodeSurfacesCount host))
                       (logCall (CallCreateSurface (GetWidth preDecode)
                                   (GetHeight preDecode)
                                   (getDecodeSurfacesCount host - 1)
                                   (Format videoDesc)) f))).
Proof.
  unfold CreateDXVA2Decoder. intros Hrun.
  destruct (FAILED (GetVideoService_AccelerationService (renderer host)))
    eqn:Haccel.
  { injection Hrun as <- <-. left. split; [exact Haccel | reflexivity]. }
  destruct (m_preDecode f) as [preDecode |]; [| discriminate Hrun].
  destruct (FAILED (CreateSurface _ _ _ _ _)) eqn:Hsurface.
  { injection Hrun as <- <-. left. split; [exact Hsurface | reflexivity]. }
  destruct (FAILED (CreateVideoDecoder _ _ _ _ _)) eqn:Hdecoder.
  { injection Hrun as <- <-. left. split; [exact Hdecoder | reflexivity]. }
  injection Hrun as <- <-. right. split; [exact Hdecoder |].
  exists preDecode. split; reflexivity.
Qed.

Lemma configureEVRForDXVA2_returned host fuel f r f' :
  configureEVRForDXVA2 host fuel f = Returned (r, f') ->
  (FAILED r = true /\ f' = f)
  \/ f' = logCall (CallSetSurfaceType DXVA2_SurfaceType_DecoderRenderTarget) f.
Proof.
  unfold configureEVRForDXVA2. intros Hrun.
  destruct (FAILED (GetService_VideoMemoryConfiguration (renderer host)))
    eqn:Hservice.
  - injection Hrun as <- <-. left. split; [exact Hservice | reflexivity].
  - exact (surfaceTypeLoop_returned _ _ _ _ _ _ Hrun).
Qed.

Lemma confirm_format host f decoderID rc c d :
  ConfirmDXVA2UncompFormat host f decoderID (uninitialised host)
  = Returned (rc, (c, d)) ->
  FAILED rc = false ->
  exists preDecode,
    m_preDecode f = Some preDecode /\ Format d = FOURCC_NV12.
Proof.
  unfold ConfirmDXVA2UncompFormat. intros Hrun Hok.
  destruct (GetDecoderRenderTargets _ _) as [r0 formats].
  destruct (FAILED r0) eqn:Hr0.
  { injection Hrun as <- _. congruence. }
  destruct (confirmFormats_success _ _ _ _ _ _ _ _ Hrun Hok)
    as (preDecode & _ & _ & Hpre & -> & _).
  exists preDecode. split; [exact Hpre | reflexivity].
Qed.

Lemma tryCandidates_returned host fuel devGUIDs f r f' :
  tryCandidates host fuel devGUIDs f = Returned (r, f') ->
  (FAILED r = true /\ m_decoder f' = m_decoder f)
  \/ (FAILED r = false
      /\ exists devGUID preDecode config,
          devGUID ∈ devGUIDs
          /\ IsFormatSupported devGUID = true
          /\ m_preDecode f = Some preDecode
          /\ f' = modernActive host f preDecode devGUID config).
Proof.
  induction devGUIDs as [| devGUID rest IH]; cbn [tryCandidates];
    intros Hrun.
  { injection Hrun as <- <-. left. split; reflexivity. }
  assert (tryCandidates host fuel rest f = Returned (r, f') ->
          (FAILED r = true /\ m_decoder f' = m_decoder f)
          \/ (FAILED r = false
              /\ exists devGUID0 preDecode config,
                  devGUID0 ∈ devGUID :: rest
                  /\ IsFormatSupported devGUID0 = true
                  /\ m_preDecode f = Some preDecode
                  /\ f' = modernActive host f preDecode devGUID0 config))
    as Hlater.
  { intros Hrest. destruct (IH Hrest) as [Hfail | (Hok & g & p & c & Hin & H)];
      [left; exact Hfail |].
    right. split; [exact Hok |]. exists g, p, c.
    split; [right; exact Hin | exact H]. }
  destruct (IsFormatSupported devGUID) eqn:Hsupported; cbn [negb] in Hrun;
    [| exact (Hlater Hrun)].
  destruct (ConfirmDXVA2UncompFormat host f devGUID (uninitialised host))
    as [[rc [selectedConfig selectedFormat]] | |] eqn:Hconfirm;
    try discriminate Hrun.
  destruct (FAILED rc) eqn:Hrc; [exact (Hlater Hrun) |].
  destruct (confirm_format host f devGUID rc selectedConfig selectedFormat
              Hconfirm Hrc) as (preDecode & Hpre & Hformat).
  destruct (configureEVRForDXVA2 host fuel f) as [[r1 f1] | |] eqn:Hevr;
    try discriminate Hrun.
  destruct (configureEVRForDXVA2_returned _ _ _ _ _ Hevr)
    as [[Hr1 ->] | ->].
  { rewrite Hr1 in Hrun. injection Hrun as <- <-. left.
    split; [exact Hr1 | reflexivity]. }
  destruct (FAILED r1) eqn:Hr1.
  { injection Hrun as <- <-. left. split; [exact Hr1 | reflexivity]. }
  destruct (CreateDXVA2Decoder_returned _ _ _ _ _ _ Hrun)
    as [[Hfail Hsame] | (Hok & preDecode' & Hpre' & ->)].
  { left. split; [exact Hfail | exact Hsame]. }
  right. split; [exact Hok |].
  exists devGUID, preDecode, selectedConfig.
  split; [left |]. split; [exact Hsupported |]. split; [exact Hpre |].
  simpl in Hpre'. rewrite Hpre in Hpre'. injection Hpre' as <-.
  unfold modernActive. rewrite Hformat. reflexivity.
Qed.

Lemma ActivateDXVA2_returned host fuel f r f' :
  ActivateDXVA2 host fuel f = Returned (r, f') ->
  (FAILED r = true /\ m_decoder f' = m_decoder f)
  \/ (FAILED r = false
      /\ exists devGUID preDecode config,
          devGUID ∈ (GetDecoderDeviceGuids (decoderService (renderer host))).2
          /\ IsFormatSupported devGUID = true
          /\ m_preDecode f = Some preDecode
          /\ f' = modernActive host (logCall CallOpenDeviceHandle f)
                    preDecode devGUID config).
Proof.
  unfold ActivateDXVA2. intros Hrun.
  destruct (GetConnected (renderer host)); cbn [negb] in Hrun.
  2: { injection Hrun as <- <-. left. split; reflexivity. }
  destruct (FAILED (QueryInterface_IMFGetService (renderer host))) eqn:H1.
  { injection Hrun as <- <-. left. split; [exact H1 | reflexivity]. }
  destruct (FAILED (GetService_DeviceManager (renderer host))) eqn:H2.
  { injection Hrun as <- <-. left. split; [exact H2 | reflexivity]. }
  destruct (FAILED (OpenDeviceHandle (renderer host))) eqn:H3.
  { injection Hrun as <- <-. left. split; [exact H3 | reflexivity]. }
  destruct (FAILED (GetVideoService_DecoderService (renderer host))) eqn:H4.
  { injection Hrun as <- <-. left. split; [exact H4 | reflexivity]. }
  destruct (GetDecoderDeviceGuids (decoderService (renderer host)))
    as [r5 devGUIDs].
  destruct (FAILED r5) eqn:H5.
  { injection Hrun as <- <-. left. split; [exact H5 | reflexivity]. }
  destruct (tryCandidates_returned _ _ _ _ _ _ Hrun)
    as [[Hfail Hsame] | (Hok & g & p & c & Hin & Hsupported & Hpre & ->)].
  - left. split; [exact Hfail | exact Hsame].
  - right. split; [exact Hok |]. exists g, p, c.
    split; [apply elem_of_intPrefix, Hin |].
    split; [exact Hsupported |]. split; [exact Hpre | reflexivity].
Qed.

(** A successful [ActivateDXVA2] has installed the modern hardware decoder
    for one of the enumerated identities that is a supported format and has
    kept the services.  Of the four calls [platformLog] records
    ([OpenDeviceHandle], [SetSurfaceType], [CreateSurface] and
    [CreateVideoDecoder], each recorded at its only call site) it has made
    each once, in this order: open the device handle, set the surface type
    to decoder render target, create the NV12 surfaces at the stream's size
    (one back buffer fewer than [getDecodeSurfacesCount]), create the
    decoder for that identity and [getDecodeSurfacesCount] surfaces.  The
    queries made on the way are not recorded and nothing is said of
    them. *)
Theorem ActivateDXVA2_success host fuel f r f' :
  ActivateDXVA2 host fuel f = Returned (r, f') ->
  FAILED r = false ->
  exists devGUID preDecode,
    devGUID ∈ (GetDecoderDeviceGuids (decoderService (renderer host))).2
    /\ IsFormatSupported devGUID = true
    /\ m_preDecode f = Some preDecode
    /\ m_decoder f' = Some (CH264DXVA2Decoder devGUID)
    /\ servicesKept f' = true
    /\ platformLog f'
       = platformLog f
         ++ [CallOpenDeviceHandle;
             CallSetSurfaceType DXVA2_SurfaceType_DecoderRenderTarget;
             CallCreateSurface (GetWidth preDecode) (GetHeight preDecode)
               (getDecodeSurfacesCount host - 1) FOURCC_NV12;
             CallCreateVideoDecoder devGUID (getDecodeSurfacesCount host)].
Proof.
  intros Hrun Hok.
  destruct (ActivateDXVA2_returned _ _ _ _ _ Hrun)
    as [[Hfail _] | (_ & g & p & c & Hin & Hsupported & Hpre & ->)];
    [congruence |].
  exists g, p. repeat split; try assumption.
  simpl. rewrite <- !app_assoc. reflexivity.
Qed.

Lemma ActivateDXVA2_success_witness :
  exists devGUID preDecode,
    devGUID ∈ [DXVA2_ModeH264_E]
    /\ IsFormatSupported devGUID = true
    /\ Some level51Stream = Some preDecode
    /\ m_decoder (modernActive (hostWith twoConfigRenderer)
                    (logCall CallOpenDeviceHandle
                       (connectedInput level51Stream))
                    level51Stream DXVA2_ModeH264_E configB)
       = Some (CH264DXVA2Decoder devGUID)
    /\ true = true
    /\ platformLog (modernActive (hostWith twoConfigRenderer)
                      (logCall CallOpenDeviceHandle
                         (connectedInput level51Stream))
                      level51Stream DXVA2_ModeH264_E configB)
       = [] ++ [CallOpenDeviceHandle; CallSetSurfaceType 0;
                CallCreateSurface (GetWidth preDecode) (GetHeight preDecode)
                  15 FOURCC_NV12;
                CallCreateVideoDecoder devGUID 16].
Proof.
  apply (ActivateDXVA2_success (hostWith twoConfigRenderer) 1
           (connectedInput level51Stream) S_OK); reflexivity.
Defined.

(** Whenever [CompleteConnect] on the output pin returns, it returns what
    the base class answers and a decoder is installed: the software decoder,
    a modern hardware decoder for a supported identity, or the legacy
    decoder that was already there and whose [Init] succeeded. *)
Theorem CompleteConnect_output_installs_backend host fuel f r f' :
  CompleteConnect host fuel PINDIR_OUTPUT f = Returned (r, f') ->
  r = CTransformFilter_CompleteConnect host PINDIR_OUTPUT
  /\ exists d,
      m_decoder f' = Some d
      /\ (d = CH264SWDecoder
          \/ (exists devGUID,
                 d = CH264DXVA2Decoder devGUID
                 /\ IsFormatSupported devGUID = true)
          \/ (m_decoder f = Some d /\ Backend_Init host d = true)).
Proof.
  assert (forall f1,
             match ActivateDXVA2 host fuel f1 with
             | Returned (r1, f2) =>
                 if negb (SUCCEEDED r1)
                 then Returned (CTransformFilter_CompleteConnect host
                                  PINDIR_OUTPUT,
                                set_decoder (Some CH264SWDecoder) f2)
                 else Returned (CTransformFilter_CompleteConnect host
                                  PINDIR_OUTPUT, f2)
             | Faulted why => Faulted why
             | Unfinished => Unfinished
             end = Returned (r, f') ->
             r = CTransformFilter_CompleteConnect host PINDIR_OUTPUT
             /\ exists d,
                 m_decoder f' = Some d
                 /\ (d = CH264SWDecoder
                     \/ (exists devGUID,
                            d = CH264DXVA2Decoder devGUID
                            /\ IsFormatSupported devGUID = true)
                     \/ (m_decoder f = Some d /\ Backend_Init host d = true)))
    as Hmodern.
  { intros f1 Hrun.
    destruct (ActivateDXVA2 host fuel f1) as [[r1 f2] | |] eqn:Hactivate;
      try discriminate Hrun.
    rewrite SUCCEEDED_FAILED, negb_involutive in Hrun.
    destruct (FAILED r1) eqn:Hr1; injection Hrun as <- <-;
      (split; [reflexivity |]).
    - exists CH264SWDecoder. split; [reflexivity | left; reflexivity].
    - destruct (ActivateDXVA2_returned _ _ _ _ _ Hactivate)
        as [[Hfail _] | (_ & g & p & c & _ & Hsupported & _ & ->)];
        [congruence |].
      exists (CH264DXVA2Decoder g). split; [reflexivity |].
      right. left. exists g. split; [reflexivity | exact Hsupported]. }
  unfold CompleteConnect.
  destruct (m_decoder f) as [d |] eqn:Hdecoder.
  - destruct (Backend_Init host d) eqn:Hinit; cbn [negb].
    + rewrite Hdecoder. intros Hrun. injection Hrun as <- <-.
      split; [reflexivity |]. exists d. split; [exact Hdecoder |].
      right. right. split; [reflexivity | exact Hinit].
    + cbn [m_decoder set_decoder]. apply Hmodern.
  - rewrite Hdecoder. apply Hmodern.
Qed.

Lemma CompleteConnect_output_installs_backend_witness :
  S_OK = S_OK
  /\ exists d,
      m_decoder (modernActive (hostWith twoConfigRenderer)
                   (logCall CallOpenDeviceHandle
                      (connectedInput level51Stream))
                   level51Stream DXVA2_ModeH264_E configB) = Some d
      /\ (d = CH264SWDecoder
          \/ (exists devGUID,
                 d = CH264DXVA2Decoder devGUID
                 /\ IsFormatSupported devGUID = true)
          \/ (m_decoder (connectedInput level51Stream) = Some d
              /\ Backend_Init (hostWith twoConfigRenderer) d = true)).
Proof.
  apply (CompleteConnect_output_installs_backend (hostWith twoConfigRenderer)
           1 (connectedInput level51Stream)).
  reflexivity.
Defined.

(** The first enumerated identity that is a supported format and whose
    negotiation succeeds ends the enumeration: what follows it in the list
    is never tried, also when configuring the renderer or creating the
    surfaces or the decoder for it fails. *)
Theorem ActivateDXVA2_first_negotiated_decides host fuel f before devGUID
    rest rc selectedConfig selectedFormat :
  Forall (unusable host f) before ->
  IsFormatSupported devGUID = true ->
  ConfirmDXVA2UncompFormat host f devGUID (uninitialised host)
  = Returned (rc, (selectedConfig, selectedFormat)) ->
  FAILED rc = false ->
  tryCandidates host fuel (before ++ devGUID :: rest) f
  = match configureEVRForDXVA2 host fuel f with
    | Returned (r, f1) =>
        if FAILED r then Returned (r, f1)
        else CreateDXVA2Decoder host (keepServices selectedConfig f1)
               devGUID selectedFormat
    | Faulted why => Faulted why
    | Unfinished => Unfinished
    end.
Proof.
  intros Hbefore Hsupported Hconfirm Hrc.
  induction Hbefore as [| g before Hbad _ IH]; cbn [tryCandidates app].
  - rewrite Hsupported, Hconfirm, Hrc. reflexivity.
  - destruct (IsFormatSupported g) eqn:Hg; cbn [negb]; [| exact IH].
    destruct (Hbad Hg) as (r & [c d] & -> & ->). exact IH.
Qed.

(** A renderer that offers two usable identities but cannot create
    surfaces. *)
Definition noSurfaceRenderer : Renderer :=
  {| GetConnected := true;
     QueryInterface_IMFGetService := S_OK;
     GetService_DeviceManager := S_OK;
     OpenDeviceHandle := S_OK;
     GetVideoService_DecoderService := S_OK;
     decoderService :=
       {| GetDecoderDeviceGuids :=
            (S_OK, [GUID_other 5; DXVA2_ModeH264_E; DXVA2_ModeH264_F]);
          GetDecoderRenderTargets := fun _ => (S_OK, [FOURCC_NV12]);
          GetDecoderConfigurations := fun _ _ => (S_OK, [configA; configB]);
          CreateVideoDecoder := fun _ _ _ _ => S_OK |};
     GetService_VideoMemoryConfiguration := S_OK;
     GetAvailableSurfaceTypeByIndex := fun _ => (S_OK, 0);
     SetSurfaceType := fun _ => S_OK;
     GetVideoService_AccelerationService := S_OK;
     CreateSurface := fun _ _ _ _ => E_FAIL |}.

Lemma ActivateDXVA2_first_negotiated_decides_witness :
  tryCandidates (hostWith noSurfaceRenderer) 1
    ([GUID_other 5] ++ DXVA2_ModeH264_E :: [DXVA2_ModeH264_F])
    (connectedInput level51Stream)
  = Returned (E_FAIL,
              logCall (CallCreateSurface 1920 1088 15 FOURCC_NV12)
                (keepServices configB
                   (logCall (CallSetSurfaceType 0)
                      (connectedInput level51Stream)))).
Proof.
  refine (ActivateDXVA2_first_negotiated_decides (hostWith noSurfaceRenderer)
            1 (connectedInput level51Stream) [GUID_other 5] DXVA2_ModeH264_E
            [DXVA2_ModeH264_F] S_OK configB
            (descFor level51Stream FOURCC_NV12) _ eq_refl eq_refl eq_refl).
  repeat constructor. intros Hsupported. discriminate Hsupported.
Defined.

(** *** Legacy activation *)

(** When [ActivateDXVA1] returns a success, the status is S_OK, both
    pointers were non-null and a pre-decode context exists and is kept.
    The decoder then installed is either the one that was active already,
    whose [GetDecoderID] answered the identity asked for, the filter being
    left as it was, or a [CH264DXVA1Decoder] constructed with the identity
    and the surface count asked for. *)
Theorem ActivateDXVA1_success host f accel decoderID surfaceCount r f' :
  ActivateDXVA1 host f accel decoderID surfaceCount = Returned (r, f') ->
  FAILED r = false ->
  exists handle id d,
    r = S_OK
    /\ accel = Some handle /\ decoderID = Some id
    /\ is_Some (m_preDecode f)
    /\ m_preDecode f' = m_preDecode f
    /\ m_decoder f' = Some d
    /\ ((f' = f /\ m_decoder f = Some d /\ GetDecoderID host d = id)
        \/ d = CH264DXVA1Decoder id surfaceCount).
Proof.
  unfold ActivateDXVA1. intros Hrun Hok.
  destruct (m_preDecode f) as [preDecode |] eqn:Hpre.
  2: { injection Hrun as <- _. discriminate Hok. }
  destruct accel as [handle |], decoderID as [id |];
    try (injection Hrun as <- _; discriminate Hok).
  exists handle, id.
  assert (Hchecked :
            match checkHWCompatibilityForH264 (ids host) (hw host)
                    (GetWidth preDecode) (GetHeight preDecode)
                    (GetVideoLevel preDecode)
                    (GetRefFrameCount preDecode) with
            | Some campatible =>
                if DXVA_UNSUPPORTED_LEVEL =? campatible
                then Returned (E_FAIL, set_decoder None f)
                else Returned
                       (S_OK,
                        set_decoder
                          (Some (CH264DXVA1Decoder id surfaceCount))
                          (set_decoder None f))
            | None => Faulted DivisionByZero
            end = Returned (r, f') ->
            r = S_OK /\ m_preDecode f' = m_preDecode f
            /\ m_decoder f' = Some (CH264DXVA1Decoder id surfaceCount)).
  { destruct (checkHWCompatibilityForH264 _ _ _ _ _ _); [| discriminate].
    destruct (DXVA_UNSUPPORTED_LEVEL =? _); intros Hchecked.
    - injection Hchecked as <- _. discriminate Hok.
    - injection Hchecked as <- <-. repeat split. }
  destruct (m_decoder f) as [d |] eqn:Hdecoder.
  - destruct (bool_decide (GetDecoderID host d = id)) eqn:Hsame.
    + injection Hrun as <- <-. exists d.
      apply bool_decide_eq_true in Hsame. rewrite Hpre.
      repeat split; [eexists; reflexivity | exact Hdecoder |].
      left. repeat split; assumption.
    + destruct (Hchecked Hrun) as (-> & Hkept & Hnew). rewrite Hpre in Hkept.
      eexists. repeat split; [eexists; reflexivity | exact Hkept
                              | exact Hnew |].
      right. reflexivity.
  - destruct (Hchecked Hrun) as (-> & Hkept & Hnew). rewrite Hpre in Hkept.
    eexists. repeat split; [eexists; reflexivity | exact Hkept
                            | exact Hnew |].
    right. reflexivity.
Qed.

Lemma ActivateDXVA1_success_witness :
  exists handle id d,
    S_OK = S_OK
    /\ Some 1%N = Some handle /\ Some DXVA2_ModeH264_E = Some id
    /\ is_Some (m_preDecode (connectedInput level51Stream))
    /\ m_preDecode
         (set_decoder (Some (CH264DXVA1Decoder DXVA2_ModeH264_E 16))
            (set_decoder None (connectedInput level51Stream)))
       = m_preDecode (connectedInput level51Stream)
    /\ m_decoder
         (set_decoder (Some (CH264DXVA1Decoder DXVA2_ModeH264_E 16))
            (set_decoder None (connectedInput level51Stream))) = Some d
    /\ ((set_decoder (Some (CH264DXVA1Decoder DXVA2_ModeH264_E 16))
           (set_decoder None (connectedInput level51Stream))
         = connectedInput level51Stream
         /\ m_decoder (connectedInput level51Stream) = Some d
         /\ GetDecoderID (hostWith quietRenderer) d = id)
        \/ d = CH264DXVA1Decoder id 16).
Proof.
  apply (ActivateDXVA1_success (hostWith quietRenderer)
           (connectedInput level51Stream) (Some 1%N) (Some DXVA2_ModeH264_E)
           16 S_OK); reflexivity.
Defined.

(** A stream whose picture area is zero as an [int] (width or height still
    0, say) makes [ActivateDXVA1] divide by zero, unless the level is
    negative or the decoder asked for is already the active one. *)
Theorem ActivateDXVA1_zero_area_faults host f preDecode handle id
    surfaceCount :
  m_preDecode f = Some preDecode ->
  (forall d, m_decoder f = Some d -> GetDecoderID host d <> id) ->
  0 <= GetVideoLevel preDecode ->
  to_int (GetWidth preDecode * GetHeight preDecode) = 0 ->
  ActivateDXVA1 host f (Some handle) (Some id) surfaceCount
  = Faulted DivisionByZero.
Proof.
  intros Hpre Hother Hlevel Harea. unfold ActivateDXVA1. rewrite Hpre.
  assert (match m_decoder f with
          | Some d => bool_decide (GetDecoderID host d = id)
          | None => false
          end = false) as ->.
  { destruct (m_decoder f) as [d |]; [| reflexivity].
    apply bool_decide_eq_false. apply Hother. reflexivity. }
  unfold checkHWCompatibilityForH264, checkHWLocals, maxRefFramesDPB41.
  destruct (Z.geb_spec (GetVideoLevel preDecode) 0) as [_ | Hneg]; [| lia].
  rewrite Harea. reflexivity.
Qed.

Lemma ActivateDXVA1_zero_area_faults_witness :
  ActivateDXVA1 (hostWith quietRenderer)
    (connectedInput {| GetWidth := 0; GetHeight := 0; GetVideoLevel := 41;
                       GetRefFrameCount := 4 |})
    (Some 1%N) (Some DXVA2_ModeH264_E) 16
  = Faulted DivisionByZero.
Proof.
  apply ActivateDXVA1_zero_area_faults with
    (preDecode := {| GetWidth := 0; GetHeight := 0; GetVideoLevel := 41;
                     GetRefFrameCount := 4 |}).
  - reflexivity.
  - intros d Hd. discriminate Hd.
  - simpl. lia.
  - reflexivity.
Defined.

End NegotiatorFacts.

(** ** The output pin's side of legacy activation *)

Module LegacyPin.

Import Advisor Negotiator.

Record DDPIXELFORMAT : Type := {
  dwFourCC : Z;
  (** the other fields of the structure, taken together *)
  ddpfRest : N
}.

Record AMVAUncompDataInfo : Type := {
  dwUncompWidth : Z;
  dwUncompHeight : Z;
  ddUncompPixelFormat : DDPIXELFORMAT
}.

Record AMVAUncompBufferInfo : Type := {
  dwMinNumSurfaces : Z;
  dwMaxNumSurfaces : Z;
  bufferPixelFormat : DDPIXELFORMAT
}.

(** The answers of the renderer's [IAMVideoAccelerator].
    [GetUncompFormatsSupported] is asked twice.  Without an array it
    answers a status and the number of formats.  With an array and the
    number of elements it has, it answers a status, the number it leaves in
    [formatCount], and the formats it has written from the start of the
    array. *)
Record IAMVideoAccelerator : Type := {
  accelHandle : N;
  GetUncompFormatsSupported_count : GUID -> HRESULT * Z;
  GetUncompFormatsSupported : GUID -> Z -> HRESULT * Z * list DDPIXELFORMAT;
  GetCompBufferInfo : GUID -> AMVAUncompDataInfo -> HRESULT
}.

(** The connected pin as the output pin sees it: whether there is one, and
    what its [QueryInterface] for the accelerator answers. *)
Record LegacyRenderer : Type := {
  connectedPin : bool;
  QueryInterface_IAMVideoAccelerator : HRESULT * option IAMVideoAccelerator
}.

Record CH264DecoderOutputPin : Type := {
  m_DXVA1SurfCount : Z;
  m_DXVA1DecoderID : GUID;
  m_uncompPixelFormat : DDPIXELFORMAT
}.

Record DXVA_ConnectMode : Type := {
  guidMode : GUID;
  wRestrictedMode : Z
}.

Definition DXVA_RESTRICTED_MODE_H264_E : Z := 0x68.

(** The filter with its [m_pixelFormat], and its output pin. *)
Record Legacy : Type := {
  filter : CH264DecoderFilter;
  m_pixelFormat : DDPIXELFORMAT;
  pin : CH264DecoderOutputPin
}.

(** The loop of [ConfirmDXVA1UncompFormat], from index [i] with [n]
    iterations to go: the first format whose FourCC is NV12 is copied to
    [*pixelFormat].  [formats] holds the elements of the array that have a
    value; reading any other element has no result ([None]). *)
Fixpoint firstNV12 (formats : list DDPIXELFORMAT) (i n : nat)
    (pixelFormat : DDPIXELFORMAT) : option (HRESULT * DDPIXELFORMAT) :=
  match n with
  | O => Some (E_FAIL, pixelFormat)
  | S n =>
      match formats !! i with
      | None => None
      | Some format =>
          if negb (dwFourCC format =? FOURCC_NV12)
          then firstNV12 formats (S i) n pixelFormat
          else Some (S_OK, format)
      end
  end.

(** [accel] and [pixelFormat] are asserted non-null and are so at the only
    call.  [formatCount] is a DWORD, so the test [formatCount < 0] never
    holds. *)
Definition ConfirmDXVA1UncompFormat (accel : IAMVideoAccelerator)
    (decoderID : GUID) (pixelFormat : DDPIXELFORMAT)
  : option (HRESULT * DDPIXELFORMAT) :=
  let '(r, formatCount) := GetUncompFormatsSupported_count accel decoderID in
  if FAILED r then Some (r, pixelFormat)
  else
    let '(r, formatCount', written) :=
      GetUncompFormatsSupported accel decoderID formatCount in
    let formats := take (Z.to_nat formatCount) written in
    if FAILED r then Some (r, pixelFormat)
    else firstNV12 formats 0 (Z.to_nat formatCount') pixelFormat.

Section Pin.

Variable host : Host.
Variable legacy : LegacyRenderer.

(** [profileID] and [uncompBufInfo] are taken to point to objects. *)
Definition GetUncompSurfacesInfo (p : CH264DecoderOutputPin)
    (profileID : GUID) (uncompBufInfo : AMVAUncompBufferInfo)
  : option (HRESULT * CH264DecoderOutputPin * AMVAUncompBufferInfo) :=
  if IsFormatSupported profileID then
    if negb (connectedPin legacy) then Some (E_UNEXPECTED, p, uncompBufInfo)
    else
      let '(r, accel) := QueryInterface_IAMVideoAccelerator legacy in
      match accel with
      | Some accel =>
          if SUCCEEDED r then
            let surfCount := getDecodeSurfacesCount host in
            match ConfirmDXVA1UncompFormat accel profileID
                    (bufferPixelFormat uncompBufInfo) with
            | None => None
            | Some (r, format) =>
                let uncompBufInfo :=
                  {| dwMinNumSurfaces := surfCount;
                     dwMaxNumSurfaces := surfCount;
                     bufferPixelFormat := format |} in
                if SUCCEEDED r then
                  Some (r,
                        {| m_DXVA1SurfCount := m_DXVA1SurfCount p;
                           m_DXVA1DecoderID := profileID;
                           m_uncompPixelFormat := format |},
                        uncompBufInfo)
                else Some (r, p, uncompBufInfo)
            end
          else Some (r, p, uncompBufInfo)
      | None => Some (r, p, uncompBufInfo)
      end
  else Some (E_INVALIDARG, p, uncompBufInfo).

Definition SetUncompSurfacesInfo (p : CH264DecoderOutputPin)
    (actualUncompSurfacesAllocated : Z) : HRESULT * CH264DecoderOutputPin :=
  (S_OK,
   {| m_DXVA1SurfCount := actualUncompSurfacesAllocated;
      m_DXVA1DecoderID := m_DXVA1DecoderID p;
      m_uncompPixelFormat := m_uncompPixelFormat p |}).

(** [profileID] is a pointer ([None] is null); the result carries the
    status, the state and what [*miscData] points to afterwards ([None]:
    not written).  The count recorded by [SetUncompSurfacesInfo] reaches
    [ActivateDXVA1] as an [int]. *)
Definition GetCreateVideoAcceleratorData (s : Legacy)
    (profileID : option GUID)
  : Call (HRESULT * Legacy * option DXVA_ConnectMode) :=
  if negb (connectedPin legacy) then Returned (E_UNEXPECTED, s, None)
  else
    let '(r, accel) := QueryInterface_IAMVideoAccelerator legacy in
    if FAILED r then Returned (r, s, None)
    else
      match accel with
      | None => Faulted NullDereference
      | Some accel =>
          let uncompDataInfo :=
            {| dwUncompWidth := 720; dwUncompHeight := 480;
               ddUncompPixelFormat := m_uncompPixelFormat (pin s) |} in
          let r := GetCompBufferInfo accel (m_DXVA1DecoderID (pin s))
                     uncompDataInfo in
          if FAILED r then Returned (r, s, None)
          else
            match ActivateDXVA1 host (filter s) (Some (accelHandle accel))
                    profileID (to_int (m_DXVA1SurfCount (pin s))) with
            | Returned (r, f) =>
                if SUCCEEDED r then
                  Returned
                    (r,
                     {| filter := f;
                        m_pixelFormat := m_uncompPixelFormat (pin s);
                        pin := pin s |},
                     Some {| guidMode := m_DXVA1DecoderID (pin s);
                             wRestrictedMode := DXVA_RESTRICTED_MODE_H264_E |})
                else
                  Returned
                    (r,
                     {| filter := f; m_pixelFormat := m_pixelFormat s;
                        pin := pin s |},
                     None)
            | Faulted why => Faulted why
            | Unfinished => Unfinished
            end
      end.

End Pin.

(** *** The first NV12 format *)

Definition notNV12 (format : DDPIXELFORMAT) : Prop :=
  dwFourCC format <> FOURCC_NV12.

Lemma firstNV12_found before format after n pixelFormat :
  Forall notNV12 before -> dwFourCC format = FOURCC_NV12 ->
  (length before < n)%nat ->
  forall done,
    firstNV12 (done ++ before ++ format :: after) (length done) n pixelFormat
    = Some (S_OK, format).
Proof.
  intros Hbefore Hformat. revert n.
  induction Hbefore as [| x before Hx _ IH]; intros n Hn done;
    (destruct n as [| n]; [cbn [length] in Hn; lia |]);
    cbn [firstNV12 app].
  - rewrite list_lookup_middle by reflexivity.
    rewrite Hformat, Z.eqb_refl. reflexivity.
  - rewrite list_lookup_middle by reflexivity.
    destruct (Z.eqb_spec (dwFourCC x) FOURCC_NV12) as [Heq | _];
      [contradiction |].
    cbn [negb length] in *.
    specialize (IH n ltac:(lia) (done ++ [x])).
    rewrite <- app_assoc, length_app, Nat.add_1_r in IH. exact IH.
Qed.

Lemma firstNV12_none visited n pixelFormat :
  Forall notNV12 visited -> length visited = n ->
  forall done rest,
    firstNV12 (done ++ visited ++ rest) (length done) n pixelFormat
    = Some (E_FAIL, pixelFormat).
Proof.
  intros Hvisited. revert n.
  induction Hvisited as [| x visited Hx _ IH]; intros n <- done rest;
    cbn [firstNV12 app length]; [reflexivity |].
  rewrite list_lookup_middle by reflexivity.
  destruct (Z.eqb_spec (dwFourCC x) FOURCC_NV12) as [Heq | _];
    [contradiction |].
  cbn [negb].
  specialize (IH _ eq_refl (done ++ [x]) rest).
  rewrite <- app_assoc, length_app, Nat.add_1_r in IH. exact IH.
Qed.

Lemma firstNV12_overrun formats n pixelFormat :
  Forall notNV12 formats ->
  forall i, (i <= length formats < i + n)%nat ->
    firstNV12 formats i n pixelFormat = None.
Proof.
  intros Hall. induction n as [| n IH]; intros i Hi; [lia |].
  cbn [firstNV12].
  destruct (formats !! i) as [format |] eqn:Hlookup; [| reflexivity].
  assert (Hnot : notNV12 format).
  { exact (Forall_lookup_1 _ _ _ _ Hall Hlookup). }
  apply lookup_lt_Some in Hlookup.
  destruct (Z.eqb_spec (dwFourCC format) FOURCC_NV12) as [Heq | _];
    [contradiction |].
  cbn [negb]. apply IH. lia.
Qed.

Lemma firstNV12_success formats i n pixelFormat r format :
  firstNV12 formats i n pixelFormat = Some (r, format) -> FAILED r = false ->
  r = S_OK /\ dwFourCC format = FOURCC_NV12 /\ format ∈ formats.
Proof.
  revert i. induction n as [| n IH]; cbn [firstNV12]; intros i Hrun Hok.
  - injection Hrun as <- _. discriminate Hok.
  - destruct (formats !! i) as [x |] eqn:Hlookup; [| discriminate Hrun].
    destruct (Z.eqb_spec (dwFourCC x) FOURCC_NV12) as [Heq | _];
      cbn [negb] in Hrun.
    + injection Hrun as <- <-. repeat split; [exact Heq |].
      eapply list_elem_of_lookup_2. exact Hlookup.
    + exact (IH _ Hrun Hok).
Qed.

(** When both queries of [ConfirmDXVA1UncompFormat] succeed, the array has
    [formatCount] elements of which the accelerator has written [written],
    and the second query leaves [formatCount'] behind.  If an NV12 format
    lies within both counts, the first such format is returned with S_OK.
    If none of the formats is NV12, the call returns E_FAIL with
    [*pixelFormat] as it was when [formatCount'] formats are in the array,
    and reads outside what the array holds when [formatCount'] is
    larger. *)
Theorem ConfirmDXVA1UncompFormat_first_nv12 accel decoderID pixelFormat
    r1 formatCount r2 formatCount' written :
  GetUncompFormatsSupported_count accel decoderID = (r1, formatCount) ->
  FAILED r1 = false ->
  GetUncompFormatsSupported accel decoderID formatCount
  = (r2, formatCount', written) ->
  FAILED r2 = false ->
  (forall before format after,
      written = before ++ format :: after ->
      Forall notNV12 before -> dwFourCC format = FOURCC_NV12 ->
      Z.of_nat (length before) < formatCount ->
      Z.of_nat (length before) < formatCount' ->
      ConfirmDXVA1UncompFormat accel decoderID pixelFormat
      = Some (S_OK, format))
  /\ (Forall notNV12 written ->
      (0 <= formatCount' <= formatCount
       /\ formatCount' <= Z.of_nat (length written) ->
       ConfirmDXVA1UncompFormat accel decoderID pixelFormat
       = Some (E_FAIL, pixelFormat))
      /\ (0 <= formatCount < formatCount'
          \/ Z.of_nat (length written) < formatCount' ->
          ConfirmDXVA1UncompFormat accel decoderID pixelFormat = None)).
Proof.
  intros Hcount Hr1 Hlist Hr2. unfold ConfirmDXVA1UncompFormat.
  rewrite Hcount, Hr1, Hlist, Hr2.
  split; [| intros Hall; split].
  - intros before format after -> Hbefore Hformat Hin Hin'.
    rewrite take_app_ge by lia.
    replace (Z.to_nat formatCount - length before)%nat
      with (S (Z.to_nat formatCount - S (length before))) by lia.
    cbn [take].
    assert (Hn : (length before < Z.to_nat formatCount')%nat) by lia.
    exact (firstNV12_found before format _ _ pixelFormat Hbefore Hformat
             Hn []).
  - intros [[Hlow Hhigh] Hwritten].
    rewrite <- (take_drop (Z.to_nat formatCount')
                  (take (Z.to_nat formatCount) written)).
    apply (firstNV12_none _ _ pixelFormat) with (done := []).
    + apply Forall_take, Forall_take. exact Hall.
    + rewrite !length_take. lia.
  - intros Hover. apply firstNV12_overrun.
    + apply Forall_take. exact Hall.
    + rewrite length_take. lia.
Qed.

Definition nv12Format : DDPIXELFORMAT :=
  {| dwFourCC := FOURCC_NV12; ddpfRest := 7 |}.
Definition yuy2Format : DDPIXELFORMAT :=
  {| dwFourCC := MAKEFOURCC 89 85 89 50; ddpfRest := 3 |}.

Definition someAccel : IAMVideoAccelerator :=
  {| accelHandle := 1;
     GetUncompFormatsSupported_count := fun _ => (S_OK, 3);
     GetUncompFormatsSupported :=
       fun _ n => (S_OK, n,
                   [yuy2Format; nv12Format;
                    {| dwFourCC := FOURCC_NV12; ddpfRest := 9 |}]);
     GetCompBufferInfo := fun _ _ => S_OK |}.

Definition legacyRenderer : LegacyRenderer :=
  {| connectedPin := true;
     QueryInterface_IAMVideoAccelerator := (S_OK, Some someAccel) |}.

Definition blankFormat : DDPIXELFORMAT := {| dwFourCC := 0; ddpfRest := 0 |}.

Definition freshPin : CH264DecoderOutputPin :=
  {| m_DXVA1SurfCount := 0; m_DXVA1DecoderID := GUID_NULL;
     m_uncompPixelFormat := blankFormat |}.

Lemma ConfirmDXVA1UncompFormat_first_nv12_witness :
  ConfirmDXVA1UncompFormat someAccel DXVA2_ModeH264_E blankFormat
  = Some (S_OK, nv12Format).
Proof.
  refine (proj1 (ConfirmDXVA1UncompFormat_first_nv12 someAccel
                   DXVA2_ModeH264_E blankFormat S_OK 3 S_OK 3 _
                   eq_refl eq_refl eq_refl eq_refl)
            [yuy2Format] nv12Format _ eq_refl _ eq_refl _ _).
  - repeat constructor. discriminate.
  - simpl. lia.
  - simpl. lia.
Defined.

(** *** What the pin records *)

Lemma ConfirmDXVA1UncompFormat_nv12 accel decoderID pixelFormat r format :
  ConfirmDXVA1UncompFormat accel decoderID pixelFormat = Some (r, format) ->
  FAILED r = false ->
  dwFourCC format = FOURCC_NV12.
Proof.
  unfold ConfirmDXVA1UncompFormat. intros Hconfirm Hok.
  destruct (GetUncompFormatsSupported_count accel decoderID)
    as [r1 formatCount].
  destruct (FAILED r1) eqn:Hr1; [injection Hconfirm as <- _; congruence |].
  destruct (GetUncompFormatsSupported accel decoderID formatCount)
    as [[r2 formatCount'] written].
  destruct (FAILED r2) eqn:Hr2; [injection Hconfirm as <- _; congruence |].
  destruct (firstNV12_success _ _ _ _ _ _ Hconfirm Hok) as (_ & Hfourcc & _).
  exact Hfourcc.
Qed.

(** How a successful [GetUncompSurfacesInfo] came about. *)
Lemma GetUncompSurfacesInfo_inv host legacy p profileID info
    r p' info' rq accel :
  QueryInterface_IAMVideoAccelerator legacy = (rq, Some accel) ->
  GetUncompSurfacesInfo host legacy p profileID info = Some (r, p', info') ->
  FAILED r = false ->
  exists format,
    IsFormatSupported profileID = true
    /\ ConfirmDXVA1UncompFormat accel profileID (bufferPixelFormat info)
       = Some (r, format)
    /\ p' = {| m_DXVA1SurfCount := m_DXVA1SurfCount p;
               m_DXVA1DecoderID := profileID;
               m_uncompPixelFormat := format |}
    /\ info' = {| dwMinNumSurfaces := getDecodeSurfacesCount host;
                  dwMaxNumSurfaces := getDecodeSurfacesCount host;
                  bufferPixelFormat := format |}.
Proof.
  intros Haccel Hrun Hok. unfold GetUncompSurfacesInfo in Hrun.
  destruct (IsFormatSupported profileID);
    [| injection Hrun as <- _ _; discriminate Hok].
  destruct (connectedPin legacy); cbn [negb] in Hrun;
    [| injection Hrun as <- _ _; discriminate Hok].
  rewrite Haccel in Hrun. rewrite !SUCCEEDED_FAILED in Hrun.
  destruct (FAILED rq) eqn:Hrq; cbn [negb] in Hrun;
    [injection Hrun as <- _ _; congruence |].
  destruct (ConfirmDXVA1UncompFormat _ _ _) as [[r3 format] |];
    [| discriminate Hrun].
  rewrite SUCCEEDED_FAILED in Hrun.
  destruct (FAILED r3) eqn:Hr3; cbn [negb] in Hrun;
    injection Hrun as <- <- <-; [congruence |].
  exists format. repeat split.
Qed.

(** With an accelerator at hand, a successful [GetUncompSurfacesInfo] is
    for a supported profile, announces [getDecodeSurfacesCount] as both the
    least and the most surfaces, reports an NV12 pixel format and has
    recorded that format and the profile in the pin. *)
Theorem GetUncompSurfacesInfo_success host legacy p profileID info
    r p' info' rq accel :
  QueryInterface_IAMVideoAccelerator legacy = (rq, Some accel) ->
  GetUncompSurfacesInfo host legacy p profileID info = Some (r, p', info') ->
  FAILED r = false ->
  IsFormatSupported profileID = true
  /\ dwMinNumSurfaces info' = getDecodeSurfacesCount host
  /\ dwMaxNumSurfaces info' = getDecodeSurfacesCount host
  /\ dwFourCC (bufferPixelFormat info') = FOURCC_NV12
  /\ m_uncompPixelFormat p' = bufferPixelFormat info'
  /\ m_DXVA1DecoderID p' = profileID
  /\ m_DXVA1SurfCount p' = m_DXVA1SurfCount p.
Proof.
  intros Haccel Hrun Hok.
  destruct (GetUncompSurfacesInfo_inv _ _ _ _ _ _ _ _ _ _ Haccel Hrun Hok)
    as (format & Hsupported & Hconfirm & -> & ->).
  pose proof (ConfirmDXVA1UncompFormat_nv12 _ _ _ _ _ Hconfirm Hok)
    as Hfourcc.
  cbn [dwMinNumSurfaces dwMaxNumSurfaces bufferPixelFormat
         m_uncompPixelFormat m_DXVA1DecoderID m_DXVA1SurfCount].
  repeat split; assumption.
Qed.

Lemma GetUncompSurfacesInfo_success_witness :
  IsFormatSupported DXVA2_ModeH264_E = true
  /\ 16 = getDecodeSurfacesCount (hostWith quietRenderer)
  /\ 16 = getDecodeSurfacesCount (hostWith quietRenderer)
  /\ dwFourCC nv12Format = FOURCC_NV12
  /\ nv12Format = nv12Format
  /\ DXVA2_ModeH264_E = DXVA2_ModeH264_E
  /\ 0 = m_DXVA1SurfCount freshPin.
Proof.
  apply (GetUncompSurfacesInfo_success (hostWith quietRenderer) legacyRenderer
           freshPin DXVA2_ModeH264_E
           {| dwMinNumSurfaces := 0; dwMaxNumSurfaces := 0;
              bufferPixelFormat := blankFormat |}
           S_OK
           {| m_DXVA1SurfCount := 0; m_DXVA1DecoderID := DXVA2_ModeH264_E;
              m_uncompPixelFormat := nv12Format |}
           {| dwMinNumSurfaces := 16; dwMaxNumSurfaces := 16;
              bufferPixelFormat := nv12Format |}
           S_OK someAccel); reflexivity.
Defined.

Lemma ActivateDXVA1_installed host f accel id surfaceCount r f' :
  ActivateDXVA1 host f accel (Some id) surfaceCount = Returned (r, f') ->
  FAILED r = false ->
  exists d,
    m_decoder f' = Some d
    /\ ((m_decoder f = Some d /\ GetDecoderID host d = id)
        \/ d = CH264DXVA1Decoder id surfaceCount).
Proof.
  unfold ActivateDXVA1. intros Hrun Hok.
  destruct (m_preDecode f) as [preDecode |];
    [| injection Hrun as <- _; discriminate Hok].
  destruct accel; [| injection Hrun as <- _; discriminate Hok].
  assert (Hchecked :
            match checkHWCompatibilityForH264 (ids host) (hw host)
                    (GetWidth preDecode) (GetHeight preDecode)
                    (GetVideoLevel preDecode)
                    (GetRefFrameCount preDecode) with
            | Some campatible =>
                if DXVA_UNSUPPORTED_LEVEL =? campatible
                then Returned (E_FAIL, set_decoder None f)
                else Returned
                       (S_OK,
                        set_decoder
                          (Some (CH264DXVA1Decoder id surfaceCount))
                          (set_decoder None f))
            | None => Faulted DivisionByZero
            end = Returned (r, f') ->
            m_decoder f' = Some (CH264DXVA1Decoder id surfaceCount)).
  { destruct (checkHWCompatibilityForH264 _ _ _ _ _ _); [| discriminate].
    destruct (DXVA_UNSUPPORTED_LEVEL =? _); intros Hchecked.
    - injection Hchecked as <- _. discriminate Hok.
    - injection Hchecked as _ <-. reflexivity. }
  destruct (m_decoder f) as [d |] eqn:Hdecoder.
  - destruct (bool_decide (GetDecoderID host d = id)) eqn:Hsame.
    + injection Hrun as _ <-. exists d.
      apply bool_decide_eq_true in Hsame.
      split; [exact Hdecoder | left; split; [reflexivity | exact Hsame]].
    + eexists. split; [exact (Hchecked Hrun) | right; reflexivity].
  - eexists. split; [exact (Hchecked Hrun) | right; reflexivity].
Qed.

Lemma ActivateDXVA1_fresh host f accel id surfaceCount r f' :
  m_decoder f = None ->
  ActivateDXVA1 host f accel (Some id) surfaceCount = Returned (r, f') ->
  FAILED r = false ->
  m_decoder f' = Some (CH264DXVA1Decoder id surfaceCount).
Proof.
  unfold ActivateDXVA1. intros Hnone Hrun Hok. rewrite Hnone in Hrun.
  destruct (m_preDecode f); [| injection Hrun as <- _; discriminate Hok].
  destruct accel; [| injection Hrun as <- _; discriminate Hok].
  destruct (checkHWCompatibilityForH264 _ _ _ _ _ _);
    [| discriminate Hrun].
  destruct (DXVA_UNSUPPORTED_LEVEL =? _).
  - injection Hrun as <- _. discriminate Hok.
  - injection Hrun as _ <-. reflexivity.
Qed.

(** The renderer's three calls in a row.  After a successful
    [GetUncompSurfacesInfo] for a profile, [SetUncompSurfacesInfo] with a
    count and a successful [GetCreateVideoAcceleratorData] for the same
    profile: the connect mode handed to the renderer names that profile and
    restricted mode 0x68, the filter's pixel format is the NV12 format that
    was reported, and the active decoder is either the one that was active
    before, whose [GetDecoderID] answered the profile, or a legacy decoder
    constructed with the profile and the count that was set (always the
    latter if none was active before). *)
Theorem legacy_handshake host legacy p profileID info r1 p1 info1 rq accel
    n f pixelFormat r2 s2 misc :
  QueryInterface_IAMVideoAccelerator legacy = (rq, Some accel) ->
  GetUncompSurfacesInfo host legacy p profileID info
  = Some (r1, p1, info1) ->
  FAILED r1 = false ->
  GetCreateVideoAcceleratorData host legacy
    {| filter := f; m_pixelFormat := pixelFormat;
       pin := (SetUncompSurfacesInfo p1 n).2 |} (Some profileID)
  = Returned (r2, s2, misc) ->
  FAILED r2 = false ->
  misc = Some {| guidMode := profileID;
                 wRestrictedMode := DXVA_RESTRICTED_MODE_H264_E |}
  /\ m_pixelFormat s2 = bufferPixelFormat info1
  /\ dwFourCC (m_pixelFormat s2) = FOURCC_NV12
  /\ (exists d,
         m_decoder (filter s2) = Some d
         /\ ((m_decoder f = Some d /\ GetDecoderID host d = profileID)
             \/ d = CH264DXVA1Decoder profileID (to_int n)))
  /\ (m_decoder f = None ->
      m_decoder (filter s2)
      = Some (CH264DXVA1Decoder profileID (to_int n))).
Proof.
  intros Haccel Hinfo Hr1 Hcreate Hr2.
  destruct (GetUncompSurfacesInfo_inv _ _ _ _ _ _ _ _ _ _ Haccel Hinfo Hr1)
    as (format & _ & Hconfirm & -> & ->).
  pose proof (ConfirmDXVA1UncompFormat_nv12 _ _ _ _ _ Hconfirm Hr1)
    as Hfourcc.
  unfold GetCreateVideoAcceleratorData in Hcreate.
  destruct (connectedPin legacy); cbn [negb] in Hcreate;
    [| injection Hcreate as <- _ _; discriminate Hr2].
  rewrite Haccel in Hcreate.
  destruct (FAILED rq) eqn:Hrq; [injection Hcreate as <- _ _; congruence |].
  cbn [pin filter SetUncompSurfacesInfo snd m_DXVA1DecoderID
         m_uncompPixelFormat m_DXVA1SurfCount] in Hcreate.
  destruct (FAILED (GetCompBufferInfo _ _ _)) eqn:Hcomp;
    [injection Hcreate as <- _ _; congruence |].
  destruct (ActivateDXVA1 host f _ _ _) as [[r3 f3] | |] eqn:Hactivate;
    try discriminate Hcreate.
  rewrite SUCCEEDED_FAILED in Hcreate.
  destruct (FAILED r3) eqn:Hr3; cbn [negb] in Hcreate;
    injection Hcreate as <- <- <-; [congruence |].
  cbn [m_pixelFormat filter bufferPixelFormat].
  repeat split; try assumption.
  - exact (ActivateDXVA1_installed _ _ _ _ _ _ _ Hactivate Hr3).
  - intros Hnone.
    exact (ActivateDXVA1_fresh _ _ _ _ _ _ _ Hnone Hactivate Hr3).
Qed.

Definition handshakePin : CH264DecoderOutputPin :=
  {| m_DXVA1SurfCount := 16; m_DXVA1DecoderID := DXVA2_ModeH264_E;
     m_uncompPixelFormat := nv12Format |}.

Definition handshakeEnd : Legacy :=
  {| filter :=
       set_decoder (Some (CH264DXVA1Decoder DXVA2_ModeH264_E 16))
         (set_decoder None (connectedInput level51Stream));
     m_pixelFormat := nv12Format;
     pin := handshakePin |}.

Lemma legacy_handshake_witness :
  Some {| guidMode := DXVA2_ModeH264_E;
          wRestrictedMode := DXVA_RESTRICTED_MODE_H264_E |}
  = Some {| guidMode := DXVA2_ModeH264_E;
            wRestrictedMode := DXVA_RESTRICTED_MODE_H264_E |}
  /\ m_pixelFormat handshakeEnd = nv12Format
  /\ dwFourCC (m_pixelFormat handshakeEnd) = FOURCC_NV12
  /\ (exists d,
         m_decoder (filter handshakeEnd) = Some d
         /\ ((m_decoder (connectedInput level51Stream) = Some d
              /\ GetDecoderID (hostWith quietRenderer) d = DXVA2_ModeH264_E)
             \/ d = CH264DXVA1Decoder DXVA2_ModeH264_E (to_int 16)))
  /\ (m_decoder (connectedInput level51Stream) = None ->
      m_decoder (filter handshakeEnd)
      = Some (CH264DXVA1Decoder DXVA2_ModeH264_E (to_int 16))).
Proof.
  apply (legacy_handshake (hostWith quietRenderer) legacyRenderer freshPin
           DXVA2_ModeH264_E
           {| dwMinNumSurfaces := 0; dwMaxNumSurfaces := 0;
              bufferPixelFormat := blankFormat |}
           S_OK
           {| m_DXVA1SurfCount := 0; m_DXVA1DecoderID := DXVA2_ModeH264_E;
              m_uncompPixelFormat := nv12Format |}
           {| dwMinNumSurfaces := 16; dwMaxNumSurfaces := 16;
              bufferPixelFormat := nv12Format |}
           S_OK someAccel 16 (connectedInput level51Stream) blankFormat
           S_OK handshakeEnd); reflexivity.
Defined.

End LegacyPin.

(** * Media types

    [CheckInputType], [CheckTransform], [GetMediaType], [SetMediaType] and
    [DecideBufferSize]. *)

Module MediaTypes.

Import Negotiator.

Definition VFW_S_NO_MORE_ITEMS : HRESULT := 0x00040103.

(** The identifiers this part compares, by their first field. *)
Definition MEDIATYPE_Video : GUID := GUID_other 0x73646976.
Definition MEDIASUBTYPE_I420 : GUID := GUID_other 0x30323449.
Definition MEDIASUBTYPE_IYUV : GUID := GUID_other 0x56555949.
Definition FORMAT_VideoInfo : GUID := GUID_other 0x05589f80.
Definition FORMAT_VideoInfo2 : GUID := GUID_other 0xf72a76A0.

Definition AMINTERLACE_IsInterlaced : Z := 0x0001.
Definition AMINTERLACE_DisplayModeBobOrWeave : Z := 0x0080.

Record RECT : Type := {
  left : Z;
  top : Z;
  right : Z;
  bottom : Z
}.

Record BITMAPINFOHEADER : Type := {
  biSize : Z;
  biWidth : Z;
  biHeight : Z;
  biPlanes : Z;
  biBitCount : Z;
  biCompression : Z;
  biSizeImage : Z;
  biXPelsPerMeter : Z;
  biYPelsPerMeter : Z;
  biClrUsed : Z;
  biClrImportant : Z
}.

Record VIDEOINFOHEADER : Type := {
  rcSource : RECT;
  rcTarget : RECT;
  dwBitRate : Z;
  dwBitErrorRate : Z;
  AvgTimePerFrame : Z;
  bmiHeader : BITMAPINFOHEADER
}.

(** The fields VIDEOINFOHEADER2 shares with VIDEOINFOHEADER carry a 2. *)
Record VIDEOINFOHEADER2 : Type := {
  rcSource2 : RECT;
  rcTarget2 : RECT;
  dwBitRate2 : Z;
  dwBitErrorRate2 : Z;
  AvgTimePerFrame2 : Z;
  dwInterlaceFlags : Z;
  dwCopyProtectFlags : Z;
  dwPictAspectRatioX : Z;
  dwPictAspectRatioY : Z;
  dwControlFlags : Z;
  dwReserved2 : Z;
  bmiHeader2 : BITMAPINFOHEADER
}.

(** A format block: one of the two headers [SetMediaType] writes, or a
    block of another kind, given by what a [VIDEOINFOHEADER*] reads from
    it. *)
Inductive FormatBlock : Type :=
| FormatVideoInfo (h : VIDEOINFOHEADER)
| FormatVideoInfo2 (h : VIDEOINFOHEADER2)
| FormatOther (h : VIDEOINFOHEADER).

Record CMediaType : Type := {
  majortype : GUID;
  subtype : GUID;
  formattype : GUID;
  (** [None] is a null [Format()] *)
  pbFormat : option FormatBlock
}.

(** [reinterpret_cast<VIDEOINFOHEADER*>(mediaType->Format())], for the
    five fields [SetMediaType] reads: the two structures start with the
    same five fields. *)
Definition inputFormat_rcSource (b : FormatBlock) : RECT :=
  match b with
  | FormatVideoInfo h | FormatOther h => rcSource h
  | FormatVideoInfo2 h => rcSource2 h
  end.
Definition inputFormat_rcTarget (b : FormatBlock) : RECT :=
  match b with
  | FormatVideoInfo h | FormatOther h => rcTarget h
  | FormatVideoInfo2 h => rcTarget2 h
  end.
Definition inputFormat_dwBitRate (b : FormatBlock) : Z :=
  match b with
  | FormatVideoInfo h | FormatOther h => dwBitRate h
  | FormatVideoInfo2 h => dwBitRate2 h
  end.
Definition inputFormat_dwBitErrorRate (b : FormatBlock) : Z :=
  match b with
  | FormatVideoInfo h | FormatOther h => dwBitErrorRate h
  | FormatVideoInfo2 h => dwBitErrorRate2 h
  end.
Definition inputFormat_AvgTimePerFrame (b : FormatBlock) : Z :=
  match b with
  | FormatVideoInfo h | FormatOther h => AvgTimePerFrame h
  | FormatVideoInfo2 h => AvgTimePerFrame2 h
  end.

(** The bitmap header of a type [SetMediaType] has built. *)
Definition headerOf (t : CMediaType) : option BITMAPINFOHEADER :=
  match pbFormat t with
  | Some (FormatVideoInfo h) => Some (bmiHeader h)
  | Some (FormatVideoInfo2 h) => Some (bmiHeader2 h)
  | _ => None
  end.

(** The helpers of dshow_util.h and the codec library, by their answers:
    [None] stands for [false]. *)
Record Utils : Type := {
  ExtractDimensionFromMediaType : CMediaType -> option (Z * Z * Z * Z);
  ExtractBitmapInfoFromMediaType : CMediaType -> option BITMAPINFOHEADER;
  IsSubTypeSupported : CMediaType -> bool
}.

(** The part of the filter these functions read and write. *)
Record Types : Type := {
  m_mediaTypes : list CMediaType;
  m_averageTimePerFrame : Z
}.

Record ALLOCATOR_PROPERTIES : Type := {
  cBuffers : Z;
  cbBuffer : Z;
  cbAlign : Z;
  cbPrefix : Z
}.

(** What [DecideBufferSize] is surrounded by: the output pin's current
    media type, the backends' [NeedCustomizeAllocator] and the allocator's
    [SetProperties], which answers a status and [actual]. *)
Record Allocation : Type := {
  CurrentMediaType : CMediaType;
  Backend_NeedCustomizeAllocator : Backend -> bool;
  SetProperties : ALLOCATOR_PROPERTIES -> HRESULT * ALLOCATOR_PROPERTIES
}.

Definition zeroRect : RECT :=
  {| left := 0; top := 0; right := 0; bottom := 0 |}.

Definition zeroBitmap : BITMAPINFOHEADER :=
  {| biSize := 0; biWidth := 0; biHeight := 0; biPlanes := 0; biBitCount := 0;
     biCompression := 0; biSizeImage := 0; biXPelsPerMeter := 0;
     biYPelsPerMeter := 0; biClrUsed := 0; biClrImportant := 0 |}.

(** [biWidth * biHeight * biBitCount >> 3]: a product of 32-bit signed
    values, shifted, stored in a DWORD. *)
Definition sizeImage (biWidth biHeight biBitCount : Z) : Z :=
  Z.shiftr (to_int (to_int (biWidth * biHeight) * biBitCount)) 3 mod 2 ^ 32.

Definition withDimension (b : BITMAPINFOHEADER) (width height : Z)
  : BITMAPINFOHEADER :=
  {| biSize := biSize b; biWidth := width; biHeight := height;
     biPlanes := biPlanes b; biBitCount := 12;
     biCompression := biCompression b;
     biSizeImage := sizeImage width height 12;
     biXPelsPerMeter := biXPelsPerMeter b;
     biYPelsPerMeter := biYPelsPerMeter b;
     biClrUsed := biClrUsed b; biClrImportant := biClrImportant b |}.

Definition withPels (b : BITMAPINFOHEADER) (x y : Z) : BITMAPINFOHEADER :=
  {| biSize := biSize b; biWidth := biWidth b; biHeight := biHeight b;
     biPlanes := biPlanes b; biBitCount := biBitCount b;
     biCompression := biCompression b; biSizeImage := biSizeImage b;
     biXPelsPerMeter := x; biYPelsPerMeter := y;
     biClrUsed := biClrUsed b; biClrImportant := biClrImportant b |}.

Definition withPlanes (b : BITMAPINFOHEADER) (planes fourCC : Z)
  : BITMAPINFOHEADER :=
  {| biSize := biSize b; biWidth := biWidth b; biHeight := biHeight b;
     biPlanes := planes; biBitCount := biBitCount b;
     biCompression := fourCC; biSizeImage := biSizeImage b;
     biXPelsPerMeter := biXPelsPerMeter b;
     biYPelsPerMeter := biYPelsPerMeter b;
     biClrUsed := biClrUsed b; biClrImportant := biClrImportant b |}.

(** [header.bmiHeader.biPlanes = ...; header.bmiHeader.biCompression = ...] *)
Definition setPlanes (h : VIDEOINFOHEADER) (planes fourCC : Z)
  : VIDEOINFOHEADER :=
  {| rcSource := rcSource h; rcTarget := rcTarget h;
     dwBitRate := dwBitRate h; dwBitErrorRate := dwBitErrorRate h;
     AvgTimePerFrame := AvgTimePerFrame h;
     bmiHeader := withPlanes (bmiHeader h) planes fourCC |}.

Definition setPlanes2 (h : VIDEOINFOHEADER2) (planes fourCC : Z)
  : VIDEOINFOHEADER2 :=
  {| rcSource2 := rcSource2 h; rcTarget2 := rcTarget2 h;
     dwBitRate2 := dwBitRate2 h; dwBitErrorRate2 := dwBitErrorRate2 h;
     AvgTimePerFrame2 := AvgTimePerFrame2 h;
     dwInterlaceFlags := dwInterlaceFlags h;
     dwCopyProtectFlags := dwCopyProtectFlags h;
     dwPictAspectRatioX := dwPictAspectRatioX h;
     dwPictAspectRatioY := dwPictAspectRatioY h;
     dwControlFlags := dwControlFlags h; dwReserved2 := dwReserved2 h;
     bmiHeader2 := withPlanes (bmiHeader2 h) planes fourCC |}.

(** The loop over [supportedFormats]: two types are pushed for each entry,
    and the two headers keep what an iteration wrote for the next one. *)
Fixpoint offerLoop (entries : list (GUID * Z * Z)) (header : VIDEOINFOHEADER)
    (header2 : VIDEOINFOHEADER2) (types : list CMediaType)
  : list CMediaType :=
  match entries with
  | [] => types
  | (SubType, PlaneCount, FourCC) :: rest =>
      let header := setPlanes header PlaneCount FourCC in
      let myType :=
        {| majortype := MEDIATYPE_Video; subtype := SubType;
           formattype := FORMAT_VideoInfo;
           pbFormat := Some (FormatVideoInfo header) |} in
      let types := types ++ [myType] in
      let header2 := setPlanes2 header2 PlaneCount FourCC in
      let myType2 :=
        {| majortype := majortype myType; subtype := subtype myType;
           formattype := FORMAT_VideoInfo2;
           pbFormat := Some (FormatVideoInfo2 header2) |} in
      offerLoop rest header header2 (types ++ [myType2])
  end.

Section Filter.

Variable host : Host.
Variable u : Utils.

(** [inputType] is a pointer: [None] is null. *)
Definition CheckInputType (inputType : option CMediaType) : HRESULT :=
  match inputType with
  | None => E_POINTER
  | Some inputType =>
      if negb (bool_decide (MEDIATYPE_Video = majortype inputType))
      then VFW_E_TYPE_NOT_ACCEPTED
      else if IsSubTypeSupported u inputType then S_OK
      else VFW_E_TYPE_NOT_ACCEPTED
  end.

Definition CheckTransform (inputType outputType : option CMediaType)
  : HRESULT :=
  let r := CheckInputType inputType in
  if FAILED r then r
  else
    match inputType, outputType with
    | _, None => E_POINTER
    | None, Some _ => E_POINTER
    | Some inputType, Some outputType =>
        if negb (bool_decide (MEDIATYPE_Video = majortype outputType))
        then VFW_E_TYPE_NOT_ACCEPTED
        else if bool_decide (MEDIASUBTYPE_YV12 = subtype inputType)
                || bool_decide (MEDIASUBTYPE_I420 = subtype inputType)
                || bool_decide (MEDIASUBTYPE_IYUV = subtype inputType)
        then
          if negb (bool_decide (MEDIASUBTYPE_YV12 = subtype outputType))
             && negb (bool_decide (MEDIASUBTYPE_I420 = subtype outputType))
             && negb (bool_decide (MEDIASUBTYPE_IYUV = subtype outputType))
             && negb (bool_decide (MEDIASUBTYPE_YUY2 = subtype outputType))
          then VFW_E_TYPE_NOT_ACCEPTED
          else S_OK
        else if bool_decide (MEDIASUBTYPE_YUY2 = subtype inputType)
        then
          if negb (bool_decide (MEDIASUBTYPE_YUY2 = subtype outputType))
          then VFW_E_TYPE_NOT_ACCEPTED
          else S_OK
        else S_OK
    end.

(** [mediaType] tells whether the pointer is non-null; the second
    component is what the call writes to [*mediaType], if anything. *)
Definition GetMediaType (position : Z) (mediaType : bool) (s : Types)
  : HRESULT * option CMediaType :=
  if position <? 0 then (E_INVALIDARG, None)
  else if negb mediaType then (E_POINTER, None)
  else if position >=? to_int (Z.of_nat (length (m_mediaTypes s)))
  then (VFW_S_NO_MORE_ITEMS, None)
  else (S_OK, m_mediaTypes s !! Z.to_nat position).

Definition SetMediaType (dir : PIN_DIRECTION) (mediaType : option CMediaType)
    (s : Types) : HRESULT * Types :=
  match dir with
  | PINDIR_INPUT =>
      match mediaType with
      | None => (E_POINTER, s)
      | Some mediaType =>
          let s := {| m_mediaTypes := [];
                      m_averageTimePerFrame := m_averageTimePerFrame s |} in
          match ExtractDimensionFromMediaType u mediaType with
          | None => (VFW_E_TYPE_NOT_ACCEPTED, s)
          | Some (width, height, aspectX, aspectY) =>
              match ExtractBitmapInfoFromMediaType u mediaType with
              | None => (VFW_E_TYPE_NOT_ACCEPTED, s)
              | Some bitmapHeader =>
                  let bitmapHeader :=
                    withDimension bitmapHeader width height in
                  match pbFormat mediaType with
                  | None => (E_UNEXPECTED, s)
                  | Some inputFormat =>
                      let copyRects :=
                        negb (right (inputFormat_rcSource inputFormat) =? 0)
                        && negb (bottom (inputFormat_rcSource inputFormat)
                                 =? 0) in
                      let ownRect :=
                        {| left := 0; top := 0; right := width;
                           bottom := height |} in
                      let source :=
                        if copyRects then inputFormat_rcSource inputFormat
                        else ownRect in
                      let target :=
                        if copyRects then inputFormat_rcTarget inputFormat
                        else ownRect in
                      let header :=
                        {| rcSource := source; rcTarget := target;
                           dwBitRate := inputFormat_dwBitRate inputFormat;
                           dwBitErrorRate :=
                             inputFormat_dwBitErrorRate inputFormat;
                           AvgTimePerFrame :=
                             inputFormat_AvgTimePerFrame inputFormat;
                           bmiHeader :=
                             withPels bitmapHeader
                               (to_int (width * aspectY))
                               (to_int (height * aspectX)) |} in
                      let header2 :=
                        {| rcSource2 := source; rcTarget2 := target;
                           dwBitRate2 := inputFormat_dwBitRate inputFormat;
                           dwBitErrorRate2 :=
                             inputFormat_dwBitErrorRate inputFormat;
                           AvgTimePerFrame2 :=
                             inputFormat_AvgTimePerFrame inputFormat;
                           dwInterlaceFlags :=
                             Z.lor AMINTERLACE_IsInterlaced
                               AMINTERLACE_DisplayModeBobOrWeave;
                           dwCopyProtectFlags := 0;
                           dwPictAspectRatioX := aspectX mod 2 ^ 32;
                           dwPictAspectRatioY := aspectY mod 2 ^ 32;
                           dwControlFlags := 0; dwReserved2 := 0;
                           bmiHeader2 := bitmapHeader |} in
                      (S_OK,
                       {| m_mediaTypes :=
                            offerLoop supportedFormats header header2 [];
                          m_averageTimePerFrame :=
                            inputFormat_AvgTimePerFrame inputFormat |})
                  end
              end
          end
      end
  | PINDIR_OUTPUT => (S_OK, s)
  end.

Definition NeedCustomizeAllocator (env : Allocation) (f : CH264DecoderFilter)
  : bool :=
  match m_decoder f with
  | Some d => Backend_NeedCustomizeAllocator env d
  | None => false
  end.

(** [prop] is a pointer ([None] is null); [allocator] is taken to be one.
    The second component of the result is the request handed to
    [SetProperties]. *)
Definition DecideBufferSize (env : Allocation) (f : CH264DecoderFilter)
    (prop : option ALLOCATOR_PROPERTIES)
  : Call (HRESULT * option ALLOCATOR_PROPERTIES) :=
  match ExtractBitmapInfoFromMediaType u (CurrentMediaType env) with
  | None => Returned (E_FAIL, None)
  | Some header =>
      match prop with
      | None => Returned (E_POINTER, None)
      | Some prop =>
          let align := if cbAlign prop <? 1 then 1 else cbAlign prop in
          match m_decoder f with
          | None => Faulted NullDereference
          | Some d =>
              let buffers :=
                if Backend_NeedCustomizeAllocator env d
                then getDecodeSurfacesCount host
                else if cBuffers prop <? 1 then 1 else cBuffers prop in
              let requested :=
                {| cBuffers := buffers;
                   cbBuffer := to_int (biSizeImage header);
                   cbAlign := align; cbPrefix := 0 |} in
              let '(r, actual) := SetProperties env requested in
              if FAILED r then Returned (r, Some requested)
              else
                Returned
                  (if (cBuffers requested >? cBuffers actual)
                      || (cbBuffer requested >? cbBuffer actual)
                   then E_FAIL else S_OK,
                   Some requested)
          end
      end
  end.

End Filter.

End MediaTypes.

(** ** What the media type functions guarantee *)

Module MediaFacts.

Import Negotiator MediaTypes.

(** The two types pushed for one entry of [supportedFormats]. *)
Definition offered (header : VIDEOINFOHEADER) (header2 : VIDEOINFOHEADER2)
    (entry : GUID * Z * Z) : list CMediaType :=
  [ {| majortype := MEDIATYPE_Video; subtype := entry.1.1;
       formattype := FORMAT_VideoInfo;
       pbFormat :=
         Some (FormatVideoInfo (setPlanes header entry.1.2 entry.2)) |};
    {| majortype := MEDIATYPE_Video; subtype := entry.1.1;
       formattype := FORMAT_VideoInfo2;
       pbFormat :=
         Some (FormatVideoInfo2 (setPlanes2 header2 entry.1.2 entry.2)) |} ].

Definition planar (g : GUID) : Prop :=
  g = MEDIASUBTYPE_YV12 \/ g = MEDIASUBTYPE_I420 \/ g = MEDIASUBTYPE_IYUV.

Lemma offerLoop_offered entries : forall header header2 types,
  offerLoop entries header header2 types
  = types ++ flat_map (offered header header2) entries.
Proof.
  induction entries as [| [[SubType PlaneCount] FourCC] rest IH]; intros;
    cbn [offerLoop flat_map].
  - rewrite app_nil_r. reflexivity.
  - rewrite IH, <- !app_assoc. cbn [app].
    rewrite (flat_map_ext _ (offered header header2));
      [reflexivity | intros [[a b] c]; reflexivity].
Qed.

Lemma offered_lookup header header2 entries : forall i entry,
  entries !! i = Some entry ->
  flat_map (offered header header2) entries !! (2 * i)%nat
  = offered header header2 entry !! 0%nat
  /\ flat_map (offered header header2) entries !! (2 * i + 1)%nat
     = offered header header2 entry !! 1%nat.
Proof.
  induction entries as [| e rest IH]; intros [| i] entry Hentry;
    try discriminate Hentry.
  - injection Hentry as ->. split; reflexivity.
  - replace (2 * S i)%nat with (S (S (2 * i))) by lia.
    exact (IH i entry Hentry).
Qed.

Lemma offered_length header header2 entries :
  length (flat_map (offered header header2) entries)
  = (2 * length entries)%nat.
Proof.
  rewrite (flat_map_constant_length (c := 2)); [lia | reflexivity].
Qed.

Lemma offered_elem header header2 entries t :
  t ∈ flat_map (offered header header2) entries ->
  exists entry, entry ∈ entries /\ t ∈ offered header header2 entry.
Proof.
  rewrite list_elem_of_In, in_flat_map. intros (entry & Hentry & Ht).
  exists entry. rewrite !list_elem_of_In. split; assumption.
Qed.

(** What a successful [SetMediaType] on the input pin has built. *)
Lemma SetMediaType_built u mediaType s r s' :
  SetMediaType u PINDIR_INPUT (Some mediaType) s = (r, s') ->
  FAILED r = false ->
  exists width height aspectX aspectY bitmapHeader inputFormat header header2,
    ExtractDimensionFromMediaType u mediaType
    = Some (width, height, aspectX, aspectY)
    /\ ExtractBitmapInfoFromMediaType u mediaType = Some bitmapHeader
    /\ pbFormat mediaType = Some inputFormat
    /\ r = S_OK
    /\ m_mediaTypes s' = flat_map (offered header header2) supportedFormats
    /\ m_averageTimePerFrame s' = inputFormat_AvgTimePerFrame inputFormat
    /\ bmiHeader header
       = withPels (withDimension bitmapHeader width height)
           (to_int (width * aspectY)) (to_int (height * aspectX))
    /\ bmiHeader2 header2 = withDimension bitmapHeader width height
    /\ rcSource2 header2 = rcSource header
    /\ rcTarget2 header2 = rcTarget header
    /\ AvgTimePerFrame2 header2 = AvgTimePerFrame header
    /\ AvgTimePerFrame header = inputFormat_AvgTimePerFrame inputFormat
    /\ (rcSource header, rcTarget header)
       = (if negb (right (inputFormat_rcSource inputFormat) =? 0)
             && negb (bottom (inputFormat_rcSource inputFormat) =? 0)
          then (inputFormat_rcSource inputFormat,
                inputFormat_rcTarget inputFormat)
          else ({| left := 0; top := 0; right := width; bottom := height |},
                {| left := 0; top := 0; right := width; bottom := height |}))
    /\ dwInterlaceFlags header2 = 0x81
    /\ dwPictAspectRatioX header2 = aspectX mod 2 ^ 32
    /\ dwPictAspectRatioY header2 = aspectY mod 2 ^ 32.
Proof.
  unfold SetMediaType. intros Hrun Hok.
  destruct (ExtractDimensionFromMediaType u mediaType)
    as [[[[width height] aspectX] aspectY] |];
    [| injection Hrun as <- _; discriminate Hok].
  destruct (ExtractBitmapInfoFromMediaType u mediaType) as [bitmapHeader |];
    [| injection Hrun as <- _; discriminate Hok].
  destruct (pbFormat mediaType) as [inputFormat |];
    [| injection Hrun as <- _; discriminate Hok].
  cbv zeta in Hrun. rewrite offerLoop_offered in Hrun.
  apply pair_equal_spec in Hrun as [<- <-].
  cbn [m_mediaTypes m_averageTimePerFrame app].
  eexists width, height, aspectX, aspectY, bitmapHeader, inputFormat, _, _.
  repeat split.
  cbn [rcSource rcTarget].
  destruct (negb _ && negb _); reflexivity.
Qed.

Lemma sizeImage_in_range width height :
  0 <= width * height * 12 <= INT_MAX ->
  sizeImage width height 12 = width * height * 3 / 2.
Proof.
  unfold INT_MAX, sizeImage. intros Hrange.
  rewrite (to_int_small (width * height))
    by (unfold is_int, INT_MIN, INT_MAX; lia).
  rewrite to_int_small by (unfold is_int, INT_MIN, INT_MAX; lia).
  rewrite Z.shiftr_div_pow2 by lia.
  replace (width * height * 12) with (width * height * 3 * 4) by lia.
  change (2 ^ 3) with (2 * 4).
  rewrite Z.div_mul_cancel_r by lia.
  apply Z.mod_small.
  pose proof (Z.div_pos (width * height * 3) 2).
  pose proof (Z.div_le_upper_bound (width * height * 3) 2 (2 ^ 31)).
  lia.
Qed.

Lemma E_FAIL_not_S_OK : E_FAIL <> S_OK.
Proof. discriminate. Qed.

Lemma E_POINTER_not_S_OK : E_POINTER <> S_OK.
Proof. discriminate. Qed.

Local Ltac refused :=
  exfalso;
  match goal with
  | H : VFW_E_TYPE_NOT_ACCEPTED = S_OK |- _ =>
      revert H; vm_compute; discriminate
  end.

Local Ltac orient :=
  unfold MEDIASUBTYPE_I420, MEDIASUBTYPE_IYUV in *;
  repeat match goal with
         | H : _ = subtype _ |- _ => symmetry in H
         | H : _ <> subtype _ |- _ => apply not_eq_sym in H
         end.

(** [CheckTransform] on two types, for an input [CheckInputType] accepts. *)
Lemma CheckTransform_checked u i o :
  CheckInputType u (Some i) = S_OK ->
  CheckTransform u (Some i) (Some o) = S_OK
  <-> majortype o = MEDIATYPE_Video
      /\ (planar (subtype i) ->
          planar (subtype o) \/ subtype o = MEDIASUBTYPE_YUY2)
      /\ (subtype i = MEDIASUBTYPE_YUY2 -> subtype o = MEDIASUBTYPE_YUY2).
Proof.
  unfold CheckTransform, planar. intros Hin. rewrite Hin.
  change (FAILED S_OK) with false. cbv iota. split.
  - intros Hr.
    repeat (case_bool_decide; cbn [negb orb andb] in Hr; try refused);
      orient; repeat split; try assumption; intuition congruence.
  - intros (Hmajor & Hplanar & Hyuy2). rewrite Hmajor.
    rewrite bool_decide_true by reflexivity. cbn [negb].
    repeat (case_bool_decide; cbn [negb orb andb]; try reflexivity);
      exfalso; orient; intuition congruence.
Qed.

(** *** Fixtures *)

Definition MEDIASUBTYPE_H264 : GUID := GUID_other 0x34363248.

Definition fullRect : RECT :=
  {| left := 0; top := 0; right := 1280; bottom := 720 |}.

Definition h264Format : VIDEOINFOHEADER2 :=
  {| rcSource2 := fullRect; rcTarget2 := fullRect; dwBitRate2 := 4000000;
     dwBitErrorRate2 := 0; AvgTimePerFrame2 := 400000;
     dwInterlaceFlags := 0; dwCopyProtectFlags := 0;
     dwPictAspectRatioX := 16; dwPictAspectRatioY := 9;
     dwControlFlags := 0; dwReserved2 := 0; bmiHeader2 := zeroBitmap |}.

Definition h264Type : CMediaType :=
  {| majortype := MEDIATYPE_Video; subtype := MEDIASUBTYPE_H264;
     formattype := FORMAT_VideoInfo2;
     pbFormat := Some (FormatVideoInfo2 h264Format) |}.

Definition plainUtils : Utils :=
  {| ExtractDimensionFromMediaType := fun _ => Some (1280, 720, 16, 9);
     ExtractBitmapInfoFromMediaType := fun _ => Some zeroBitmap;
     IsSubTypeSupported := fun _ => true |}.

Definition blindUtils : Utils :=
  {| ExtractDimensionFromMediaType := fun _ => None;
     ExtractBitmapInfoFromMediaType := fun _ => Some zeroBitmap;
     IsSubTypeSupported := fun _ => true |}.

Definition noTypes : Types :=
  {| m_mediaTypes := []; m_averageTimePerFrame := 1 |}.

Definition h264Types : Types :=
  (SetMediaType plainUtils PINDIR_INPUT (Some h264Type) noTypes).2.

(** *** The types on offer *)

(** A successful [SetMediaType] on the input pin leaves two types for
    every entry of [supportedFormats], in the order of the table: at
    position [2i] a FORMAT_VideoInfo type and at [2i+1] a FORMAT_VideoInfo2
    type, both of major type video, with the entry's subtype, plane count
    and FourCC. *)
Theorem SetMediaType_offers u mediaType s r s' :
  SetMediaType u PINDIR_INPUT (Some mediaType) s = (r, s') ->
  FAILED r = false ->
  length (m_mediaTypes s') = (2 * length supportedFormats)%nat
  /\ forall i SubType PlaneCount FourCC,
      supportedFormats !! i = Some (SubType, PlaneCount, FourCC) ->
      exists t t2 b b2,
        m_mediaTypes s' !! (2 * i)%nat = Some t
        /\ m_mediaTypes s' !! (2 * i + 1)%nat = Some t2
        /\ majortype t = MEDIATYPE_Video /\ majortype t2 = MEDIATYPE_Video
        /\ subtype t = SubType /\ subtype t2 = SubType
        /\ formattype t = FORMAT_VideoInfo
        /\ formattype t2 = FORMAT_VideoInfo2
        /\ headerOf t = Some b /\ headerOf t2 = Some b2
        /\ biPlanes b = PlaneCount /\ biPlanes b2 = PlaneCount
        /\ biCompression b = FourCC /\ biCompression b2 = FourCC.
Proof.
  intros Hrun Hok.
  destruct (SetMediaType_built _ _ _ _ _ Hrun Hok)
    as (width & height & aspectX & aspectY & bitmapHeader & inputFormat
        & header & header2 & _ & _ & _ & _ & Htypes & _).
  rewrite Htypes. split; [apply offered_length |].
  intros i SubType PlaneCount FourCC Hentry.
  destruct (offered_lookup header header2 _ _ _ Hentry) as [Heven Hodd].
  rewrite Heven, Hodd. cbn [offered lookup list_lookup fst snd].
  eexists _, _, _, _. repeat split.
Qed.

Lemma SetMediaType_offers_witness :
  length (m_mediaTypes h264Types) = (2 * length supportedFormats)%nat
  /\ forall i SubType PlaneCount FourCC,
      supportedFormats !! i = Some (SubType, PlaneCount, FourCC) ->
      exists t t2 b b2,
        m_mediaTypes h264Types !! (2 * i)%nat = Some t
        /\ m_mediaTypes h264Types !! (2 * i + 1)%nat = Some t2
        /\ majortype t = MEDIATYPE_Video /\ majortype t2 = MEDIATYPE_Video
        /\ subtype t = SubType /\ subtype t2 = SubType
        /\ formattype t = FORMAT_VideoInfo
        /\ formattype t2 = FORMAT_VideoInfo2
        /\ headerOf t = Some b /\ headerOf t2 = Some b2
        /\ biPlanes b = PlaneCount /\ biPlanes b2 = PlaneCount
        /\ biCompression b = FourCC /\ biCompression b2 = FourCC.
Proof.
  apply (SetMediaType_offers plainUtils h264Type noTypes S_OK h264Types);
    reflexivity.
Defined.

(** After a successful [SetMediaType] on the input pin, [GetMediaType]
    enumerates sixteen types: positions 0 to 15 give S_OK and the type of
    entry [position / 2] of [supportedFormats], FORMAT_VideoInfo at even
    and FORMAT_VideoInfo2 at odd positions; every later position gives
    VFW_S_NO_MORE_ITEMS and a negative one E_INVALIDARG, with nothing
    written. *)
Theorem GetMediaType_after_SetMediaType u mediaType s r s' position :
  SetMediaType u PINDIR_INPUT (Some mediaType) s = (r, s') ->
  FAILED r = false ->
  (position < 0 -> GetMediaType position true s' = (E_INVALIDARG, None))
  /\ (0 <= position < 16 ->
      exists t entry,
        GetMediaType position true s' = (S_OK, Some t)
        /\ supportedFormats !! Z.to_nat (position / 2) = Some entry
        /\ majortype t = MEDIATYPE_Video
        /\ subtype t = entry.1.1
        /\ formattype t = (if Z.even position then FORMAT_VideoInfo
                           else FORMAT_VideoInfo2))
  /\ (16 <= position ->
      GetMediaType position true s' = (VFW_S_NO_MORE_ITEMS, None)).
Proof.
  intros Hrun Hok.
  destruct (SetMediaType_built _ _ _ _ _ Hrun Hok)
    as (width & height & aspectX & aspectY & bitmapHeader & inputFormat
        & header & header2 & _ & _ & _ & _ & Htypes & _).
  unfold GetMediaType. rewrite Htypes, offered_length.
  change (to_int (Z.of_nat (2 * length supportedFormats))) with 16.
  split; [| split].
  - intros Hneg. destruct (Z.ltb_spec position 0); [reflexivity | lia].
  - intros Hrange.
    destruct (Z.ltb_spec position 0); [lia |].
    destruct (Z.geb_spec position 16); [lia |]. cbn [negb].
    pose proof (Z_div_mod_eq_full position 2) as Hsplit.
    rewrite Zmod_even in Hsplit.
    assert (Hi : (Z.to_nat (position / 2) < length supportedFormats)%nat).
    { change (length supportedFormats) with 8%nat.
      pose proof (Z.div_lt_upper_bound position 2 8).
      pose proof (Z.div_pos position 2). lia. }
    destruct (lookup_lt_is_Some_2 _ _ Hi) as [entry Hentry].
    destruct (offered_lookup header header2 _ _ _ Hentry) as [Heven Hodd].
    pose proof (Z.div_pos position 2) as Hpos.
    destruct (Z.even position).
    + replace (Z.to_nat position) with (2 * Z.to_nat (position / 2))%nat
        by lia.
      rewrite Heven. eexists _, entry. repeat split. exact Hentry.
    + replace (Z.to_nat position)
        with (2 * Z.to_nat (position / 2) + 1)%nat by lia.
      rewrite Hodd. eexists _, entry. repeat split. exact Hentry.
  - intros Hlate.
    destruct (Z.ltb_spec position 0); [lia |].
    destruct (Z.geb_spec position 16); [reflexivity | lia].
Qed.

Lemma GetMediaType_after_SetMediaType_witness :
  (5 < 0 -> GetMediaType 5 true h264Types = (E_INVALIDARG, None))
  /\ (0 <= 5 < 16 ->
      exists t entry,
        GetMediaType 5 true h264Types = (S_OK, Some t)
        /\ supportedFormats !! Z.to_nat (5 / 2) = Some entry
        /\ majortype t = MEDIATYPE_Video
        /\ subtype t = entry.1.1
        /\ formattype t = (if Z.even 5 then FORMAT_VideoInfo
                           else FORMAT_VideoInfo2))
  /\ (16 <= 5 ->
      GetMediaType 5 true h264Types = (VFW_S_NO_MORE_ITEMS, None)).
Proof.
  apply (GetMediaType_after_SetMediaType plainUtils h264Type noTypes S_OK
           h264Types 5); reflexivity.
Defined.

(** [SetMediaType] on the input pin clears the list before it looks at
    the type.  When it fails for a non-null type, the types offered before
    are gone: the list is empty, every position from 0 on answers
    VFW_S_NO_MORE_ITEMS, and the frame duration is the old one. *)
Theorem SetMediaType_failure_clears u mediaType s r s' :
  SetMediaType u PINDIR_INPUT (Some mediaType) s = (r, s') ->
  FAILED r = true ->
  m_mediaTypes s' = []
  /\ m_averageTimePerFrame s' = m_averageTimePerFrame s
  /\ (r = VFW_E_TYPE_NOT_ACCEPTED \/ r = E_UNEXPECTED)
  /\ forall position, 0 <= position ->
       GetMediaType position true s' = (VFW_S_NO_MORE_ITEMS, None).
Proof.
  unfold SetMediaType. intros Hrun Hfailed.
  assert (Hempty : forall t position, m_mediaTypes t = [] -> 0 <= position ->
            GetMediaType position true t = (VFW_S_NO_MORE_ITEMS, None)).
  { intros t position Ht Hposition. unfold GetMediaType. rewrite Ht.
    destruct (Z.ltb_spec position 0); [lia |].
    change (to_int (Z.of_nat (length []))) with 0.
    destruct (Z.geb_spec position 0); [reflexivity | lia]. }
  destruct (ExtractDimensionFromMediaType u mediaType)
    as [[[[width height] aspectX] aspectY] |].
  2: { injection Hrun as <- <-. repeat split; [left; reflexivity |].
       intros. apply Hempty; [reflexivity | assumption]. }
  destruct (ExtractBitmapInfoFromMediaType u mediaType) as [bitmapHeader |].
  2: { injection Hrun as <- <-. repeat split; [left; reflexivity |].
       intros. apply Hempty; [reflexivity | assumption]. }
  destruct (pbFormat mediaType) as [inputFormat |].
  2: { injection Hrun as <- <-. repeat split; [right; reflexivity |].
       intros. apply Hempty; [reflexivity | assumption]. }
  cbv zeta in Hrun. apply pair_equal_spec in Hrun as [<- _].
  discriminate Hfailed.
Qed.

Lemma SetMediaType_failure_clears_witness :
  m_mediaTypes (SetMediaType blindUtils PINDIR_INPUT (Some h264Type)
                  h264Types).2 = []
  /\ m_averageTimePerFrame
       (SetMediaType blindUtils PINDIR_INPUT (Some h264Type) h264Types).2
     = m_averageTimePerFrame h264Types
  /\ (VFW_E_TYPE_NOT_ACCEPTED = VFW_E_TYPE_NOT_ACCEPTED
      \/ VFW_E_TYPE_NOT_ACCEPTED = E_UNEXPECTED)
  /\ forall position, 0 <= position ->
       GetMediaType position true
         (SetMediaType blindUtils PINDIR_INPUT (Some h264Type) h264Types).2
       = (VFW_S_NO_MORE_ITEMS, None).
Proof.
  apply (SetMediaType_failure_clears blindUtils h264Type h264Types
           VFW_E_TYPE_NOT_ACCEPTED); reflexivity.
Defined.

(** *** What the offered types describe *)

(** Every type a successful [SetMediaType] offers describes a picture of
    the extracted width and height at 12 bits per pixel, and, when
    [12 * width * height] fits an [int] and is not negative, an image of
    [width * height * 3 / 2] bytes. *)
Theorem SetMediaType_image_size u mediaType s r s' width height
    aspectX aspectY t :
  SetMediaType u PINDIR_INPUT (Some mediaType) s = (r, s') ->
  FAILED r = false ->
  ExtractDimensionFromMediaType u mediaType
  = Some (width, height, aspectX, aspectY) ->
  t ∈ m_mediaTypes s' ->
  exists b,
    headerOf t = Some b
    /\ biWidth b = width /\ biHeight b = height /\ biBitCount b = 12
    /\ (0 <= width * height * 12 <= INT_MAX ->
        biSizeImage b = width * height * 3 / 2).
Proof.
  intros Hrun Hok Hdimension Ht.
  destruct (SetMediaType_built _ _ _ _ _ Hrun Hok)
    as (width' & height' & aspectX' & aspectY' & bitmapHeader & inputFormat
        & header & header2 & Hdimension' & _ & _ & _ & Htypes & _
        & Hheader & Hheader2 & _).
  rewrite Hdimension in Hdimension'. injection Hdimension' as <- <- <- <-.
  rewrite Htypes in Ht.
  destruct (offered_elem _ _ _ _ Ht)
    as ([[SubType PlaneCount] FourCC] & _ & Hin).
  unfold offered in Hin.
  apply elem_of_cons in Hin as [-> | Hin];
    [| apply elem_of_cons in Hin as [-> | Hin];
       [| apply elem_of_nil in Hin; destruct Hin]];
    cbn [headerOf pbFormat setPlanes setPlanes2 bmiHeader bmiHeader2];
    eexists; (split; [reflexivity |]);
    rewrite ?Hheader, ?Hheader2;
    cbn [withPlanes withPels withDimension biWidth biHeight biBitCount
           biSizeImage];
    repeat split; apply sizeImage_in_range.
Qed.

Lemma SetMediaType_image_size_witness :
  exists b,
    headerOf {| majortype := MEDIATYPE_Video; subtype := DXVA2_ModeH264_E;
                formattype := FORMAT_VideoInfo2;
                pbFormat :=
                  Some (FormatVideoInfo2
                          {| rcSource2 := fullRect; rcTarget2 := fullRect;
                             dwBitRate2 := 4000000; dwBitErrorRate2 := 0;
                             AvgTimePerFrame2 := 400000;
                             dwInterlaceFlags := 0x81;
                             dwCopyProtectFlags := 0;
                             dwPictAspectRatioX := 16;
                             dwPictAspectRatioY := 9;
                             dwControlFlags := 0; dwReserved2 := 0;
                             bmiHeader2 :=
                               withPlanes (withDimension zeroBitmap 1280 720)
                                 1 (MAKEFOURCC 100 120 118 97) |}) |}
    = Some b
    /\ biWidth b = 1280 /\ biHeight b = 720 /\ biBitCount b = 12
    /\ (0 <= 1280 * 720 * 12 <= INT_MAX ->
        biSizeImage b = 1280 * 720 * 3 / 2).
Proof.
  apply (SetMediaType_image_size plainUtils h264Type noTypes S_OK h264Types
           1280 720 16 9); try reflexivity.
  right. left.
Defined.

(** Every type a successful [SetMediaType] offers carries the input's frame
    duration, which is also what [m_averageTimePerFrame] becomes.  Its
    source and target rectangles are the input's when the input's source
    rectangle has a non-zero right and bottom, and the whole picture
    otherwise. *)
Theorem SetMediaType_carries_input u mediaType s r s' width height
    aspectX aspectY inputFormat t :
  SetMediaType u PINDIR_INPUT (Some mediaType) s = (r, s') ->
  FAILED r = false ->
  ExtractDimensionFromMediaType u mediaType
  = Some (width, height, aspectX, aspectY) ->
  pbFormat mediaType = Some inputFormat ->
  t ∈ m_mediaTypes s' ->
  m_averageTimePerFrame s' = inputFormat_AvgTimePerFrame inputFormat
  /\ exists b,
      pbFormat t = Some b
      /\ inputFormat_AvgTimePerFrame b
         = inputFormat_AvgTimePerFrame inputFormat
      /\ (right (inputFormat_rcSource inputFormat) <> 0 ->
          bottom (inputFormat_rcSource inputFormat) <> 0 ->
          inputFormat_rcSource b = inputFormat_rcSource inputFormat
          /\ inputFormat_rcTarget b = inputFormat_rcTarget inputFormat)
      /\ (right (inputFormat_rcSource inputFormat) = 0
          \/ bottom (inputFormat_rcSource inputFormat) = 0 ->
          inputFormat_rcSource b
          = {| left := 0; top := 0; right := width; bottom := height |}
          /\ inputFormat_rcTarget b
             = {| left := 0; top := 0; right := width; bottom := height |}).
Proof.
  intros Hrun Hok Hdimension Hformat Ht.
  destruct (SetMediaType_built _ _ _ _ _ Hrun Hok)
    as (width' & height' & aspectX' & aspectY' & bitmapHeader & inputFormat'
        & header & header2 & Hdimension' & _ & Hformat' & _ & Htypes & Havg
        & _ & _ & Hsource2 & Htarget2 & Havg2 & Havg1 & Hrects & _).
  rewrite Hdimension in Hdimension'. injection Hdimension' as <- <- <- <-.
  rewrite Hformat in Hformat'. injection Hformat' as <-.
  split; [exact Havg |].
  rewrite Htypes in Ht.
  destruct (offered_elem _ _ _ _ Ht)
    as ([[SubType PlaneCount] FourCC] & _ & Hin).
  unfold offered in Hin.
  assert (Hcopy : right (inputFormat_rcSource inputFormat) <> 0 ->
                  bottom (inputFormat_rcSource inputFormat) <> 0 ->
                  rcSource header = inputFormat_rcSource inputFormat
                  /\ rcTarget header = inputFormat_rcTarget inputFormat).
  { intros Hright Hbottom.
    destruct (Z.eqb_spec (right (inputFormat_rcSource inputFormat)) 0);
      [contradiction |].
    destruct (Z.eqb_spec (bottom (inputFormat_rcSource inputFormat)) 0);
      [contradiction |].
    cbn [negb andb] in Hrects. injection Hrects as -> ->. split; reflexivity. }
  assert (Hown : right (inputFormat_rcSource inputFormat) = 0
                 \/ bottom (inputFormat_rcSource inputFormat) = 0 ->
                 rcSource header
                 = {| left := 0; top := 0; right := width; bottom := height |}
                 /\ rcTarget header
                    = {| left := 0; top := 0; right := width;
                         bottom := height |}).
  { intros Hzero.
    destruct (Z.eqb_spec (right (inputFormat_rcSource inputFormat)) 0);
      destruct (Z.eqb_spec (bottom (inputFormat_rcSource inputFormat)) 0);
      cbn [negb andb] in Hrects; try (exfalso; lia);
      injection Hrects as -> ->; split; reflexivity. }
  apply elem_of_cons in Hin as [-> | Hin];
    [| apply elem_of_cons in Hin as [-> | Hin];
       [| apply elem_of_nil in Hin; destruct Hin]];
    cbn [pbFormat]; eexists; (split; [reflexivity |]);
    cbn [inputFormat_AvgTimePerFrame inputFormat_rcSource
           inputFormat_rcTarget setPlanes setPlanes2 AvgTimePerFrame
           AvgTimePerFrame2 rcSource rcTarget rcSource2 rcTarget2];
    rewrite ?Hsource2, ?Htarget2, ?Havg2, ?Havg1;
    repeat split; try apply Hcopy; try apply Hown; assumption.
Qed.

Lemma SetMediaType_carries_input_witness :
  m_averageTimePerFrame h264Types
  = inputFormat_AvgTimePerFrame (FormatVideoInfo2 h264Format)
  /\ exists b,
      pbFormat {| majortype := MEDIATYPE_Video; subtype := DXVA2_ModeH264_E;
                  formattype := FORMAT_VideoInfo;
                  pbFormat :=
                    Some (FormatVideoInfo
                            {| rcSource := fullRect; rcTarget := fullRect;
                               dwBitRate := 4000000; dwBitErrorRate := 0;
                               AvgTimePerFrame := 400000;
                               bmiHeader :=
                                 withPlanes
                                   (withPels
                                      (withDimension zeroBitmap 1280 720)
                                      (to_int (1280 * 9))
                                      (to_int (720 * 16)))
                                   1 (MAKEFOURCC 100 120 118 97) |}) |}
      = Some b
      /\ inputFormat_AvgTimePerFrame b
         = inputFormat_AvgTimePerFrame (FormatVideoInfo2 h264Format)
      /\ (right (inputFormat_rcSource (FormatVideoInfo2 h264Format)) <> 0 ->
          bottom (inputFormat_rcSource (FormatVideoInfo2 h264Format)) <> 0 ->
          inputFormat_rcSource b
          = inputFormat_rcSource (FormatVideoInfo2 h264Format)
          /\ inputFormat_rcTarget b
             = inputFormat_rcTarget (FormatVideoInfo2 h264Format))
      /\ (right (inputFormat_rcSource (FormatVideoInfo2 h264Format)) = 0
          \/ bottom (inputFormat_rcSource (FormatVideoInfo2 h264Format)) = 0
          ->
          inputFormat_rcSource b
          = {| left := 0; top := 0; right := 1280; bottom := 720 |}
          /\ inputFormat_rcTarget b
             = {| left := 0; top := 0; right := 1280; bottom := 720 |}).
Proof.
  apply (SetMediaType_carries_input plainUtils h264Type noTypes S_OK
           h264Types 1280 720 16 9); try reflexivity.
  left.
Defined.

(** *** Which transforms are accepted *)

(** [CheckTransform] answers S_OK exactly when both types are given, the
    input passes [CheckInputType], the output's major type is video, a
    YV12, I420 or IYUV input goes to one of these or to YUY2, and a YUY2
    input goes to YUY2. *)
Theorem CheckTransform_accepts u inputType outputType :
  CheckTransform u inputType outputType = S_OK
  <-> exists i o,
      inputType = Some i /\ outputType = Some o
      /\ CheckInputType u (Some i) = S_OK
      /\ majortype o = MEDIATYPE_Video
      /\ (planar (subtype i) ->
          planar (subtype o) \/ subtype o = MEDIASUBTYPE_YUY2)
      /\ (subtype i = MEDIASUBTYPE_YUY2 -> subtype o = MEDIASUBTYPE_YUY2).
Proof.
  split.
  - intros Hr.
    destruct (FAILED (CheckInputType u inputType)) eqn:Hin.
    { unfold CheckTransform in Hr. rewrite Hin in Hr. rewrite Hr in Hin.
      discriminate Hin. }
    destruct inputType as [i |]; [| discriminate Hin].
    destruct outputType as [o |].
    2: { unfold CheckTransform in Hr. rewrite Hin in Hr.
         destruct (E_POINTER_not_S_OK Hr). }
    assert (Hinput : CheckInputType u (Some i) = S_OK).
    { revert Hin. unfold CheckInputType.
      repeat case_match; try reflexivity; discriminate. }
    exists i, o. repeat split; try assumption;
      apply (CheckTransform_checked u i o Hinput); exact Hr.
  - intros (i & o & -> & -> & Hin & Hrest).
    apply (CheckTransform_checked u i o Hin). exact Hrest.
Qed.

(** Of the types [SetMediaType] offers for an input that passes
    [CheckInputType], [CheckTransform] accepts all when the input's subtype
    is none of YV12, I420, IYUV and YUY2; for a YV12, I420 or IYUV input it
    accepts only the YV12 and YUY2 ones, and for a YUY2 input only the YUY2
    ones. *)
Theorem offered_types_accepted u mediaType s r s' t :
  CheckInputType u (Some mediaType) = S_OK ->
  SetMediaType u PINDIR_INPUT (Some mediaType) s = (r, s') ->
  FAILED r = false ->
  t ∈ m_mediaTypes s' ->
  CheckTransform u (Some mediaType) (Some t) = S_OK
  <-> (planar (subtype mediaType) ->
       subtype t = MEDIASUBTYPE_YV12 \/ subtype t = MEDIASUBTYPE_YUY2)
      /\ (subtype mediaType = MEDIASUBTYPE_YUY2 ->
          subtype t = MEDIASUBTYPE_YUY2).
Proof.
  intros Hinput Hrun Hok Ht.
  destruct (SetMediaType_built _ _ _ _ _ Hrun Hok)
    as (width & height & aspectX & aspectY & bitmapHeader & inputFormat
        & header & header2 & _ & _ & _ & _ & Htypes & _).
  rewrite Htypes in Ht.
  destruct (offered_elem _ _ _ _ Ht) as (entry & Hentry & Hin).
  assert (Hmajor : majortype t = MEDIATYPE_Video /\ subtype t = entry.1.1).
  { unfold offered in Hin.
    apply elem_of_cons in Hin as [-> | Hin];
      [| apply elem_of_cons in Hin as [-> | Hin];
         [| apply elem_of_nil in Hin; destruct Hin]];
      split; reflexivity. }
  destruct Hmajor as [Hmajor Hsubtype].
  assert (Hnot : ~ (subtype t = MEDIASUBTYPE_I420
                    \/ subtype t = MEDIASUBTYPE_IYUV)).
  { rewrite Hsubtype. unfold supportedFormats in Hentry.
    repeat (apply elem_of_cons in Hentry as [-> | Hentry]);
      try (apply elem_of_nil in Hentry; destruct Hentry);
      cbn [fst]; intros [Heq | Heq]; discriminate Heq. }
  rewrite (CheckTransform_checked u mediaType t Hinput). unfold planar.
  tauto.
Qed.

Lemma offered_types_accepted_witness :
  CheckTransform plainUtils (Some h264Type)
    (Some {| majortype := MEDIATYPE_Video; subtype := DXVA2_ModeH264_E;
             formattype := FORMAT_VideoInfo2;
             pbFormat :=
               Some (FormatVideoInfo2
                       {| rcSource2 := fullRect; rcTarget2 := fullRect;
                          dwBitRate2 := 4000000; dwBitErrorRate2 := 0;
                          AvgTimePerFrame2 := 400000;
                          dwInterlaceFlags := 0x81;
                          dwCopyProtectFlags := 0;
                          dwPictAspectRatioX := 16;
                          dwPictAspectRatioY := 9;
                          dwControlFlags := 0; dwReserved2 := 0;
                          bmiHeader2 :=
                            withPlanes (withDimension zeroBitmap 1280 720)
                              1 (MAKEFOURCC 100 120 118 97) |}) |})
  = S_OK
  <-> (planar (subtype h264Type) ->
       DXVA2_ModeH264_E = MEDIASUBTYPE_YV12
       \/ DXVA2_ModeH264_E = MEDIASUBTYPE_YUY2)
      /\ (subtype h264Type = MEDIASUBTYPE_YUY2 ->
          DXVA2_ModeH264_E = MEDIASUBTYPE_YUY2).
Proof.
  apply (offered_types_accepted plainUtils h264Type noTypes S_OK h264Types);
    try reflexivity.
  right. left.
Defined.

(** *** The allocator request *)

(** Whatever [*prop] holds, the request [DecideBufferSize] hands to the
    allocator asks for an alignment of at least 1, no prefix and at least
    one buffer (the decode surface count when the backend has its own
    allocator).  The buffer size asked for is the output type's
    [biSizeImage], a DWORD, stored in a [long]: the image size itself up to
    INT_MAX, and the negative [biSizeImage - 2^32] above.  S_OK is answered
    only if [SetProperties] succeeded and granted at least as many buffers,
    each at least as large, as requested. *)
Theorem DecideBufferSize_request host u env f prop r requested :
  DecideBufferSize host u env f prop = Returned (r, Some requested) ->
  1 <= cbAlign requested
  /\ cbPrefix requested = 0
  /\ 1 <= cBuffers requested
  /\ (NeedCustomizeAllocator env f = true ->
      cBuffers requested = getDecodeSurfacesCount host)
  /\ (exists header,
         ExtractBitmapInfoFromMediaType u (CurrentMediaType env)
         = Some header
         /\ cbBuffer requested = to_int (biSizeImage header)
         /\ (0 <= biSizeImage header <= INT_MAX ->
             cbBuffer requested = biSizeImage header)
         /\ (INT_MAX < biSizeImage header < 2 ^ 32 ->
             cbBuffer requested = biSizeImage header - 2 ^ 32))
  /\ (r = S_OK ->
      FAILED (SetProperties env requested).1 = false
      /\ cBuffers requested <= cBuffers (SetProperties env requested).2
      /\ cbBuffer requested <= cbBuffer (SetProperties env requested).2).
Proof.
  unfold DecideBufferSize, NeedCustomizeAllocator. intros Hrun.
  destruct (ExtractBitmapInfoFromMediaType u (CurrentMediaType env))
    as [header |]; [| discriminate Hrun].
  destruct prop as [prop |]; [| discriminate Hrun].
  destruct (m_decoder f) as [d |]; [| discriminate Hrun].
  set (requested' := {| cBuffers := _; cbBuffer := _; cbAlign := _;
                        cbPrefix := _ |}) in Hrun.
  assert (Hrequested : requested = requested').
  { destruct (SetProperties env requested') as [r' actual].
    destruct (FAILED r'); injection Hrun as _ <-; reflexivity. }
  assert (Hcount : 1 <= getDecodeSurfacesCount host).
  { unfold getDecodeSurfacesCount. destruct (_ >=? _); lia. }
  subst requested.
  split; [| split; [| split; [| split; [| split]]]].
  - cbn [cbAlign requested']. destruct (Z.ltb_spec (cbAlign prop) 1); lia.
  - reflexivity.
  - cbn [cBuffers requested'].
    destruct (Backend_NeedCustomizeAllocator env d); [exact Hcount |].
    destruct (Z.ltb_spec (cBuffers prop) 1); lia.
  - intros Hneed. cbn [cBuffers requested']. rewrite Hneed. reflexivity.
  - exists header. cbn [cbBuffer requested'].
    split; [reflexivity |]. split; [reflexivity |]. split.
    + intros Hsmall. apply to_int_small.
      unfold is_int, INT_MIN, INT_MAX in *. lia.
    + unfold INT_MAX, to_int. intros Hlarge.
      replace (biSizeImage header + 2147483648)
        with (biSizeImage header - 2147483648 + 1 * 4294967296) by lia.
      rewrite Z.mod_add by lia. rewrite Z.mod_small by lia. lia.
  - intros ->. destruct (SetProperties env requested') as [r' actual].
    destruct (FAILED r') eqn:Hr';
      [injection Hrun as Hrun; rewrite Hrun in Hr'; discriminate Hr' |].
    cbn [fst snd]. injection Hrun as Hrun.
    destruct (_ || _) eqn:Hcompare in Hrun;
      [destruct (E_FAIL_not_S_OK Hrun) |].
    apply orb_false_elim in Hcompare as [Hcount' Hsize].
    rewrite Z.gtb_ltb, Z.ltb_ge in Hcount', Hsize.
    repeat split; [exact Hr' | exact Hcount' | exact Hsize].
Qed.

Definition grantingAllocation : Allocation :=
  {| CurrentMediaType := h264Type;
     Backend_NeedCustomizeAllocator :=
       fun d => match d with CH264DXVA2Decoder _ => true | _ => false end;
     SetProperties := fun requested => (S_OK, requested) |}.

Definition imageUtils : Utils :=
  {| ExtractDimensionFromMediaType := fun _ => Some (1280, 720, 16, 9);
     ExtractBitmapInfoFromMediaType :=
       fun _ => Some (withDimension zeroBitmap 1280 720);
     IsSubTypeSupported := fun _ => true |}.

Definition modernFilter : CH264DecoderFilter :=
  set_decoder (Some (CH264DXVA2Decoder DXVA2_ModeH264_E))
    (connectedInput level51Stream).

Definition grantedRequest : ALLOCATOR_PROPERTIES :=
  {| cBuffers := 16; cbBuffer := 1382400; cbAlign := 1; cbPrefix := 0 |}.

Lemma DecideBufferSize_request_witness :
  1 <= cbAlign grantedRequest
  /\ cbPrefix grantedRequest = 0
  /\ 1 <= cBuffers grantedRequest
  /\ (NeedCustomizeAllocator grantingAllocation modernFilter = true ->
      cBuffers grantedRequest = getDecodeSurfacesCount (hostWith quietRenderer))
  /\ (exists header,
         ExtractBitmapInfoFromMediaType imageUtils
           (CurrentMediaType grantingAllocation) = Some header
         /\ cbBuffer grantedRequest = to_int (biSizeImage header)
         /\ (0 <= biSizeImage header <= INT_MAX ->
             cbBuffer grantedRequest = biSizeImage header)
         /\ (INT_MAX < biSizeImage header < 2 ^ 32 ->
             cbBuffer grantedRequest = biSizeImage header - 2 ^ 32))
  /\ (S_OK = S_OK ->
      FAILED (SetProperties grantingAllocation grantedRequest).1 = false
      /\ cBuffers grantedRequest
         <= cBuffers (SetProperties grantingAllocation grantedRequest).2
      /\ cbBuffer grantedRequest
         <= cbBuffer (SetProperties grantingAllocation grantedRequest).2).
Proof.
  apply (DecideBufferSize_request (hostWith quietRenderer) imageUtils
           grantingAllocation modernFilter
           (Some {| cBuffers := 0; cbBuffer := 0; cbAlign := 0;
                    cbPrefix := 7 |})
           S_OK grantedRequest).
  reflexivity.
Defined.

(** [DecideBufferSize] returns exactly when the output type has no bitmap
    header (E_FAIL), [prop] is null (E_POINTER) or a decoder is active;
    with a header, a non-null [prop] and no decoder it dereferences the
    null [m_decoder], although the filter's own [NeedCustomizeAllocator]
    answers false in that state. *)
Theorem DecideBufferSize_returns host u env f prop :
  (exists result, DecideBufferSize host u env f prop = Returned result)
  <-> ExtractBitmapInfoFromMediaType u (CurrentMediaType env) = None
      \/ prop = None
      \/ is_Some (m_decoder f).
Proof.
  unfold DecideBufferSize.
  destruct (ExtractBitmapInfoFromMediaType u (CurrentMediaType env))
    as [header |]; [| split; eauto].
  destruct prop as [prop |]; [| split; eauto].
  destruct (m_decoder f) as [d |].
  - destruct (SetProperties env _) as [r actual].
    destruct (FAILED r); split; eauto.
  - split; [intros [result Hresult]; discriminate Hresult |].
    intros [Hheader | [Hprop | [d Hd]]]; discriminate.
Qed.

End MediaFacts.

(** ** What every run of [Receive] keeps *)

Module DispatchFacts.

Import Dispatch.

Definition count (p : Event -> bool) (trace : list Event) : nat :=
  length (List.filter p trace).

Definition isOutputDelivery (e : Event) : bool :=
  match e with EvDeliver OutputSample _ => true | _ => false end.

Definition isNotImplemented (e : Event) : bool :=
  match e with EvDisplayNextFrame r => r =? E_NOTIMPL | _ => false end.

(** A [Decode] that succeeded with a status other than S_FALSE. *)
Definition isProductiveDecode (e : Event) : bool :=
  match e with
  | EvDecode _ _ r _ => negb (r =? S_FALSE) && negb (FAILED r)
  | _ => false
  end.

Definition balanced (trace : list Event) : Prop :=
  count isOutputDelivery trace = count isNotImplemented trace
  /\ count isDisplayNextFrame trace = count isProductiveDecode trace.

(** The window of a [Decode] call lies in a payload of [dataLength] bytes
    and ends where the payload ends. *)
Definition windowIn (dataLength : Z) (e : Event) : Prop :=
  match e with
  | EvDecode dataStart dataRemaining _ _ =>
      0 <= dataStart /\ 0 < dataRemaining
      /\ dataStart + dataRemaining = dataLength
  | _ => True
  end.

(** An [UpdateTime] call for a sample starting at [start]. *)
Definition intervalFrom (start : Z) (e : Event) : Prop :=
  match e with
  | EvUpdateTime a b => a = start /\ (a < b \/ b = INT64_MIN)
  | _ => True
  end.

Definition notUpdateTime (e : Event) : Prop :=
  match e with EvUpdateTime _ _ => False | _ => True end.

Lemma count_app p trace events :
  count p (trace ++ events) = (count p trace + count p events)%nat.
Proof. unfold count. rewrite List.filter_app, length_app. reflexivity. Qed.

Lemma balanced_app trace events :
  balanced trace -> balanced events -> balanced (trace ++ events).
Proof.
  unfold balanced. intros [Hout Hshow] [Hout' Hshow'].
  rewrite !count_app. lia.
Qed.

Section Loop.

Context {W : Type}.
Variable c : Collaborators W.
Variables (data : list Z) (start stop : Z).

(** An invariant of the loop: [P] holds of the locals and the calls made
    whenever the guard is evaluated, [Q] of the calls made at a return. *)
Lemma dispatch_invariant (P : Z -> Z -> list Event -> Prop)
    (Q : list Event -> Prop) :
  (forall dataStart dataRemaining w trace step w' events,
      0 < dataRemaining -> P dataStart dataRemaining trace ->
      iteration c data start stop dataStart dataRemaining w
      = (step, w', events) ->
      match step with
      | Leave _ => Q (trace ++ events)
      | Again dataStart' dataRemaining' _ =>
          P dataStart' dataRemaining' (trace ++ events)
      end) ->
  (forall dataStart dataRemaining trace,
      P dataStart dataRemaining trace -> Q trace) ->
  forall fuel dataStart dataRemaining r w trace r' w' trace',
    P dataStart dataRemaining trace ->
    dispatch c fuel data start stop dataStart dataRemaining r w trace
    = Returned (r', (w', trace')) ->
    Q trace'.
Proof.
  intros Hstep Hexit fuel.
  induction fuel as [| fuel IH];
    intros dataStart dataRemaining r w trace r' w' trace' Hinv Hrun;
    cbn [dispatch] in Hrun;
    destruct (Z.gtb_spec dataRemaining 0) as [Hmore | Hdone].
  - discriminate Hrun.
  - injection Hrun as _ _ <-. exact (Hexit _ _ _ Hinv).
  - destruct (iteration c data start stop dataStart dataRemaining w)
      as [[step w1] events] eqn:Hiteration.
    pose proof (Hstep _ _ _ _ _ _ _ Hmore Hinv Hiteration) as Hnext.
    destruct step as [r1 | dataStart1 dataRemaining1 r1].
    + injection Hrun as _ _ <-. exact Hnext.
    + exact (IH _ _ _ _ _ _ _ _ Hnext Hrun).
  - injection Hrun as _ _ <-. exact (Hexit _ _ _ Hinv).
Qed.

Lemma iteration_balanced dataStart dataRemaining w step w' events :
  iteration c data start stop dataStart dataRemaining w = (step, w', events) ->
  balanced events.
Proof.
  unfold iteration, balanced, count. intros Hrun.
  destruct (InitializeOutputSample c w) as [r1 w1].
  destruct (FAILED r1); [injection Hrun as _ _ <-; split; reflexivity |].
  destruct (Decode c data dataStart dataRemaining start stop w1)
    as [[r2 usedBytes] w2].
  destruct (r2 =? S_FALSE) eqn:Hfalse.
  { injection Hrun as _ _ <-. cbn. rewrite Hfalse. split; reflexivity. }
  destruct (FAILED r2) eqn:Hfailed.
  { injection Hrun as _ _ <-. cbn. rewrite Hfalse, Hfailed.
    split; reflexivity. }
  destruct (DisplayNextFrame c w2) as [r3 w3].
  destruct (r3 =? E_NOTIMPL) eqn:Hshow.
  - destruct (Deliver c OutputSample w3) as [r4 w4].
    destruct (FAILED r4); injection Hrun as _ _ <-; cbn;
      rewrite Hfalse, Hfailed, Hshow; split; reflexivity.
  - destruct (FAILED r3); injection Hrun as _ _ <-; cbn;
      rewrite Hfalse, Hfailed, Hshow; split; reflexivity.
Qed.

Lemma iteration_events dataStart dataRemaining w step w' events :
  iteration c data start stop dataStart dataRemaining w = (step, w', events) ->
  Forall notUpdateTime events
  /\ forall dataLength,
      0 <= dataStart -> 0 < dataRemaining ->
      dataStart + dataRemaining = dataLength ->
      Forall (windowIn dataLength) events.
Proof.
  unfold iteration. intros Hrun.
  destruct (InitializeOutputSample c w) as [r1 w1].
  destruct (FAILED r1);
    [injection Hrun as _ _ <-; split; intros; repeat constructor |].
  destruct (Decode c data dataStart dataRemaining start stop w1)
    as [[r2 usedBytes] w2].
  destruct (r2 =? S_FALSE);
    [injection Hrun as _ _ <-; split; intros; repeat constructor;
     assumption |].
  destruct (FAILED r2);
    [injection Hrun as _ _ <-; split; intros; repeat constructor;
     assumption |].
  destruct (DisplayNextFrame c w2) as [r3 w3].
  destruct (r3 =? E_NOTIMPL).
  - destruct (Deliver c OutputSample w3) as [r4 w4].
    destruct (FAILED r4); injection Hrun as _ _ <-; split; intros;
      repeat constructor; assumption.
  - destruct (FAILED r3); injection Hrun as _ _ <-; split; intros;
      repeat constructor; assumption.
Qed.

Lemma iteration_Again_used dataStart dataRemaining w dataStart' dataRemaining'
    r' w' events :
  decodeConsumes c ->
  iteration c data start stop dataStart dataRemaining w
  = (Again dataStart' dataRemaining' r', w', events) ->
  exists usedBytes,
    1 <= usedBytes <= INT_MAX
    /\ dataStart' = dataStart + usedBytes
    /\ dataRemaining' = to_int (dataRemaining - usedBytes).
Proof.
  unfold iteration. intros Hconsumes Hrun.
  destruct (InitializeOutputSample c w) as [r1 w1].
  destruct (FAILED r1); [discriminate Hrun |].
  destruct (Decode c data dataStart dataRemaining start stop w1)
    as [[r2 usedBytes] w2] eqn:Hdecode.
  destruct (Z.eqb_spec r2 S_FALSE) as [| Hnot]; [discriminate Hrun |].
  destruct (FAILED r2) eqn:Hfailed; [discriminate Hrun |].
  pose proof (Hconsumes _ _ _ _ _ _ _ _ _ Hdecode Hfailed Hnot) as Hused.
  destruct (DisplayNextFrame c w2) as [r3 w3].
  destruct (r3 =? E_NOTIMPL).
  - destruct (Deliver c OutputSample w3) as [r4 w4].
    destruct (FAILED r4); [discriminate Hrun |].
    injection Hrun as <- <- _ _ _. exists usedBytes. repeat split; lia.
  - destruct (FAILED r3); [discriminate Hrun |].
    injection Hrun as <- <- _ _ _. exists usedBytes. repeat split; lia.
Qed.

End Loop.

(** What the part of [Receive] before the loop has called. *)
Lemma prologue_trace {W : Type} cfg (c : Collaborators W) inSample w :
  match prologue cfg c inSample w with
  | Over (Returned (_, (_, trace))) =>
      balanced trace /\ Forall notUpdateTime trace
      /\ forall dataLength, Forall (windowIn dataLength) trace
  | Over _ => True
  | AtLoop _ start stop dataLength _ _ trace =>
      dataLength = to_int (GetActualDataLength inSample)
      /\ trace = [EvMemset dataLength (GetInputBufferPaddingSize cfg);
                  EvUpdateTime start stop]
      /\ start = (GetTime inSample).1.2
      /\ stop = (if ((GetTime inSample).2 <=? start)
                    && negb ((GetTime inSample).2 =? INT64_MIN)
                 then to_int64 (start + m_averageTimePerFrame cfg)
                 else (GetTime inSample).2)
  end.
Proof.
  unfold prologue.
  destruct (negb (dwStreamId cfg =? AM_STREAM_MEDIA)).
  { destruct (Deliver c InputSample w) as [r w1].
    repeat split; intros; repeat constructor. }
  destruct (negb (hasDecoder cfg)).
  { destruct (NDEBUG cfg); [| exact I].
    repeat split; intros; repeat constructor. }
  destruct (FAILED (GetPointer inSample)).
  { repeat split; intros; repeat constructor. }
  destruct (_ && negb (NDEBUG cfg)); [exact I |].
  destruct (memset _ _ _) as [data |]; [| exact I].
  destruct (GetTime inSample) as [[rt start] stop].
  destruct (FAILED rt).
  { repeat split; intros; repeat constructor. }
  destruct (negb (hasPreDecode cfg)); [exact I |].
  repeat split.
Qed.

Lemma steady_consumes r n : 1 <= n <= INT_MAX -> decodeConsumes (steady r n).
Proof.
  intros Hn data dataStart dataRemaining start stop w r' usedBytes w'
    Hdecode _ _.
  injection Hdecode as _ <- _. exact Hn.
Qed.

(** The calls of a run over a sample of 16 bytes in a buffer of 24, with a
    backend that uses 4 bytes per call. *)
Definition steadyTrace : list Event :=
  match Receive (releaseBuild 8) (steady S_OK 4) 10 (sampleOf 24 16) tt with
  | Returned (_, (_, trace)) => trace
  | _ => []
  end.

(** In every run of [Receive] that returns, an output sample was delivered
    exactly as often as [DisplayNextFrame] answered E_NOTIMPL, and
    [DisplayNextFrame] was called exactly as often as [Decode] succeeded
    with a status other than S_FALSE. *)
Theorem Receive_calls_balanced {W : Type} cfg (c : Collaborators W) fuel
    inSample w r w' trace :
  Receive cfg c fuel inSample w = Returned (r, (w', trace)) ->
  count isOutputDelivery trace = count isNotImplemented trace
  /\ count isDisplayNextFrame trace = count isProductiveDecode trace.
Proof.
  unfold Receive. intros Hrun.
  pose proof (prologue_trace cfg c inSample w) as Hprologue.
  destruct (prologue cfg c inSample w)
    as [result | data start stop dataLength r0 w0 trace0].
  - subst result. exact (proj1 Hprologue).
  - destruct Hprologue as (_ & -> & _).
    refine (dispatch_invariant c data start stop (fun _ _ t => balanced t)
              balanced _ _ fuel _ _ _ _ _ _ _ _ _ Hrun).
    + intros dataStart dataRemaining w1 t step w2 events _ Ht Hiteration.
      apply iteration_balanced in Hiteration.
      destruct step; apply balanced_app; assumption.
    + intros _ _ t Ht. exact Ht.
    + split; reflexivity.
Qed.

Lemma Receive_calls_balanced_witness :
  count isOutputDelivery steadyTrace = count isNotImplemented steadyTrace
  /\ count isDisplayNextFrame steadyTrace
     = count isProductiveDecode steadyTrace.
Proof.
  apply (Receive_calls_balanced (releaseBuild 8) (steady S_OK 4) 10
           (sampleOf 24 16) tt S_OK tt steadyTrace).
  vm_compute. reflexivity.
Defined.

(** When every productive [Decode] uses at least one byte, each [Decode]
    call of a run that returns is given a window that starts inside the
    payload, is not empty and ends exactly where the payload ends. *)
Theorem Receive_decode_window {W : Type} cfg (c : Collaborators W) fuel
    inSample w r w' trace dataStart dataRemaining status usedBytes :
  decodeConsumes c ->
  Receive cfg c fuel inSample w = Returned (r, (w', trace)) ->
  EvDecode dataStart dataRemaining status usedBytes ∈ trace ->
  0 <= dataStart /\ 0 < dataRemaining
  /\ dataStart + dataRemaining = to_int (GetActualDataLength inSample).
Proof.
  unfold Receive. intros Hconsumes Hrun Hin.
  pose proof (prologue_trace cfg c inSample w) as Hprologue.
  set (L := to_int (GetActualDataLength inSample)).
  assert (Hall : Forall (windowIn L) trace).
  { destruct (prologue cfg c inSample w)
      as [result | data start stop dataLength r0 w0 trace0].
    - subst result. apply Hprologue.
    - destruct Hprologue as (HL & -> & _). fold L in HL. subst dataLength.
      refine (dispatch_invariant c data start stop
                (fun dataStart dataRemaining t =>
                   0 <= dataStart /\ dataRemaining <= INT_MAX
                   /\ dataStart + dataRemaining = L
                   /\ Forall (windowIn L) t)
                (Forall (windowIn L)) _ _ fuel _ _ _ _ _ _ _ _ _ Hrun).
      + intros ds dr w1 t step w2 events Hmore (Hstart & Hmax & Hsum & Ht)
          Hiteration.
        pose proof (proj2 (iteration_events c data start stop _ _ _ _ _ _
                             Hiteration) L Hstart Hmore Hsum) as Hevents.
        destruct step as [r1 | ds' dr' r1].
        * apply Forall_app. split; assumption.
        * destruct (iteration_Again_used c data start stop _ _ _ _ _ _ _ _
                      Hconsumes Hiteration) as (used & Hused & -> & ->).
          rewrite to_int_small
            by (unfold is_int, INT_MIN, INT_MAX in *; lia).
          repeat split; try lia. apply Forall_app. split; assumption.
      + intros ds dr t (_ & _ & _ & Ht). exact Ht.
      + pose proof (to_int_is_int (GetActualDataLength inSample)) as Hint.
        fold L in Hint. unfold is_int in Hint.
        repeat split; try lia. repeat constructor. }
  rewrite Forall_forall in Hall. exact (Hall _ Hin).
Qed.

Lemma Receive_decode_window_witness :
  0 <= 8 /\ 0 < 8 /\ 8 + 8 = to_int (GetActualDataLength (sampleOf 24 16)).
Proof.
  apply (Receive_decode_window (releaseBuild 8) (steady S_OK 4) 10
           (sampleOf 24 16) tt S_OK tt steadyTrace 8 8 S_OK 4).
  - apply steady_consumes. unfold INT_MAX. lia.
  - vm_compute. reflexivity.
  - vm_compute. do 11 right. left.
Defined.

(** When the frame duration is positive and adding it to the sample's
    start time stays within 64 bits, every interval a run that returns has
    passed to [UpdateTime] starts at the sample's start time and ends after
    it, unless its end is the smallest 64-bit value. *)
Theorem Receive_time_interval {W : Type} cfg (c : Collaborators W) fuel
    inSample w r w' trace status start stop a b :
  GetTime inSample = (status, start, stop) ->
  0 < m_averageTimePerFrame cfg ->
  INT64_MIN <= start ->
  start + m_averageTimePerFrame cfg <= 9223372036854775807 ->
  Receive cfg c fuel inSample w = Returned (r, (w', trace)) ->
  EvUpdateTime a b ∈ trace ->
  a = start /\ (a < b \/ b = INT64_MIN).
Proof.
  unfold Receive. intros Htime Hduration Hlow Hhigh Hrun Hin.
  pose proof (prologue_trace cfg c inSample w) as Hprologue.
  assert (Himpl : forall t, Forall notUpdateTime t ->
                            Forall (intervalFrom start) t).
  { intros t Ht. eapply Forall_impl; [exact Ht |].
    intros []; cbn; tauto. }
  assert (Hall : Forall (intervalFrom start) trace).
  { destruct (prologue cfg c inSample w)
      as [result | data start0 stop0 dataLength r0 w0 trace0].
    - subst result. apply Himpl, Hprologue.
    - destruct Hprologue as (_ & -> & Hstart & Hstop).
      rewrite Htime in Hstart, Hstop. cbn [fst snd] in Hstart, Hstop.
      refine (dispatch_invariant c data start0 stop0
                (fun _ _ t => Forall (intervalFrom start) t)
                (Forall (intervalFrom start)) _ _ fuel _ _ _ _ _ _ _ _ _
                Hrun).
      + intros ds dr w1 t step w2 events _ Ht Hiteration.
        pose proof (proj1 (iteration_events c data start0 stop0 _ _ _ _ _ _
                             Hiteration)) as Hevents.
        destruct step; apply Forall_app; split; auto.
      + intros _ _ t Ht. exact Ht.
      + apply Forall_cons. split; [exact I |].
        apply Forall_cons. split; [| constructor].
        split; [exact Hstart |].
        subst start0 stop0.
        destruct (Z.leb_spec stop start);
          destruct (Z.eqb_spec stop INT64_MIN); cbn [negb andb];
          try (right; assumption); try (left; lia).
        unfold to_int64, INT64_MIN in *.
        rewrite Z.mod_small by lia. left. lia. }
  rewrite Forall_forall in Hall. exact (Hall _ Hin).
Qed.

Lemma Receive_time_interval_witness :
  0 = 0 /\ (0 < 400000 \/ 400000 = INT64_MIN).
Proof.
  apply (Receive_time_interval (releaseBuild 8) (steady S_OK 4) 10
           (sampleOf 24 16) tt S_OK tt steadyTrace S_OK 0 400000 0 400000).
  - reflexivity.
  - reflexivity.
  - unfold INT64_MIN. lia.
  - simpl. lia.
  - vm_compute. reflexivity.
  - vm_compute. right. left.
Defined.

End DispatchFacts.
